(** * fpmsyncd: event loop, reconnection supervisor, warm-restart / EOIU
      reconciliation and adaptive write-flush control

    A shallow embedding of [fpmsyncd/fpmsyncd.cpp].  The C++ [main] threads
    a handful of mutable objects (the multiplexer [s], three timers, the
    global [gSelectTimeout], the write pipeline, the translator [sync])
    through a long sequence of calls; here that is a state monad over a
    record [World], with a writer component recording every call made on a
    collaborator, in program order.  Everything the program reads from
    outside during one loop iteration (what [select] reports, the state
    store, the change feeds, the clock) is an explicit input [Env].

    Diagnostic output ([SWSS_LOG_*], [cout]) is not modelled. *)

From Stdlib Require Import ZArith NArith List String Bool Lia.
Import ListNotations.
Open Scope string_scope.
Open Scope list_scope.
Open Scope Z_scope.

(** ** Constants of the translation unit *)

(** [#define INFINITE -1] *)
Definition INFINITE : Z := -1.
(** [#define FLUSH_TIMEOUT 500] *)
Definition FLUSH_TIMEOUT : Z := 500.
(** [static int gFlushTimeout = FLUSH_TIMEOUT;] has internal linkage and is
    never assigned, so it is the constant it is initialised with. *)
Definition gFlushTimeout : Z := FLUSH_TIMEOUT.
(** [#define SMALL_TRAFFIC 500] *)
Definition SMALL_TRAFFIC : Z := 500.
(** [const uint32_t DEFAULT_ROUTING_RESTART_INTERVAL = 120;] *)
Definition DEFAULT_ROUTING_RESTART_INTERVAL : Z := 120.
(** [const uint32_t DEFAULT_EOIU_HOLD_INTERVAL = 3;] *)
Definition DEFAULT_EOIU_HOLD_INTERVAL : Z := 3.

(** Range of a C [int], used to show that the one subtraction the flush
    controller performs cannot overflow. *)
Definition INT_MIN : Z := - 2 ^ 31.
Definition INT_MAX : Z := 2 ^ 31 - 1.

(** [(time_t) v] for a [uintmax_t] [v]: reinterpretation as a signed 64-bit
    integer. *)
Definition to_time_t (v : Z) : Z :=
  let r := v mod 2 ^ 64 in
  if r <? 2 ^ 63 then r else r - 2 ^ 64.

(** ** Data *)

(** [struct timespec]. *)
Record timespec := mkTimespec { tv_sec : Z; tv_nsec : Z }.

(** A [SelectableTimer]: the interval it was last given and whether
    [start()] has been called on it. *)
Record SelectableTimer := mkTimer { interval : timespec; running : bool }.

(** [SelectableTimer t(timespec{0, 0})] *)
Definition newTimer : SelectableTimer := mkTimer (mkTimespec 0 0) false.

Inductive TimerId := warmStartTimer | eoiuCheckTimer | eoiuHoldTimer.

(** The three timers of a session. *)
Record Timers := mkTimers {
  the_warmStartTimer : SelectableTimer;
  the_eoiuCheckTimer : SelectableTimer;
  the_eoiuHoldTimer : SelectableTimer
}.

Definition timer (ts : Timers) (t : TimerId) : SelectableTimer :=
  match t with
  | warmStartTimer => the_warmStartTimer ts
  | eoiuCheckTimer => the_eoiuCheckTimer ts
  | eoiuHoldTimer => the_eoiuHoldTimer ts
  end.

Definition update_timer (t : TimerId) (v : SelectableTimer) (ts : Timers) : Timers :=
  match t with
  | warmStartTimer => mkTimers v (the_eoiuCheckTimer ts) (the_eoiuHoldTimer ts)
  | eoiuCheckTimer => mkTimers (the_warmStartTimer ts) v (the_eoiuHoldTimer ts)
  | eoiuHoldTimer => mkTimers (the_warmStartTimer ts) (the_eoiuCheckTimer ts) v
  end.

Definition newTimers : Timers := mkTimers newTimer newTimer newTimer.

(** The objects whose addresses are handed to [Select].  A
    [NotificationConsumer] is created afresh on every enable transition, so
    the address of the response channel carries the allocation it names. *)
Inductive Selectable :=
| p_fpm
| p_netlink
| p_deviceMetadataTableSubscriber
| p_routeResponseChannel (id : nat)
| p_timer (t : TimerId).

(** A [Selectable*]; [None] is the null pointer. *)
Definition Ptr := option Selectable.

Definition TimerId_eqb (a b : TimerId) : bool :=
  match a, b with
  | warmStartTimer, warmStartTimer => true
  | eoiuCheckTimer, eoiuCheckTimer => true
  | eoiuHoldTimer, eoiuHoldTimer => true
  | _, _ => false
  end.

Definition Selectable_eqb (a b : Selectable) : bool :=
  match a, b with
  | p_fpm, p_fpm => true
  | p_netlink, p_netlink => true
  | p_deviceMetadataTableSubscriber, p_deviceMetadataTableSubscriber => true
  | p_routeResponseChannel i, p_routeResponseChannel j => Nat.eqb i j
  | p_timer s, p_timer t => TimerId_eqb s t
  | _, _ => false
  end.

(** Pointer comparison [p == &x]. *)
Definition ptr_is (p : Ptr) (x : Selectable) : bool :=
  match p with
  | Some y => Selectable_eqb y x
  | None => false
  end.

(** Modelled from the spec: the states of the restart helper
    ([WarmStart::WarmStartState] is declared outside this translation
    unit). *)
Inductive WarmStartState := WSDISABLED | RESTORED | RECONCILED.

(** [FieldValueTuple] and [KeyOpFieldsValuesTuple]. *)
Definition FieldValueTuple : Type := string * string.
Record KeyOpFieldsValuesTuple := mkKofv {
  kfvKey : string;
  kfvOp : string;
  kfvFieldsValues : list FieldValueTuple
}.
Definition fvField (fv : FieldValueTuple) : string := fst fv.
Definition fvValue (fv : FieldValueTuple) : string := snd fv.

(** Modelled from the spec: the set-operation marker of the configuration
    change feed ([SET_COMMAND] is declared outside this translation unit). *)
Definition SET_COMMAND : string := "SET".

(** Modelled from the spec: the operational-state store's synchronous
    get(table, key, field).  [Table::hget(key, field, value)] writes through
    its third argument; [hget tbl key field old] is the content of [value]
    after the call when it held [old] before.  What the call does for an
    absent field is left to the table. *)
Record Table := mkTable { hget : string -> string -> string -> string }.

(** Faults that can unwind [main]'s [try] block. *)
Inductive Fault :=
| FpmConnectionClosedException
| OtherException (what : string).

(** Calls made on collaborators, in program order. *)
Inductive Action :=
| A_select (timeout : Z)
| A_addSelectable (x : Ptr)
| A_removeSelectable (x : Ptr)
| A_timerStart (t : TimerId) (iv : timespec)
| A_pipelineSize
| A_pipelineGetIdleTime
| A_pipelineFlush (n : N)
| A_accept
| A_checkAndStart
| A_runRestoration
| A_setState (st : WarmStartState)
| A_onWarmStartEnd
| A_setSuppressionEnabled (b : bool)
| A_markRoutesOffloaded
| A_onRouteResponse (key : string) (fvs : list FieldValueTuple)
| A_newChannel (id : nat)
| A_releaseChannel (x : option nat).

(** What the program reads from outside during one iteration of the
    dispatch loop. *)
Record Env := mkEnv {
  temps : Ptr;                (* the object [select] reports; null on timeout *)
  enq : N;                    (* writes the translator enqueued while [select]
                                 ran the ready object's [readData] *)
  idleTime : Z;               (* [pipeline.getIdleTime()] *)
  bgpStateTable : Table;      (* STATE_DB's BGP table at this moment *)
  eoiuHoldCfg : Z;            (* [WarmStart::getWarmStartTimer("eoiu_hold", "bgp")] *)
  keyOpFvsQueue : list KeyOpFieldsValuesTuple;   (* [deviceMetadataTableSubscriber.pops] *)
  notifications : list KeyOpFieldsValuesTuple    (* [routeResponseChannel->pops] *)
}.

(** The translator's restart helper and its reconciliation hook live in
    other translation units; [main] only sequences calls on them. *)
Class RestartHelper (H : Type) := {
  checkAndStart : H -> bool * H;
  getRestartTimer : H -> Z;
  runRestoration : H -> bool * H;
  inProgress : H -> bool;
  isReconciled : H -> bool;
  setState : WarmStartState -> H -> H;
  onWarmStartEnd : H -> H
}.

(** Membership in the multiplexer's registry. *)
Definition registered (x : Selectable) (l : list Selectable) : bool :=
  existsb (Selectable_eqb x) l.

Definition registry_add (x : Selectable) (l : list Selectable) : list Selectable :=
  if registered x l then l else l ++ [x].

Definition registry_remove (x : Selectable) (l : list Selectable) : list Selectable :=
  filter (fun y => negb (Selectable_eqb x y)) l.

Section Daemon.

Context {H : Type} `{RestartHelper H}.

(** The mutable objects of [main]. *)
Record World := mkWorld {
  (* process lifetime *)
  gSelectTimeout : Z;
  pipeline : N;                         (* [pipeline.size()] *)
  suppressionEnabled : bool;            (* [sync.isSuppressionEnabled()] *)
  helper : H;                           (* [sync.getWarmStartHelper()] *)
  routeResponseChannel : option nat;    (* the [unique_ptr] *)
  nextChannel : nat;                    (* allocator of channel objects *)
  (* one session *)
  sel : list Selectable;                (* [Select s] *)
  timers : Timers;
  warmStartEnabled : bool
}.

(** State and call log. *)
Definition M (A : Type) : Type := World -> A * World * list Action.

Definition ret {A} (a : A) : M A := fun w => (a, w, []).

Definition bind {A B} (m : M A) (k : A -> M B) : M B :=
  fun w =>
    let '(a, w1, l1) := m w in
    let '(b, w2, l2) := k a w1 in
    (b, w2, l1 ++ l2).

Definition gets {A} (f : World -> A) : M A := fun w => (f w, w, []).
Definition modify (f : World -> World) : M unit := fun w => (tt, f w, []).
Definition emit (a : Action) : M unit := fun w => (tt, w, [a]).

(** The three components of a run from [w]. *)
Definition result {A} (m : M A) (w : World) : A := fst (fst (m w)).
Definition after {A} (m : M A) (w : World) : World := snd (fst (m w)).
Definition calls {A} (m : M A) (w : World) : list Action := snd (m w).

End Daemon.

Arguments World H : clear implicits.
Arguments M H A : clear implicits.

Declare Scope daemon_scope.
Delimit Scope daemon_scope with daemon.
Notation "x <- c1 ;; c2" := (bind c1 (fun x => c2))
  (at level 61, c1 at next level, right associativity) : daemon_scope.
Notation "c1 ;; c2" := (bind c1 (fun _ => c2))
  (at level 61, right associativity) : daemon_scope.
Open Scope daemon_scope.

Section Program.

Context {H : Type} `{RestartHelper H}.

#[local] Abbreviation World := (World H).
#[local] Abbreviation M := (M H).

(** Field updates. *)
Definition set_gSelectTimeout (v : Z) : M unit :=
  modify (fun w => mkWorld v (pipeline w) (suppressionEnabled w) (helper w)
    (routeResponseChannel w) (nextChannel w) (sel w) (timers w) (warmStartEnabled w)).
Definition set_pipeline (v : N) : M unit :=
  modify (fun w => mkWorld (gSelectTimeout w) v (suppressionEnabled w) (helper w)
    (routeResponseChannel w) (nextChannel w) (sel w) (timers w) (warmStartEnabled w)).
Definition set_suppressionEnabled (v : bool) : M unit :=
  modify (fun w => mkWorld (gSelectTimeout w) (pipeline w) v (helper w)
    (routeResponseChannel w) (nextChannel w) (sel w) (timers w) (warmStartEnabled w)).
Definition set_helper (v : H) : M unit :=
  modify (fun w => mkWorld (gSelectTimeout w) (pipeline w) (suppressionEnabled w) v
    (routeResponseChannel w) (nextChannel w) (sel w) (timers w) (warmStartEnabled w)).
Definition set_routeResponseChannel (v : option nat) : M unit :=
  modify (fun w => mkWorld (gSelectTimeout w) (pipeline w) (suppressionEnabled w) (helper w)
    v (nextChannel w) (sel w) (timers w) (warmStartEnabled w)).
Definition set_nextChannel (v : nat) : M unit :=
  modify (fun w => mkWorld (gSelectTimeout w) (pipeline w) (suppressionEnabled w) (helper w)
    (routeResponseChannel w) v (sel w) (timers w) (warmStartEnabled w)).
Definition set_sel (v : list Selectable) : M unit :=
  modify (fun w => mkWorld (gSelectTimeout w) (pipeline w) (suppressionEnabled w) (helper w)
    (routeResponseChannel w) (nextChannel w) v (timers w) (warmStartEnabled w)).
Definition set_timers (v : Timers) : M unit :=
  modify (fun w => mkWorld (gSelectTimeout w) (pipeline w) (suppressionEnabled w) (helper w)
    (routeResponseChannel w) (nextChannel w) (sel w) v (warmStartEnabled w)).
Definition set_warmStartEnabled (v : bool) : M unit :=
  modify (fun w => mkWorld (gSelectTimeout w) (pipeline w) (suppressionEnabled w) (helper w)
    (routeResponseChannel w) (nextChannel w) (sel w) (timers w) v).

Fixpoint forEach {A} (l : list A) (body : A -> M unit) : M unit :=
  match l with
  | [] => ret tt
  | x :: r => body x ;; forEach r body
  end.

(** *** The write pipeline ([RedisPipeline]) *)

(** Modelled from the spec: the batched write pipeline ([RedisPipeline] is
    declared outside this translation unit) holds a number of pending
    writes, [size()] reports it, [getIdleTime()] reports the time since the
    last flush, and [flush()] forces delivery of all buffered writes. *)
Definition pipeline_size : M N :=
  emit A_pipelineSize ;; gets pipeline.

(** [pipeline.getIdleTime()] *)
Definition pipeline_getIdleTime (e : Env) : M Z :=
  emit A_pipelineGetIdleTime ;; ret (idleTime e).

(** [pipeline.flush()] *)
Definition pipeline_flush : M unit :=
  n <- gets pipeline ;;
  emit (A_pipelineFlush n) ;;
  set_pipeline 0%N.

(** *** The write-flush controller *)

Definition flushPipeline (e : Env) : M unit :=
  remaining <- pipeline_size ;;
  if (remaining =? 0)%N then
    set_gSelectTimeout INFINITE
  else
    idle <- pipeline_getIdleTime e ;;
    if (Z.of_N remaining <? SMALL_TRAFFIC) || (idle >=? gFlushTimeout) || (idle <=? 0)
    then
      pipeline_flush ;;
      set_gSelectTimeout INFINITE
    else
      set_gSelectTimeout (gFlushTimeout - idle).

(** *** The multiplexer ([Select]) *)

(** Modelled from the spec: the multiplexer ([Select] is declared outside
    this translation unit) keeps a registry of selectable sources;
    registering a source twice changes nothing and removal takes effect at
    once.  A null pointer registers nothing; [main] never passes one (see
    [main_attached]). *)
Definition addSelectable (p : Ptr) : M unit :=
  emit (A_addSelectable p) ;;
  match p with
  | Some x => l <- gets sel ;; set_sel (registry_add x l)
  | None => ret tt
  end.

(** [s.removeSelectable(p)] *)
Definition removeSelectable (p : Ptr) : M unit :=
  emit (A_removeSelectable p) ;;
  match p with
  | Some x => l <- gets sel ;; set_sel (registry_remove x l)
  | None => ret tt
  end.

(** [&t] for one of the three timers. *)
Definition addr (t : TimerId) : Ptr := Some (p_timer t).

(** *** Timers *)

(** Modelled from the spec: a timer handle keeps the interval it was given
    and is unarmed until started ([SelectableTimer] is declared outside this
    translation unit).

    [t.setInterval(iv)] *)
Definition setInterval (t : TimerId) (iv : timespec) : M unit :=
  ts <- gets timers ;;
  set_timers (update_timer t (mkTimer iv (running (timer ts t))) ts).

(** [t.start()] *)
Definition start (t : TimerId) : M unit :=
  ts <- gets timers ;;
  emit (A_timerStart t (interval (timer ts t))) ;;
  set_timers (update_timer t (mkTimer (interval (timer ts t)) true) ts).

(** *** Calls on the translator and its restart helper *)

Definition sync_checkAndStart : M bool :=
  h <- gets helper ;;
  emit A_checkAndStart ;;
  set_helper (snd (checkAndStart h)) ;;
  ret (fst (checkAndStart h)).

Definition sync_runRestoration : M bool :=
  h <- gets helper ;;
  emit A_runRestoration ;;
  set_helper (snd (runRestoration h)) ;;
  ret (fst (runRestoration h)).

Definition sync_setState (st : WarmStartState) : M unit :=
  h <- gets helper ;;
  emit (A_setState st) ;;
  set_helper (setState st h).

Definition sync_onWarmStartEnd : M unit :=
  h <- gets helper ;;
  emit A_onWarmStartEnd ;;
  set_helper (onWarmStartEnd h).

(** Modelled from the spec: the translator's suppression flag, a boolean
    written by [setSuppressionEnabled] and read by [isSuppressionEnabled];
    no other call changes it. *)
Definition sync_setSuppressionEnabled (b : bool) : M unit :=
  emit (A_setSuppressionEnabled b) ;;
  set_suppressionEnabled b.

Definition sync_isSuppressionEnabled : M bool := gets suppressionEnabled.

Definition sync_markRoutesOffloaded : M unit := emit A_markRoutesOffloaded.

Definition sync_onRouteResponse (key : string) (fvs : list FieldValueTuple) : M unit :=
  emit (A_onRouteResponse key fvs).

(** *** The response channel ([std::unique_ptr<NotificationConsumer>]) *)

(** [routeResponseChannel = std::make_unique<NotificationConsumer>(...)] *)
Definition make_routeResponseChannel : M unit :=
  old <- gets routeResponseChannel ;;
  id <- gets nextChannel ;;
  emit (A_newChannel id) ;;
  set_nextChannel (S id) ;;
  set_routeResponseChannel (Some id) ;;
  match old with
  | Some _ => emit (A_releaseChannel old)
  | None => ret tt
  end.

(** [routeResponseChannel.get()] *)
Definition routeResponseChannel_get : M Ptr :=
  c <- gets routeResponseChannel ;;
  ret (option_map p_routeResponseChannel c).

(** [routeResponseChannel.reset()] *)
Definition routeResponseChannel_reset : M unit :=
  c <- gets routeResponseChannel ;;
  emit (A_releaseChannel c) ;;
  set_routeResponseChannel None.

(** *** EOIU flags *)

Definition eoiuFlagsSet (tbl : Table) : bool :=
  let value := "" in
  let value := hget tbl "IPv4|eoiu" "state" value in
  if negb (value =? "reached")%string then false
  else
    let value := hget tbl "IPv6|eoiu" "state" value in
    if negb (value =? "reached")%string then false
    else true.

(** *** Branches of the dispatch loop *)

(** Lines 192-209: the warm-restart timer or the EOIU hold timer expired. *)
Definition reconciliationComplete (e : Env) : M unit :=
  sync_onWarmStartEnd ;;
  removeSelectable (temps e) ;;
  pipeline_flush.

(** Lines 216-228: the hold timer is given its interval, started and
    registered. *)
Definition armHoldTimer (e : Env) : M unit :=
  let eoiuHoldIval := eoiuHoldCfg e in
  (if eoiuHoldIval =? 0 then
     setInterval eoiuHoldTimer (mkTimespec DEFAULT_EOIU_HOLD_INTERVAL 0)
   else
     setInterval eoiuHoldTimer (mkTimespec (to_time_t eoiuHoldIval) 0)) ;;
  start eoiuHoldTimer ;;
  addSelectable (addr eoiuHoldTimer).

(** Lines 210-242: the EOIU check timer expired.  In the branch that found
    both flags, line 230 deregisters the check timer after lines 216-228
    have registered the hold timer. *)
Definition eoiuCheck (e : Env) : M unit :=
  h <- gets helper ;;
  if inProgress h then
    if eoiuFlagsSet (bgpStateTable e) then
      armHoldTimer e ;;
      removeSelectable (addr eoiuCheckTimer)
    else
      setInterval eoiuCheckTimer (mkTimespec 1 0) ;;
      start eoiuCheckTimer
  else
    removeSelectable (addr eoiuCheckTimer).

(** Lines 264-295: one field of a configuration record. *)
Definition handleField (fv : FieldValueTuple) : M unit :=
  let field := fvField fv in
  let value := fvValue fv in
  if negb (field =? "suppress-fib-pending")%string then ret tt
  else
    let shouldEnable := (value =? "enabled")%string in
    enabled <- sync_isSuppressionEnabled ;;
    if shouldEnable && negb enabled then
      make_routeResponseChannel ;;
      sync_setSuppressionEnabled true ;;
      p <- routeResponseChannel_get ;;
      addSelectable p
    else if negb shouldEnable && enabled then
      sync_markRoutesOffloaded ;;
      sync_setSuppressionEnabled false ;;
      p <- routeResponseChannel_get ;;
      removeSelectable p ;;
      routeResponseChannel_reset
    else ret tt.

(** Lines 248-296: one record of the configuration change feed. *)
Definition handleKeyOpFvs (keyOpFvs : KeyOpFieldsValuesTuple) : M unit :=
  let key := kfvKey keyOpFvs in
  let op := kfvOp keyOpFvs in
  let fvs := kfvFieldsValues keyOpFvs in
  if negb (op =? SET_COMMAND)%string then ret tt
  else if negb (key =? "localhost")%string then ret tt
  else forEach fvs handleField.

(** Lines 243-297. *)
Definition deviceMetadataChanged (e : Env) : M unit :=
  forEach (keyOpFvsQueue e) handleKeyOpFvs.

(** Lines 298-310. *)
Definition routeResponses (e : Env) : M unit :=
  forEach (notifications e)
    (fun notification =>
       sync_onRouteResponse (kfvKey notification) (kfvFieldsValues notification)).

(** [routeResponseChannel && (temps == routeResponseChannel.get())] *)
Definition is_routeResponseChannel (p : Ptr) (c : option nat) : bool :=
  match c with
  | Some id => ptr_is p (p_routeResponseChannel id)
  | None => false
  end.

(** Lines 192-314: what the loop does with the object [select] reported. *)
Definition dispatch (e : Env) : M unit :=
  let temps := temps e in
  if ptr_is temps (p_timer warmStartTimer) || ptr_is temps (p_timer eoiuHoldTimer) then
    reconciliationComplete e
  else if ptr_is temps (p_timer eoiuCheckTimer) then
    eoiuCheck e
  else if ptr_is temps p_deviceMetadataTableSubscriber then
    deviceMetadataChanged e
  else
    c <- gets routeResponseChannel ;;
    if is_routeResponseChannel temps c then
      routeResponses e
    else
      enabled <- gets warmStartEnabled ;;
      h <- gets helper ;;
      if negb enabled || isReconciled h then
        flushPipeline e
      else ret tt.

(** [s.select(&temps, gSelectTimeout)]: the wait itself, during which the
    ready object's [readData] runs and the translator may enqueue writes. *)
Definition select (e : Env) : M unit :=
  timeout <- gets gSelectTimeout ;;
  emit (A_select timeout) ;;
  n <- gets pipeline ;;
  set_pipeline (n + enq e)%N.

(** One turn of the inner [while (true)]. *)
Definition iteration (e : Env) : M unit :=
  select e ;;
  dispatch e.

(** One turn of the inner loop as the outside world drives it: [select]
    returns with [e], or a fault is raised while it waits. *)
Inductive Turn :=
| Ready (e : Env)
| Raise (f : Fault).

(** The inner loop over a finite prefix of turns; [None] when the prefix
    ends with the loop still running. *)
Fixpoint dispatchLoop (turns : list Turn) : M (option Fault) :=
  match turns with
  | [] => ret None
  | Ready e :: rest => iteration e ;; dispatchLoop rest
  | Raise f :: _ =>
      timeout <- gets gSelectTimeout ;;
      emit (A_select timeout) ;;
      ret (Some f)
  end.

(** How setting up the feed link goes: the constructor of [FpmLink]
    (line 115) raises, or [accept] (line 131) raises, or the feed connects. *)
Inductive Setup :=
| LinkFails (f : Fault)
| AcceptFails (f : Fault)
| Connected.

(** What one session meets: how its set-up goes, and the turns of its loop. *)
Record SessionEnv := mkSessionEnv {
  setup : Setup;
  turns : list Turn
}.

(** The fault, if any, that keeps a session from reaching its loop. *)
Definition acceptFault (se : SessionEnv) : option Fault :=
  match setup se with
  | LinkFails f | AcceptFails f => Some f
  | Connected => None
  end.

(** Lines 115-122: the objects constructed inside [try]. *)
Definition freshSessionObjects : M unit :=
  set_sel [] ;;
  set_timers newTimers ;;
  set_warmStartEnabled false.

(** Lines 115-177: from the top of [try] to the inner loop. *)
Definition sessionStart (se : SessionEnv) : M (option Fault) :=
  match setup se with
  | LinkFails f =>
      (* line 115 raises: nothing of the body of [try] has run *)
      ret (Some f)
  | AcceptFails f =>
      freshSessionObjects ;;
      pipeline_flush ;;
      emit A_accept ;;
      ret (Some f)
  | Connected =>
      freshSessionObjects ;;
      pipeline_flush ;;
      emit A_accept ;;
      addSelectable (Some p_fpm) ;;
      addSelectable (Some p_netlink) ;;
      addSelectable (Some p_deviceMetadataTableSubscriber) ;;
      enabled <- sync_isSuppressionEnabled ;;
      (if enabled then
         p <- routeResponseChannel_get ;; addSelectable p
       else ret tt) ;;
      warmStart <- sync_checkAndStart ;;
      set_warmStartEnabled warmStart ;;
      (if warmStart then
         h <- gets helper ;;
         let warmRestartIval := getRestartTimer h in
         (if warmRestartIval =? 0 then
            setInterval warmStartTimer (mkTimespec DEFAULT_ROUTING_RESTART_INTERVAL 0)
          else
            setInterval warmStartTimer (mkTimespec warmRestartIval 0)) ;;
         restored <- sync_runRestoration ;;
         (if restored then
            start warmStartTimer ;;
            addSelectable (addr warmStartTimer)
          else ret tt) ;;
         setInterval eoiuCheckTimer (mkTimespec 5 0) ;;
         start eoiuCheckTimer ;;
         addSelectable (addr eoiuCheckTimer)
       else
         sync_setState WSDISABLED) ;;
      set_gSelectTimeout INFINITE ;;
      ret None
  end.

(** Lines 113-316: the body of [try]. *)
Definition session (se : SessionEnv) : M (option Fault) :=
  r <- sessionStart se ;;
  match r with
  | Some f => ret (Some f)
  | None => dispatchLoop (turns se)
  end.

(** How a run of the supervisor over finitely many sessions ends. *)
Inductive Outcome :=
| Terminated (f : Fault)     (* a fault left [main] *)
| Running.                   (* the given sessions are used up *)

(** Lines 111-321: the outer [while (true)] with its [try]/[catch]. *)
Fixpoint supervisor (sessions : list SessionEnv) : M Outcome :=
  match sessions with
  | [] => ret Running
  | se :: rest =>
      r <- session se ;;
      match r with
      | Some FpmConnectionClosedException => supervisor rest
      | Some f => ret (Terminated f)
      | None => ret Running
      end
  end.

(** Lines 103-109: the suppression flag read from CONFIG_DB at startup. *)
Definition startup (suppressionEnabledStr : string) : M unit :=
  if (suppressionEnabledStr =? "enabled")%string then
    make_routeResponseChannel ;;
    sync_setSuppressionEnabled true
  else ret tt.

(** [main] from line 103 on. *)
Definition main (suppressionEnabledStr : string) (sessions : list SessionEnv) : M Outcome :=
  startup suppressionEnabledStr ;;
  supervisor sessions.

(** The objects of [main] before line 103, given the translator's helper. *)
Definition initialWorld (h : H) : World :=
  mkWorld 0 0%N false h None 0%nat [] newTimers false.

(** The timer [t] is registered with the multiplexer. *)
Definition timer_registered (t : TimerId) (w : World) : bool :=
  registered (p_timer t) (sel w).

(** The timer [t] is armed: started, and registered with the multiplexer. *)
Definition armed (t : TimerId) (w : World) : bool :=
  running (timer (timers w) t) && timer_registered t w.

(** [select] reported either nothing or an object that is registered. *)
Definition reported_ok (e : Env) (w : World) : bool :=
  match temps e with
  | None => true
  | Some x => registered x (sel w)
  end.

(** Every turn of the loop reports a registered object. *)
Fixpoint valid_turns (turns : list Turn) (w : World) : bool :=
  match turns with
  | [] => true
  | Ready e :: rest => reported_ok e w && valid_turns rest (after (iteration e) w)
  | Raise _ :: _ => true
  end.

(** The first fault raised during the given turns of the loop. *)
Fixpoint raised_in_loop (turns : list Turn) : option Fault :=
  match turns with
  | [] => None
  | Ready _ :: rest => raised_in_loop rest
  | Raise f :: _ => Some f
  end.

(** The first fault raised in a session: while it is set up, or else in its
    loop. *)
Definition raised (se : SessionEnv) : option Fault :=
  match acceptFault se with
  | Some f => Some f
  | None => raised_in_loop (turns se)
  end.

End Program.

(** ** A restart helper to run the program with *)

(** Modelled from the spec: the restart-helper collaborator and the
    reconciliation hook ([warmRestartHelper.cpp] and [routesync.cpp] are not
    among the sources).  The helper knows whether warm restart is enabled,
    the configured restart timer (0 when none is configured) and whether
    replay has work to do; restoration puts it in progress ([RESTORED]), and
    the reconciliation-finished hook is its only transition to
    [RECONCILED], a no-op when reconciliation is not in progress. *)
Record SpecHelper := mkSpecHelper {
  sh_enabled : bool;
  sh_restartTimer : Z;
  sh_hasWork : bool;
  sh_state : WarmStartState
}.

Definition sh_setState (st : WarmStartState) (h : SpecHelper) : SpecHelper :=
  mkSpecHelper (sh_enabled h) (sh_restartTimer h) (sh_hasWork h) st.

Definition sh_inProgress (h : SpecHelper) : bool :=
  match sh_state h with RESTORED => true | _ => false end.

Definition sh_isReconciled (h : SpecHelper) : bool :=
  match sh_state h with RECONCILED => true | _ => false end.

#[export] Instance SpecHelper_ops : RestartHelper SpecHelper := {
  checkAndStart h := (sh_enabled h, h);
  getRestartTimer h := sh_restartTimer h;
  runRestoration h := (sh_hasWork h, sh_setState RESTORED h);
  inProgress := sh_inProgress;
  isReconciled := sh_isReconciled;
  setState := sh_setState;
  onWarmStartEnd h := if sh_inProgress h then sh_setState RECONCILED h else h
}.

(** An iteration's input with nothing ready and nothing to read. *)
Definition quiet : Env :=
  mkEnv None 0%N 0 (mkTable (fun _ _ old => old)) 0 [] [].

Definition with_temps (p : Ptr) (e : Env) : Env :=
  mkEnv p (enq e) (idleTime e) (bgpStateTable e) (eoiuHoldCfg e)
        (keyOpFvsQueue e) (notifications e).
Definition with_enq (n : N) (e : Env) : Env :=
  mkEnv (temps e) n (idleTime e) (bgpStateTable e) (eoiuHoldCfg e)
        (keyOpFvsQueue e) (notifications e).
Definition with_idleTime (d : Z) (e : Env) : Env :=
  mkEnv (temps e) (enq e) d (bgpStateTable e) (eoiuHoldCfg e)
        (keyOpFvsQueue e) (notifications e).
Definition with_bgpStateTable (t : Table) (e : Env) : Env :=
  mkEnv (temps e) (enq e) (idleTime e) t (eoiuHoldCfg e)
        (keyOpFvsQueue e) (notifications e).
Definition with_eoiuHoldCfg (v : Z) (e : Env) : Env :=
  mkEnv (temps e) (enq e) (idleTime e) (bgpStateTable e) v
        (keyOpFvsQueue e) (notifications e).
Definition with_keyOpFvsQueue (q : list KeyOpFieldsValuesTuple) (e : Env) : Env :=
  mkEnv (temps e) (enq e) (idleTime e) (bgpStateTable e) (eoiuHoldCfg e)
        q (notifications e).
Definition with_notifications (q : list KeyOpFieldsValuesTuple) (e : Env) : Env :=
  mkEnv (temps e) (enq e) (idleTime e) (bgpStateTable e) (eoiuHoldCfg e)
        (keyOpFvsQueue e) q.

(** A state store holding the given values of the two EOIU flags; an absent
    field leaves the caller's variable as it was. *)
Definition eoiuTable (v4 v6 : option string) : Table :=
  mkTable (fun key field old =>
    if (field =? "state")%string then
      if (key =? "IPv4|eoiu")%string then
        match v4 with Some v => v | None => old end
      else if (key =? "IPv6|eoiu")%string then
        match v6 with Some v => v | None => old end
      else old
    else old).

(** *** A session in which both reconciliation timers expire *)

(** Warm restart enabled, no restart timer configured, replay has work. *)
Definition helperWarm : SpecHelper := mkSpecHelper true 0 true WSDISABLED.

(** The poll tick finds both flags reached. *)
Definition tickReached : Env :=
  with_bgpStateTable (eoiuTable (Some "reached") (Some "reached"))
    (with_temps (addr eoiuCheckTimer) quiet).

(** The poll tick finds the IPv4 flag reached and no IPv6 flag in the
    store. *)
Definition tickIPv6Absent : Env :=
  with_bgpStateTable (eoiuTable (Some "reached") None)
    (with_temps (addr eoiuCheckTimer) quiet).

(** The hold timer expires. *)
Definition holdExpires : Env := with_temps (addr eoiuHoldTimer) quiet.

(** The feed delivers a burst: 600 writes are pending, 100 ms after the
    last flush. *)
Definition burst : Env :=
  with_enq 600%N (with_idleTime 100 (with_temps (Some p_fpm) quiet)).

(** The warm-start timer expires. *)
Definition warmStartExpires : Env := with_temps (addr warmStartTimer) quiet.

(** The feed delivers 700 writes, 250 ms after the last flush. *)
Definition lateBurst : Env :=
  with_enq 700%N (with_idleTime 250 (with_temps (Some p_fpm) quiet)).

(** Poll tick at 5 s, hold timer at 8 s, a burst just before the warm-start
    timer expires at 120 s. *)
Definition sessionBothTimers : SessionEnv :=
  mkSessionEnv Connected
    [Ready tickReached; Ready holdExpires; Ready burst; Ready warmStartExpires].

(** The same session up to and including the burst. *)
Definition sessionUpToBurst : SessionEnv :=
  mkSessionEnv Connected [Ready tickReached; Ready holdExpires; Ready burst].

(** *** A session cut short with writes pending *)

(** The feed delivers three route events while reconciliation is in
    progress. *)
Definition threeWrites : Env := with_enq 3%N (with_temps (Some p_fpm) quiet).

(** The feed delivers three route events, then closes. *)
Definition sessionClosed : SessionEnv :=
  mkSessionEnv Connected [Ready threeWrites; Raise FpmConnectionClosedException].

(** The feed delivers three route events, then a message that cannot be
    decoded. *)
Definition sessionBroken : SessionEnv :=
  mkSessionEnv Connected [Ready threeWrites; Raise (OtherException "bad message")].

(** The feed link cannot be set up. *)
Definition sessionNoLink : SessionEnv :=
  mkSessionEnv (LinkFails (OtherException "bind")) [Ready threeWrites].

(** A burst is deferred by the controller, then the feed closes. *)
Definition sessionDeferredThenClosed : SessionEnv :=
  mkSessionEnv Connected
    [Ready tickReached; Ready holdExpires; Ready burst;
     Raise FpmConnectionClosedException].

(** A session that starts and waits once. *)
Definition sessionIdle : SessionEnv := mkSessionEnv Connected [Ready quiet].

(** *** A session without warm restart *)

(** Warm restart disabled. *)
Definition helperCold : SpecHelper := mkSpecHelper false 0 false WSDISABLED.

(** The feed delivers three route events, 10 ms after the last flush. *)
Definition threeWritesIdle : Env := with_idleTime 10 threeWrites.

(** 10,000 writes arrive within 50 ms; the loop then wakes on its timeout
    with 500 ms of idle time. *)
Definition flood : Env :=
  with_enq 10000%N (with_idleTime 50 (with_temps (Some p_fpm) quiet)).
Definition wake500 : Env := with_idleTime 500 quiet.

(** *** Configuration records *)

Definition suppressRecord (value : string) : KeyOpFieldsValuesTuple :=
  mkKofv "localhost" SET_COMMAND [("suppress-fib-pending", value)].


(** A batch of records that ask for nothing. *)
Definition foreignBatch : Env :=
  with_keyOpFvsQueue
    [mkKofv "localhost" "DEL" [("suppress-fib-pending", "enabled")];
     mkKofv "other" SET_COMMAND [("suppress-fib-pending", "enabled")];
     mkKofv "localhost" SET_COMMAND [("hostname", "sonic")]]
    (with_temps (Some p_deviceMetadataTableSubscriber) quiet).

(** *** Response notifications *)

(** Two response notifications arrive on channel 0. *)
Definition twoResponses : Env :=
  with_notifications
    [mkKofv "10.0.0.0/24" "SET" [("err_str", "SWSS_RC_SUCCESS")];
     mkKofv "10.0.1.0/24" "SET" [("err_str", "SWSS_RC_SUCCESS")]]
    (with_temps (Some (p_routeResponseChannel 0)) quiet).

(** *** Further worlds and inputs *)

(** The daemon after startup with suppression enabled. *)
Definition startedSuppressed : World SpecHelper :=
  after (startup "enabled") (initialWorld helperWarm).

(** A record that disables suppression arrives. *)
Definition disableBatch : Env :=
  with_keyOpFvsQueue [suppressRecord "disabled"]
    (with_temps (Some p_deviceMetadataTableSubscriber) quiet).

(** What a session without warm restart may have left behind. *)
Definition leftover : World SpecHelper :=
  mkWorld 400 0%N false helperCold None 0%nat
    [p_fpm; p_timer eoiuHoldTimer]
    (mkTimers newTimer newTimer (mkTimer (mkTimespec 3 0) true)) true.

(** A session without warm restart: light traffic, then a flood, then a
    wake on the timeout. *)
Definition sessionCold : SessionEnv :=
  mkSessionEnv Connected [Ready threeWritesIdle; Ready flood; Ready wake500].

(** A session without warm restart in which the feed delivers a flood. *)
Definition floodedWorld : World SpecHelper :=
  after (select flood) (after (sessionStart sessionIdle) (initialWorld helperCold)).

(** ** Observations on call logs *)

Definition is_flush (a : Action) : bool :=
  match a with A_pipelineFlush _ => true | _ => false end.

Definition is_timerStart (a : Action) : bool :=
  match a with A_timerStart _ _ => true | _ => false end.

Definition is_select (a : Action) : bool :=
  match a with A_select _ => true | _ => false end.

(** The reconciliation-finished hook. *)
Definition is_hook (a : Action) : bool :=
  match a with A_onWarmStartEnd => true | _ => false end.

(** [t.start()] *)
Definition is_start_of (t : TimerId) (a : Action) : bool :=
  match a with A_timerStart u _ => TimerId_eqb u t | _ => false end.

(** [s.addSelectable(&t)] *)
Definition is_add_of (t : TimerId) (a : Action) : bool :=
  match a with
  | A_addSelectable (Some (p_timer u)) => TimerId_eqb u t
  | _ => false
  end.

(** [s.removeSelectable(&t)] *)
Definition is_removal_of (t : TimerId) (a : Action) : bool :=
  match a with
  | A_removeSelectable (Some (p_timer u)) => TimerId_eqb u t
  | _ => false
  end.

(** Calls that concern the reconciliation timers. *)
Definition timer_call (a : Action) : bool :=
  match a with
  | A_onWarmStartEnd => true
  | A_timerStart _ _ => true
  | A_addSelectable (Some (p_timer _)) => true
  | A_removeSelectable (Some (p_timer _)) => true
  | _ => false
  end.

(** Delivery of a response notification to the translator. *)
Definition is_response (a : Action) : bool :=
  match a with A_onRouteResponse _ _ => true | _ => false end.

(** The controller step starts by asking the pipeline for its size. *)
Definition is_pipelineSize (a : Action) : bool :=
  match a with A_pipelineSize => true | _ => false end.

(** Calls the suppression handler may make. *)
Definition config_call (a : Action) : bool :=
  match a with
  | A_newChannel _ | A_releaseChannel _ | A_setSuppressionEnabled _
  | A_markRoutesOffloaded => true
  | A_addSelectable p | A_removeSelectable p =>
      match p with
      | Some (p_routeResponseChannel _) | None => true
      | _ => false
      end
  | _ => false
  end.

(** Calls on the write pipeline. *)
Definition pipeline_call (a : Action) : bool :=
  match a with
  | A_pipelineSize | A_pipelineGetIdleTime | A_pipelineFlush _ => true
  | _ => false
  end.

(** How many calls of the log satisfy [q]. *)
Definition count_calls (q : Action -> bool) (l : list Action) : nat :=
  List.length (filter q l).

(** The pipeline was flushed somewhere in the log. *)
Definition flushed (l : list Action) : bool := existsb is_flush l.

(** The timeout of the first wait in the log. *)
Fixpoint first_select (l : list Action) : option Z :=
  match l with
  | [] => None
  | A_select t :: _ => Some t
  | _ :: r => first_select r
  end.

(** ** Views used in the proofs *)

Section Views.

Context {H : Type} `{RestartHelper H}.

(** Which branch of lines 192-314 an iteration takes. *)
Inductive dispatch_case (e : Env) (w : World H) : M H unit -> Prop :=
| DC_reconcile (t : TimerId) :
    temps e = addr t -> t = warmStartTimer \/ t = eoiuHoldTimer ->
    dispatch_case e w (reconciliationComplete e)
| DC_eoiuCheck :
    temps e = addr eoiuCheckTimer ->
    dispatch_case e w (eoiuCheck e)
| DC_config :
    temps e = Some p_deviceMetadataTableSubscriber ->
    dispatch_case e w (deviceMetadataChanged e)
| DC_response (id : nat) :
    routeResponseChannel w = Some id ->
    temps e = Some (p_routeResponseChannel id) ->
    dispatch_case e w (routeResponses e)
| DC_controller :
    negb (warmStartEnabled w) || isReconciled (helper w) = true ->
    dispatch_case e w (flushPipeline e)
| DC_skip :
    negb (warmStartEnabled w) || isReconciled (helper w) = false ->
    dispatch_case e w (ret tt).

(** The interval the hold timer is given at line 220 or 225. *)
Definition eoiuHoldInterval (e : Env) : timespec :=
  if eoiuHoldCfg e =? 0 then mkTimespec DEFAULT_EOIU_HOLD_INTERVAL 0
  else mkTimespec (to_time_t (eoiuHoldCfg e)) 0.

(** [m] leaves the observation [f] of the world as it was. *)
Definition keeps {A B} (f : World H -> B) (m : M H A) : Prop :=
  forall w, f (after m w) = f w.

(** Every call [m] makes satisfies [q]. *)
Definition emits {A} (q : Action -> bool) (m : M H A) : Prop :=
  forall w, forallb q (calls m w) = true.

(** The response channel is held exactly when suppression is marked
    enabled. *)
Definition attached_inv (w : World H) : Prop :=
  suppressionEnabled w
  = match routeResponseChannel w with Some _ => true | None => false end.

(** At most one of the EOIU-poll and the EOIU-hold timer is registered. *)
Definition eoiu_exclusive (w : World H) : bool :=
  negb (timer_registered eoiuCheckTimer w && timer_registered eoiuHoldTimer w).

(** What one iteration does to the reconciliation timers: the registration
    of each timer afterwards, and the timer calls made, in order. *)
Inductive timer_step (e : Env) (w w' : World H) (l : list Action) : Prop :=
| TS_reconcile (t : TimerId) :
    temps e = addr t -> t = warmStartTimer \/ t = eoiuHoldTimer ->
    (forall u, timer_registered u w' = negb (TimerId_eqb u t) && timer_registered u w) ->
    filter timer_call l = [A_onWarmStartEnd; A_removeSelectable (addr t)] ->
    timer_step e w w' l
| TS_hold (iv : timespec) :
    temps e = addr eoiuCheckTimer ->
    timer_registered eoiuCheckTimer w' = false ->
    timer_registered eoiuHoldTimer w' = true ->
    timer_registered warmStartTimer w' = timer_registered warmStartTimer w ->
    filter timer_call l =
      [A_timerStart eoiuHoldTimer iv; A_addSelectable (addr eoiuHoldTimer);
       A_removeSelectable (addr eoiuCheckTimer)] ->
    timer_step e w w' l
| TS_poll_again :
    temps e = addr eoiuCheckTimer ->
    (forall u, timer_registered u w' = timer_registered u w) ->
    filter timer_call l = [A_timerStart eoiuCheckTimer (mkTimespec 1 0)] ->
    timer_step e w w' l
| TS_poll_end :
    temps e = addr eoiuCheckTimer ->
    (forall u, timer_registered u w' =
               negb (TimerId_eqb u eoiuCheckTimer) && timer_registered u w) ->
    filter timer_call l = [A_removeSelectable (addr eoiuCheckTimer)] ->
    timer_step e w w' l
| TS_other :
    (forall u, timer_registered u w' = timer_registered u w) ->
    filter timer_call l = [] ->
    timer_step e w w' l.

End Views.

(** ** Further observations *)

(** What a field of a configuration record asks for: [Some true] to enable
    suppression, [Some false] to disable it, [None] when it is another
    field. *)
Definition field_request (fv : FieldValueTuple) : option bool :=
  if (fvField fv =? "suppress-fib-pending")%string
  then Some (fvValue fv =? "enabled")%string
  else None.

(** The requests of a list of fields, in order. *)
Definition field_requests (fvs : list FieldValueTuple) : list bool :=
  flat_map (fun fv => match field_request fv with
                      | Some b => [b]
                      | None => []
                      end) fvs.

(** The requests of one record, in field order; none when the record is not
    a set operation on "localhost". *)
Definition record_requests (r : KeyOpFieldsValuesTuple) : list bool :=
  if (kfvOp r =? SET_COMMAND)%string && (kfvKey r =? "localhost")%string
  then field_requests (kfvFieldsValues r)
  else [].

(** The requests of a drained batch, in arrival order. *)
Definition batch_requests (q : list KeyOpFieldsValuesTuple) : list bool :=
  flat_map record_requests q.

(** A null pointer handed to the multiplexer. *)
Definition is_null_registration (a : Action) : bool :=
  match a with
  | A_addSelectable None | A_removeSelectable None => true
  | _ => false
  end.

(** A call that hands no null pointer to the multiplexer. *)
Definition not_null (a : Action) : bool := negb (is_null_registration a).

(** A wait without bound, or one of more than 0 and less than 500 ms. *)
Definition wait_ok (a : Action) : bool :=
  match a with
  | A_select t => (t =? INFINITE) || ((0 <? t) && (t <? FLUSH_TIMEOUT))
  | _ => true
  end.

(** The log of the response notifications of a batch, in arrival order. *)
Definition deliveries (q : list KeyOpFieldsValuesTuple) : list Action :=
  map (fun n => A_onRouteResponse (kfvKey n) (kfvFieldsValues n)) q.

Section MoreViews.

Context {H : Type} `{RestartHelper H}.

(** Whether the last branch of the dispatch loop runs the controller. *)
Definition controller_enabled (w : World H) : bool :=
  negb (warmStartEnabled w) || isReconciled (helper w).

(** The select timeout is infinite, or more than 0 and less than 500 ms. *)
Definition timeout_ok (w : World H) : bool :=
  (gSelectTimeout w =? INFINITE)
  || ((0 <? gSelectTimeout w) && (gSelectTimeout w <? FLUSH_TIMEOUT)).

(** A response channel is registered with the multiplexer exactly when it
    is the one currently held. *)
Definition channel_registered_inv (w : World H) : Prop :=
  forall id, registered (p_routeResponseChannel id) (sel w) = true
             <-> routeResponseChannel w = Some id.

(** The channel is held exactly when suppression is marked enabled, and is
    then the only channel registered. *)
Definition channel_inv (w : World H) : Prop :=
  attached_inv w /\ channel_registered_inv w.

(** No reconciliation timer is registered. *)
Definition no_timer_registered (w : World H) : bool :=
  negb (timer_registered warmStartTimer w)
  && negb (timer_registered eoiuCheckTimer w)
  && negb (timer_registered eoiuHoldTimer w).

(** Two worlds that agree on the objects that outlive a session. *)
Definition same_process_state (w1 w2 : World H) : Prop :=
  pipeline w1 = pipeline w2
  /\ suppressionEnabled w1 = suppressionEnabled w2
  /\ helper w1 = helper w2
  /\ routeResponseChannel w1 = routeResponseChannel w2
  /\ nextChannel w1 = nextChannel w2.

End MoreViews.

(** Symbolic execution from a world given by its fields: unfold the program
    and the monad, and reduce projections of the records it builds; tests
    on data the program reads are left for the proof to decide. *)
Ltac run :=
  lazy beta iota zeta delta
    [ result after calls bind ret gets modify emit forEach
      set_gSelectTimeout set_pipeline set_suppressionEnabled set_helper
      set_routeResponseChannel set_nextChannel set_sel set_timers
      set_warmStartEnabled
      gSelectTimeout pipeline suppressionEnabled helper routeResponseChannel
      nextChannel sel timers warmStartEnabled
      timer update_timer the_warmStartTimer the_eoiuCheckTimer the_eoiuHoldTimer
      interval running newTimer newTimers tv_sec tv_nsec
      pipeline_size pipeline_getIdleTime pipeline_flush flushPipeline
      addSelectable removeSelectable addr setInterval start
      sync_checkAndStart sync_runRestoration sync_setState sync_onWarmStartEnd
      sync_setSuppressionEnabled sync_isSuppressionEnabled
      sync_markRoutesOffloaded sync_onRouteResponse
      make_routeResponseChannel routeResponseChannel_get routeResponseChannel_reset
      reconciliationComplete armHoldTimer eoiuCheck handleField handleKeyOpFvs
      deviceMetadataChanged routeResponses is_routeResponseChannel dispatch
      select iteration dispatchLoop freshSessionObjects sessionStart session
      supervisor startup main initialWorld
      ptr_is Selectable_eqb TimerId_eqb registered registry_add registry_remove
      timer_registered armed reported_ok eoiu_exclusive
      is_flush is_timerStart is_select is_hook is_start_of is_add_of
      is_removal_of timer_call is_response is_pipelineSize config_call
      pipeline_call count_calls flushed first_select List.length
      fvField fvValue
      existsb filter forallb option_map negb orb andb app fst snd ] in *.

(** The same, leaving the registry and the observations folded. *)
Ltac exec :=
  lazy beta iota zeta delta
    [ result after calls bind ret gets modify emit forEach
      set_gSelectTimeout set_pipeline set_suppressionEnabled set_helper
      set_routeResponseChannel set_nextChannel set_sel set_timers
      set_warmStartEnabled
      gSelectTimeout pipeline suppressionEnabled helper routeResponseChannel
      nextChannel sel timers warmStartEnabled
      timer update_timer the_warmStartTimer the_eoiuCheckTimer the_eoiuHoldTimer
      interval running newTimer newTimers tv_sec tv_nsec
      pipeline_size pipeline_getIdleTime pipeline_flush flushPipeline
      addSelectable removeSelectable addr setInterval start
      sync_checkAndStart sync_runRestoration sync_setState sync_onWarmStartEnd
      sync_setSuppressionEnabled sync_isSuppressionEnabled
      sync_markRoutesOffloaded sync_onRouteResponse
      make_routeResponseChannel routeResponseChannel_get routeResponseChannel_reset
      reconciliationComplete armHoldTimer eoiuCheck handleField handleKeyOpFvs
      deviceMetadataChanged routeResponses is_routeResponseChannel dispatch
      select iteration dispatchLoop freshSessionObjects sessionStart session
      supervisor startup main initialWorld
      fvField fvValue option_map app fst snd ] in *.

(** ** The multiplexer's registry *)

Lemma TimerId_eqb_spec (a b : TimerId) : reflect (a = b) (TimerId_eqb a b).
Proof. destruct a, b; simpl; constructor; congruence. Qed.

Lemma Selectable_eqb_spec (a b : Selectable) : reflect (a = b) (Selectable_eqb a b).
Proof.
  destruct a as [| | |i|s], b as [| | |j|t]; simpl; try (constructor; congruence).
  - destruct (Nat.eqb_spec i j); constructor; congruence.
  - destruct (TimerId_eqb_spec s t); constructor; congruence.
Qed.

Lemma Selectable_eqb_refl (a : Selectable) : Selectable_eqb a a = true.
Proof. destruct (Selectable_eqb_spec a a); congruence. Qed.

Lemma Selectable_eqb_sym (a b : Selectable) : Selectable_eqb a b = Selectable_eqb b a.
Proof.
  destruct (Selectable_eqb_spec a b), (Selectable_eqb_spec b a); congruence.
Qed.

Lemma registered_app (x : Selectable) (l1 l2 : list Selectable) :
  registered x (l1 ++ l2) = registered x l1 || registered x l2.
Proof. unfold registered. apply existsb_app. Qed.

Lemma registered_add (x y : Selectable) (l : list Selectable) :
  registered x (registry_add y l) = Selectable_eqb x y || registered x l.
Proof.
  unfold registry_add. destruct (registered y l) eqn:E.
  - destruct (Selectable_eqb_spec x y) as [->|]; simpl; [assumption | reflexivity].
  - rewrite registered_app. simpl. rewrite orb_false_r. apply orb_comm.
Qed.

Lemma registered_remove (x y : Selectable) (l : list Selectable) :
  registered x (registry_remove y l) = negb (Selectable_eqb x y) && registered x l.
Proof.
  unfold registry_remove, registered.
  induction l as [|z l IH]; simpl.
  - now rewrite andb_false_r.
  - destruct (Selectable_eqb_spec y z) as [<-|Hyz]; simpl.
    + rewrite IH. destruct (Selectable_eqb x y); reflexivity.
    + rewrite IH.
      destruct (Selectable_eqb_spec x z) as [->|]; simpl; [| reflexivity].
      destruct (Selectable_eqb_spec z y); [congruence | reflexivity].
Qed.

(** ** Running the monad *)

Section Runs.

Context {H : Type} `{RestartHelper H}.

Lemma after_bind {A B} (m : M H A) (k : A -> M H B) (w : World H) :
  after (bind m k) w = after (k (result m w)) (after m w).
Proof.
  unfold after, result, bind. destruct (m w) as [[a w1] l1]. simpl.
  destruct (k a w1) as [[b w2] l2]. reflexivity.
Qed.

Lemma calls_bind {A B} (m : M H A) (k : A -> M H B) (w : World H) :
  calls (bind m k) w = calls m w ++ calls (k (result m w)) (after m w).
Proof.
  unfold calls, after, result, bind. destruct (m w) as [[a w1] l1]. simpl.
  destruct (k a w1) as [[b w2] l2]. reflexivity.
Qed.

Lemma result_bind {A B} (m : M H A) (k : A -> M H B) (w : World H) :
  result (bind m k) w = result (k (result m w)) (after m w).
Proof.
  unfold after, result, bind. destruct (m w) as [[a w1] l1]. simpl.
  destruct (k a w1) as [[b w2] l2]. reflexivity.
Qed.

Lemma after_bind_gets {A B} (f : World H -> A) (k : A -> M H B) (w : World H) :
  after (bind (gets f) k) w = after (k (f w)) w.
Proof. rewrite after_bind. reflexivity. Qed.

Lemma calls_bind_gets {A B} (f : World H -> A) (k : A -> M H B) (w : World H) :
  calls (bind (gets f) k) w = calls (k (f w)) w.
Proof. rewrite calls_bind. reflexivity. Qed.

Lemma keeps_bind {A B C} (f : World H -> C) (m : M H A) (k : A -> M H B) :
  keeps f m -> (forall a, keeps f (k a)) -> keeps f (bind m k).
Proof.
  intros Hm Hk w. rewrite after_bind, Hk. apply Hm.
Qed.

Lemma keeps_ret {A C} (f : World H -> C) (a : A) : keeps f (ret a).
Proof. intros w. reflexivity. Qed.

Lemma keeps_gets {A C} (f : World H -> C) (g : World H -> A) : keeps f (gets g).
Proof. intros w. reflexivity. Qed.

Lemma keeps_emit {C} (f : World H -> C) (a : Action) : keeps f (emit a).
Proof. intros w. reflexivity. Qed.

(** [routeResponseChannel.get()] changes nothing and yields the address of
    the channel currently held. *)
Lemma keeps_bind_get {B C} (f : World H -> C) (k : Ptr -> M H B) :
  (forall c, keeps f (k (option_map p_routeResponseChannel c))) ->
  keeps f (bind routeResponseChannel_get k).
Proof. intros Hk w. rewrite after_bind. apply Hk. Qed.

Lemma keeps_forEach {A C} (f : World H -> C) (l : list A) (body : A -> M H unit) :
  (forall x, keeps f (body x)) -> keeps f (forEach l body).
Proof.
  intros Hb. induction l as [|x l IH]; simpl.
  - apply keeps_ret.
  - apply keeps_bind; [apply Hb | intros _; exact IH].
Qed.

Lemma emits_bind {A B} (q : Action -> bool) (m : M H A) (k : A -> M H B) :
  emits q m -> (forall a, emits q (k a)) -> emits q (bind m k).
Proof.
  intros Hm Hk w. rewrite calls_bind, forallb_app, Hm, Hk. reflexivity.
Qed.

Lemma emits_ret {A} (q : Action -> bool) (a : A) : emits (H:=H) q (ret a).
Proof. intros w. reflexivity. Qed.

Lemma emits_gets {A} (q : Action -> bool) (g : World H -> A) : emits q (gets g).
Proof. intros w. reflexivity. Qed.

Lemma emits_modify (q : Action -> bool) (g : World H -> World H) : emits q (modify g).
Proof. intros w. reflexivity. Qed.

Lemma emits_emit (q : Action -> bool) (a : Action) :
  q a = true -> emits (H:=H) q (emit a).
Proof. intros Hq w. simpl. now rewrite Hq. Qed.

Lemma emits_bind_get {B} (q : Action -> bool) (k : Ptr -> M H B) :
  (forall c, emits q (k (option_map p_routeResponseChannel c))) ->
  emits q (bind routeResponseChannel_get k).
Proof. intros Hk w. rewrite calls_bind. apply Hk. Qed.

Lemma emits_forEach {A} (q : Action -> bool) (l : list A) (body : A -> M H unit) :
  (forall x, emits q (body x)) -> emits q (forEach l body).
Proof.
  intros Hb. induction l as [|x l IH]; simpl.
  - apply emits_ret.
  - apply emits_bind; [apply Hb | intros _; exact IH].
Qed.

End Runs.

(** Frame reasoning over straight-line code: split sequences, case on the
    tests, and close every primitive by computation. *)
(** The next test the execution is stuck on, taken in program order. *)
Ltac crack :=
  match goal with
  | |- context [checkAndStart ?h] =>
      let c := fresh "c" in let h1 := fresh "h" in
      destruct (checkAndStart h) as [c h1]
  | |- context [runRestoration ?h] =>
      let r := fresh "r" in let h2 := fresh "h" in
      destruct (runRestoration h) as [r h2]
  | |- context [match ?c with
                | Some a => Some (p_routeResponseChannel a)
                | None => None
                end] => destruct c
  | |- context [match (if ?c then _ else _) _ with _ => _ end] => destruct c
  | |- context [match (match ?c with Some _ => _ | None => _ end) _ with _ => _ end] =>
      destruct c
  end.

(** Membership of a call in an explicit log. *)
Ltac in_log := cbn [In]; repeat (first [left; reflexivity | right]).

Create HintDb frame.

Ltac frame :=
  repeat first
    [ progress intros
    | solve [ auto with frame nocore ]
    | progress unfold handleField, handleKeyOpFvs, deviceMetadataChanged,
        routeResponses, sync_checkAndStart, sync_runRestoration, sync_setState,
        sync_onWarmStartEnd, sync_setSuppressionEnabled, sync_isSuppressionEnabled,
        sync_markRoutesOffloaded, sync_onRouteResponse, make_routeResponseChannel,
        routeResponseChannel_reset, pipeline_size, pipeline_getIdleTime,
        pipeline_flush, flushPipeline, eoiuCheck, reconciliationComplete,
        setInterval, start, select, freshSessionObjects, startup
    | apply keeps_forEach
    | apply keeps_bind_get
    | apply emits_bind_get
    | apply keeps_bind
    | apply keeps_ret
    | apply keeps_gets
    | apply keeps_emit
    | apply emits_forEach
    | apply emits_bind
    | apply emits_ret
    | apply emits_gets
    | apply emits_modify
    | apply emits_emit; reflexivity
    | match goal with
      | |- keeps _ (if ?b then _ else _) => destruct b
      | |- keeps _ (match ?x with _ => _ end) => destruct x
      | |- emits _ (if ?b then _ else _) => destruct b
      | |- emits _ (match ?x with _ => _ end) => destruct x
      end
    | solve [ let w := fresh "w" in intro w; reflexivity ]
    | progress unfold addSelectable, removeSelectable, routeResponseChannel_get ].

(** ** The write-flush controller *)

Section FlushController.

Context {H : Type} `{RestartHelper H}.

Lemma flushPipeline_empty (e : Env) (w : World H) :
  pipeline w = 0%N ->
  after (flushPipeline e) w =
    mkWorld INFINITE (pipeline w) (suppressionEnabled w) (helper w)
      (routeResponseChannel w) (nextChannel w) (sel w) (timers w) (warmStartEnabled w)
  /\ calls (flushPipeline e) w = [A_pipelineSize].
Proof.
  intros Hz. apply N.eqb_eq in Hz.
  unfold flushPipeline, after, calls, bind, pipeline_size, gets, emit.
  simpl. rewrite Hz. simpl. split; reflexivity.
Qed.

Lemma flushPipeline_flush (e : Env) (w : World H) :
  pipeline w <> 0%N ->
  (Z.of_N (pipeline w) <? SMALL_TRAFFIC) || (idleTime e >=? gFlushTimeout)
    || (idleTime e <=? 0) = true ->
  after (flushPipeline e) w =
    mkWorld INFINITE 0%N (suppressionEnabled w) (helper w)
      (routeResponseChannel w) (nextChannel w) (sel w) (timers w) (warmStartEnabled w)
  /\ calls (flushPipeline e) w =
       [A_pipelineSize; A_pipelineGetIdleTime; A_pipelineFlush (pipeline w)].
Proof.
  intros Hnz Hc. apply N.eqb_neq in Hnz.
  unfold flushPipeline, after, calls, bind, pipeline_size, pipeline_getIdleTime,
    gets, emit, ret.
  simpl. rewrite Hnz. simpl. rewrite Hc. simpl. split; reflexivity.
Qed.

Lemma flushPipeline_defer (e : Env) (w : World H) :
  pipeline w <> 0%N ->
  (Z.of_N (pipeline w) <? SMALL_TRAFFIC) || (idleTime e >=? gFlushTimeout)
    || (idleTime e <=? 0) = false ->
  after (flushPipeline e) w =
    mkWorld (gFlushTimeout - idleTime e) (pipeline w) (suppressionEnabled w) (helper w)
      (routeResponseChannel w) (nextChannel w) (sel w) (timers w) (warmStartEnabled w)
  /\ calls (flushPipeline e) w = [A_pipelineSize; A_pipelineGetIdleTime].
Proof.
  intros Hnz Hc. apply N.eqb_neq in Hnz.
  unfold flushPipeline, after, calls, bind, pipeline_size, pipeline_getIdleTime,
    gets, emit, ret.
  simpl. rewrite Hnz. simpl. rewrite Hc. simpl. split; reflexivity.
Qed.

(** The flush condition of line 341, in arithmetic. *)
Lemma flush_condition (c d : Z) :
  (c <? SMALL_TRAFFIC) || (d >=? gFlushTimeout) || (d <=? 0) = true
  <-> c < 500 \/ d >= 500 \/ d <= 0.
Proof.
  unfold SMALL_TRAFFIC, gFlushTimeout, FLUSH_TIMEOUT.
  rewrite !orb_true_iff, Z.ltb_lt, Z.geb_le, Z.leb_le. lia.
Qed.

(** The wait [select] performs next uses the timeout the controller left. *)
Lemma iteration_first_select (e : Env) (w : World H) :
  first_select (calls (iteration e) w) = Some (gSelectTimeout w).
Proof. unfold iteration. rewrite calls_bind. reflexivity. Qed.

(** When the controller defers, [gFlushTimeout - idle] is computed without
    overflow of [int]. *)
Lemma flushPipeline_defer_in_range (c d : Z) :
  (c <? SMALL_TRAFFIC) || (d >=? gFlushTimeout) || (d <=? 0) = false ->
  INT_MIN <= gFlushTimeout - d <= INT_MAX /\ 0 < gFlushTimeout - d < 500.
Proof.
  unfold SMALL_TRAFFIC, gFlushTimeout, FLUSH_TIMEOUT, INT_MIN, INT_MAX.
  rewrite !orb_false_iff, Z.ltb_ge, Z.geb_leb, !Z.leb_gt. lia.
Qed.

(** C1. For a pending-write-count [c > 0] and an idle duration [d] seen by
    the controller step: the pipeline is flushed if and only if [c < 500]
    or [d >= 500] or [d <= 0]; in the remaining case, [c >= 500] and
    [0 < d < 500], nothing is flushed, the pending writes stay, and the
    timeout of the next [select] is exactly [500 - d]. *)
Theorem flushPipeline_decision (w : World H) (e : Env) :
  let c := Z.of_N (pipeline w) in
  let d := idleTime e in
  c > 0 ->
  (flushed (calls (flushPipeline e) w) = true <-> c < 500 \/ d >= 500 \/ d <= 0)
  /\ ((c < 500 \/ d >= 500 \/ d <= 0) \/ (c >= 500 /\ 0 < d < 500))
  /\ (c >= 500 /\ 0 < d < 500 ->
       flushed (calls (flushPipeline e) w) = false
       /\ pipeline (after (flushPipeline e) w) = pipeline w
       /\ gSelectTimeout (after (flushPipeline e) w) = 500 - d
       /\ forall e',
            first_select (calls (iteration e') (after (flushPipeline e) w))
            = Some (500 - d)).
Proof.
  intros c d Hc.
  assert (Hnz : pipeline w <> 0%N) by (subst c; lia).
  destruct ((c <? SMALL_TRAFFIC) || (d >=? gFlushTimeout) || (d <=? 0)) eqn:E.
  - destruct (flushPipeline_flush e w Hnz E) as [Hw Hl].
    apply flush_condition in E.
    split; [| split].
    + rewrite Hl. simpl. tauto.
    + left. exact E.
    + intros [? ?]. lia.
  - destruct (flushPipeline_defer e w Hnz E) as [Hw Hl].
    assert (Hn : ~ (c < 500 \/ d >= 500 \/ d <= 0)).
    { intros Hyes. apply flush_condition in Hyes. congruence. }
    split; [| split].
    + rewrite Hl. simpl. split; [discriminate | tauto].
    + right. lia.
    + intros _. rewrite Hl, Hw.
      split; [reflexivity | split; [reflexivity | split; [reflexivity |]]].
      intros e'. rewrite iteration_first_select. reflexivity.
Qed.

End FlushController.

(** C1 at 600 pending writes and 100 ms of idle time. *)
Lemma flushPipeline_decision_witness :
  flushed (calls (flushPipeline (with_idleTime 100 quiet))
                 (mkWorld INFINITE 600%N false (mkSpecHelper false 0 false WSDISABLED)
                    None 0%nat [] newTimers false)) = false.
Proof.
  apply (flushPipeline_decision
           (mkWorld INFINITE 600%N false (mkSpecHelper false 0 false WSDISABLED)
              None 0%nat [] newTimers false)
           (with_idleTime 100 quiet)).
  all: simpl; lia.
Defined.

(** ** The dispatch loop, branch by branch *)

Section Dispatch.

Context {H : Type} `{RestartHelper H}.

Lemma dispatch_cases (e : Env) (w : World H) :
  exists m, dispatch_case e w m
    /\ after (dispatch e) w = after m w
    /\ calls (dispatch e) w = calls m w.
Proof.
  assert (Htail :
    ptr_is (temps e) (p_timer warmStartTimer) || ptr_is (temps e) (p_timer eoiuHoldTimer) = false ->
    ptr_is (temps e) (p_timer eoiuCheckTimer) = false ->
    ptr_is (temps e) p_deviceMetadataTableSubscriber = false ->
    exists m, dispatch_case e w m
      /\ after (dispatch e) w = after m w /\ calls (dispatch e) w = calls m w).
  { intros E1 E2 E3.
    unfold dispatch. rewrite E1, E2, E3.
    rewrite after_bind_gets, calls_bind_gets.
    destruct (is_routeResponseChannel (temps e) (routeResponseChannel w)) eqn:E4.
    - unfold is_routeResponseChannel in E4.
      destruct (routeResponseChannel w) as [id|] eqn:Ec; [| discriminate].
      unfold ptr_is in E4. destruct (temps e) as [x|] eqn:Et; [| discriminate].
      destruct (Selectable_eqb_spec x (p_routeResponseChannel id)); [subst x | discriminate].
      exists (routeResponses e). split; [now apply DC_response with id |].
      split; reflexivity.
    - rewrite !after_bind_gets, !calls_bind_gets.
      destruct (negb (warmStartEnabled w) || isReconciled (helper w)) eqn:E.
      + exists (flushPipeline e). split; [now apply DC_controller |].
        split; reflexivity.
      + exists (ret tt). split; [now apply DC_skip |].
        split; reflexivity. }
  destruct (temps e) as [[| | |id|[| |]]|] eqn:Et.
  - apply Htail; reflexivity.
  - apply Htail; reflexivity.
  - exists (deviceMetadataChanged e). split; [now apply DC_config |].
    unfold dispatch. rewrite Et. split; reflexivity.
  - apply Htail; reflexivity.
  - exists (reconciliationComplete e).
    split; [apply DC_reconcile with warmStartTimer; [assumption | now left] |].
    unfold dispatch. rewrite Et. split; reflexivity.
  - exists (eoiuCheck e). split; [now apply DC_eoiuCheck |].
    unfold dispatch. rewrite Et. split; reflexivity.
  - exists (reconciliationComplete e).
    split; [apply DC_reconcile with eoiuHoldTimer; [assumption | now right] |].
    unfold dispatch. rewrite Et. split; reflexivity.
  - apply Htail; reflexivity.
Qed.

(** [select] only waits and lets the translator enqueue. *)
Lemma select_after (e : Env) (w : World H) :
  after (select e) w =
    mkWorld (gSelectTimeout w) (pipeline w + enq e)%N (suppressionEnabled w) (helper w)
      (routeResponseChannel w) (nextChannel w) (sel w) (timers w) (warmStartEnabled w).
Proof. reflexivity. Qed.

Lemma select_calls (e : Env) (w : World H) :
  calls (select e) w = [A_select (gSelectTimeout w)].
Proof. reflexivity. Qed.

(** Lines 192-209 in full. *)
Lemma reconciliationComplete_after (e : Env) (w : World H) :
  after (reconciliationComplete e) w =
    mkWorld (gSelectTimeout w) 0%N (suppressionEnabled w) (onWarmStartEnd (helper w))
      (routeResponseChannel w) (nextChannel w)
      (match temps e with Some x => registry_remove x (sel w) | None => sel w end)
      (timers w) (warmStartEnabled w).
Proof. unfold reconciliationComplete, after. destruct (temps e); reflexivity. Qed.

Lemma reconciliationComplete_calls (e : Env) (w : World H) :
  calls (reconciliationComplete e) w =
    [A_onWarmStartEnd; A_removeSelectable (temps e); A_pipelineFlush (pipeline w)].
Proof. unfold reconciliationComplete, calls. destruct (temps e); reflexivity. Qed.

(** Lines 214-231: reconciliation in progress and both flags reached. *)
Lemma eoiuCheck_reached (e : Env) (w : World H) :
  inProgress (helper w) = true ->
  eoiuFlagsSet (bgpStateTable e) = true ->
  after (eoiuCheck e) w =
    mkWorld (gSelectTimeout w) (pipeline w) (suppressionEnabled w) (helper w)
      (routeResponseChannel w) (nextChannel w)
      (registry_remove (p_timer eoiuCheckTimer)
         (registry_add (p_timer eoiuHoldTimer) (sel w)))
      (update_timer eoiuHoldTimer (mkTimer (eoiuHoldInterval e) true) (timers w))
      (warmStartEnabled w)
  /\ calls (eoiuCheck e) w =
       [A_timerStart eoiuHoldTimer (eoiuHoldInterval e);
        A_addSelectable (addr eoiuHoldTimer);
        A_removeSelectable (addr eoiuCheckTimer)].
Proof.
  intros Hp Hf. unfold eoiuCheck, armHoldTimer, after, calls, bind, gets, eoiuHoldInterval.
  cbn [fst snd]. rewrite Hp, Hf.
  destruct (eoiuHoldCfg e =? 0); split; reflexivity.
Qed.

(** Lines 233-236: reconciliation in progress, flags not both reached. *)
Lemma eoiuCheck_not_reached (e : Env) (w : World H) :
  inProgress (helper w) = true ->
  eoiuFlagsSet (bgpStateTable e) = false ->
  after (eoiuCheck e) w =
    mkWorld (gSelectTimeout w) (pipeline w) (suppressionEnabled w) (helper w)
      (routeResponseChannel w) (nextChannel w) (sel w)
      (update_timer eoiuCheckTimer (mkTimer (mkTimespec 1 0) true) (timers w))
      (warmStartEnabled w)
  /\ calls (eoiuCheck e) w = [A_timerStart eoiuCheckTimer (mkTimespec 1 0)].
Proof.
  intros Hp Hf. unfold eoiuCheck, after, calls, bind, gets.
  cbn [fst snd]. rewrite Hp, Hf. split; reflexivity.
Qed.

(** Lines 238-241: reconciliation no longer in progress. *)
Lemma eoiuCheck_done (e : Env) (w : World H) :
  inProgress (helper w) = false ->
  after (eoiuCheck e) w =
    mkWorld (gSelectTimeout w) (pipeline w) (suppressionEnabled w) (helper w)
      (routeResponseChannel w) (nextChannel w)
      (registry_remove (p_timer eoiuCheckTimer) (sel w))
      (timers w) (warmStartEnabled w)
  /\ calls (eoiuCheck e) w = [A_removeSelectable (addr eoiuCheckTimer)].
Proof.
  intros Hp. unfold eoiuCheck, after, calls, bind, gets.
  cbn [fst snd]. rewrite Hp. split; reflexivity.
Qed.

(** [eoiuFlagsSet] holds exactly when both reads yield "reached". *)
Lemma eoiuFlagsSet_iff (tbl : Table) :
  let v4 := hget tbl "IPv4|eoiu" "state" "" in
  let v6 := hget tbl "IPv6|eoiu" "state" v4 in
  eoiuFlagsSet tbl = true <-> v4 = "reached" /\ v6 = "reached".
Proof.
  intros v4 v6. unfold eoiuFlagsSet. fold v4.
  destruct (String.eqb_spec v4 "reached") as [E4|E4]; simpl.
  - fold v6. destruct (String.eqb_spec v6 "reached") as [E6|E6]; simpl.
    + tauto.
    + split; [discriminate | tauto].
  - split; [discriminate | tauto].
Qed.

(** Whether an absent IPv6 field counts as reached is decided by what
    [hget] does to the caller's variable, which still holds the IPv4 value
    at the second call. *)
Remark eoiuFlagsSet_absent_field :
  eoiuFlagsSet (mkTable (fun key _ old =>
                  if (key =? "IPv4|eoiu")%string then "reached" else old)) = true
  /\ eoiuFlagsSet (mkTable (fun key _ _ =>
                     if (key =? "IPv4|eoiu")%string then "reached" else "")) = false.
Proof. split; reflexivity. Qed.

Lemma to_time_t_small (v : Z) : 0 <= v < 2 ^ 63 -> to_time_t v = v.
Proof.
  intros Hv. unfold to_time_t.
  rewrite Z.mod_small by lia.
  destruct (Z.ltb_spec v (2 ^ 63)); lia.
Qed.

(** What a poll tick does, in terms of the values the two reads leave in
    the caller's variable, the second read starting from the value the
    first one left: when reconciliation is no longer in progress the poll
    timer is deregistered and nothing else changes; when it is in progress
    and both values are "reached", the poll timer is deregistered and the
    hold timer is armed, with the configured hold duration, or 3 s when
    none is configured; otherwise the poll timer is started again at 1 s,
    stays registered, and the hold timer is left as it was. *)
Lemma eoiu_poll_tick (e : Env) (w : World H) :
  temps e = addr eoiuCheckTimer ->
  let w' := after (dispatch e) w in
  let v4 := hget (bgpStateTable e) "IPv4|eoiu" "state" "" in
  let v6 := hget (bgpStateTable e) "IPv6|eoiu" "state" v4 in
  (inProgress (helper w) = false ->
     calls (dispatch e) w = [A_removeSelectable (addr eoiuCheckTimer)]
     /\ w' = mkWorld (gSelectTimeout w) (pipeline w) (suppressionEnabled w) (helper w)
               (routeResponseChannel w) (nextChannel w)
               (registry_remove (p_timer eoiuCheckTimer) (sel w))
               (timers w) (warmStartEnabled w)
     /\ timer_registered eoiuCheckTimer w' = false)
  /\ (inProgress (helper w) = true -> v4 = "reached" -> v6 = "reached" ->
       timer_registered eoiuCheckTimer w' = false
       /\ armed eoiuHoldTimer w' = true
       /\ (eoiuHoldCfg e = 0 ->
            interval (timer (timers w') eoiuHoldTimer) = mkTimespec 3 0)
       /\ (0 < eoiuHoldCfg e < 2 ^ 63 ->
            interval (timer (timers w') eoiuHoldTimer) = mkTimespec (eoiuHoldCfg e) 0)
       /\ calls (dispatch e) w =
            [A_timerStart eoiuHoldTimer (interval (timer (timers w') eoiuHoldTimer));
             A_addSelectable (addr eoiuHoldTimer);
             A_removeSelectable (addr eoiuCheckTimer)])
  /\ (inProgress (helper w) = true -> ~ (v4 = "reached" /\ v6 = "reached") ->
       timer (timers w') eoiuCheckTimer = mkTimer (mkTimespec 1 0) true
       /\ sel w' = sel w
       /\ (reported_ok e w = true -> armed eoiuCheckTimer w' = true)
       /\ timer (timers w') eoiuHoldTimer = timer (timers w) eoiuHoldTimer
       /\ armed eoiuHoldTimer w' = armed eoiuHoldTimer w
       /\ (reported_ok e w = true -> eoiu_exclusive w = true ->
           armed eoiuHoldTimer w' = false)
       /\ calls (dispatch e) w = [A_timerStart eoiuCheckTimer (mkTimespec 1 0)]).
Proof.
  intros Et w' v4 v6.
  assert (Hd : after (dispatch e) w = after (eoiuCheck e) w
               /\ calls (dispatch e) w = calls (eoiuCheck e) w).
  { unfold dispatch, after, calls. rewrite Et. split; reflexivity. }
  destruct Hd as [Ha Hc]. subst w'. rewrite Ha, Hc. clear Ha Hc.
  split; [| split].
  - intros Hp. destruct (eoiuCheck_done e w Hp) as [-> ->].
    split; [reflexivity | split; [reflexivity |]].
    unfold timer_registered. simpl. rewrite registered_remove. reflexivity.
  - intros Hp H4 H6.
    assert (Hf : eoiuFlagsSet (bgpStateTable e) = true).
    { apply eoiuFlagsSet_iff. split; assumption. }
    destruct (eoiuCheck_reached e w Hp Hf) as [-> ->].
    unfold armed, timer_registered. simpl.
    rewrite !registered_remove, !registered_add. simpl.
    split; [reflexivity | split; [reflexivity |]].
    unfold eoiuHoldInterval.
    split; [| split].
    + intros ->. reflexivity.
    + intros Hv. destruct (Z.eqb_spec (eoiuHoldCfg e) 0); [lia |].
      now rewrite to_time_t_small by lia.
    + reflexivity.
  - intros Hp Hn.
    assert (Hf : eoiuFlagsSet (bgpStateTable e) = false).
    { destruct (eoiuFlagsSet (bgpStateTable e)) eqn:E; [| reflexivity].
      apply eoiuFlagsSet_iff in E. contradiction. }
    destruct (eoiuCheck_not_reached e w Hp Hf) as [-> ->].
    unfold armed, eoiu_exclusive, timer_registered, reported_ok. rewrite Et. simpl.
    repeat split; try reflexivity.
    + intros Hr. exact Hr.
    + intros Hr Hx. rewrite Hr in Hx. simpl in Hx.
      apply negb_true_iff in Hx. rewrite Hx. apply andb_false_r.
Qed.

(** C4, where the code departs from it.  On a poll tick while
    reconciliation is in progress, when the IPv4 flag reads "reached" and
    the store has no IPv6 flag, so that the second [hget] leaves the
    caller's variable as it was, [eoiuFlagsSet] answers true although the
    IPv6 flag is not set: the hold timer is started and registered, the
    poll timer is deregistered and is not started again. *)
Theorem eoiu_poll_tick_ipv6_absent (e : Env) (w : World H) :
  temps e = addr eoiuCheckTimer ->
  inProgress (helper w) = true ->
  hget (bgpStateTable e) "IPv4|eoiu" "state" "" = "reached" ->
  (forall old, hget (bgpStateTable e) "IPv6|eoiu" "state" old = old) ->
  let w' := after (dispatch e) w in
  eoiuFlagsSet (bgpStateTable e) = true
  /\ armed eoiuHoldTimer w' = true
  /\ timer_registered eoiuCheckTimer w' = false
  /\ calls (dispatch e) w =
       [A_timerStart eoiuHoldTimer (eoiuHoldInterval e);
        A_addSelectable (addr eoiuHoldTimer);
        A_removeSelectable (addr eoiuCheckTimer)]
  /\ count_calls (is_start_of eoiuCheckTimer) (calls (dispatch e) w) = 0%nat.
Proof.
  intros Et Hp H4 H6 w'.
  assert (Hf : eoiuFlagsSet (bgpStateTable e) = true).
  { apply eoiuFlagsSet_iff. split; [exact H4 | now rewrite H6]. }
  assert (Hd : after (dispatch e) w = after (eoiuCheck e) w
               /\ calls (dispatch e) w = calls (eoiuCheck e) w).
  { unfold dispatch, after, calls. rewrite Et. split; reflexivity. }
  destruct Hd as [Ha Hc]. subst w'. rewrite Ha, Hc. clear Ha Hc.
  destruct (eoiuCheck_reached e w Hp Hf) as [-> ->].
  unfold armed, timer_registered. simpl.
  rewrite !registered_remove, !registered_add. simpl.
  split; [exact Hf | repeat split; reflexivity].
Qed.

Lemma iteration_after (e : Env) (w : World H) :
  after (iteration e) w = after (dispatch e) (after (select e) w).
Proof. unfold iteration. now rewrite after_bind. Qed.

Lemma iteration_calls (e : Env) (w : World H) :
  calls (iteration e) w
  = A_select (gSelectTimeout w) :: calls (dispatch e) (after (select e) w).
Proof. unfold iteration. now rewrite calls_bind. Qed.

End Dispatch.

(** ** Frames of the branches *)

Section Frames.

Context {H : Type} `{RestartHelper H}.

Lemma emits_weaken {A} (q q' : Action -> bool) (m : M H A) :
  (forall a, q a = true -> q' a = true) -> emits q m -> emits q' m.
Proof.
  intros Hq Hm w. specialize (Hm w).
  rewrite forallb_forall in *. intros a Ha. apply Hq, Hm, Ha.
Qed.

Lemma filter_none (q : Action -> bool) (l : list Action) :
  forallb (fun a => negb (q a)) l = true -> filter q l = [].
Proof.
  induction l as [|a l IH]; simpl; [reflexivity |].
  rewrite andb_true_iff. intros [Ha Hl].
  destruct (q a); [discriminate | now apply IH].
Qed.

Lemma keeps_timer_add_channel (u : TimerId) (c : option nat) :
  keeps (H:=H) (timer_registered u) (addSelectable (option_map p_routeResponseChannel c)).
Proof.
  intros w. destruct c as [id|]; [| reflexivity].
  unfold timer_registered. destruct w; exec. now rewrite registered_add.
Qed.

Lemma keeps_timer_remove_channel (u : TimerId) (c : option nat) :
  keeps (H:=H) (timer_registered u) (removeSelectable (option_map p_routeResponseChannel c)).
Proof.
  intros w. destruct c as [id|]; [| reflexivity].
  unfold timer_registered. destruct w; exec. now rewrite registered_remove.
Qed.

Lemma emits_config_add_channel (c : option nat) :
  emits (H:=H) config_call (addSelectable (option_map p_routeResponseChannel c)).
Proof. intros w. destruct c; reflexivity. Qed.

Lemma emits_config_remove_channel (c : option nat) :
  emits (H:=H) config_call (removeSelectable (option_map p_routeResponseChannel c)).
Proof. intros w. destruct c; reflexivity. Qed.

Hint Resolve keeps_timer_add_channel keeps_timer_remove_channel
  emits_config_add_channel emits_config_remove_channel : frame.

(** The suppression handler touches neither the flush timing state, nor
    the helper, nor the timers. *)
Lemma config_keeps (e : Env) :
  keeps (H:=H)
    (fun w => (gSelectTimeout w, pipeline w, helper w, timers w, warmStartEnabled w))
    (deviceMetadataChanged e).
Proof. frame. Qed.

Lemma config_keeps_timer_registered (e : Env) (u : TimerId) :
  keeps (H:=H) (timer_registered u) (deviceMetadataChanged e).
Proof. frame. Qed.

Lemma config_emits (e : Env) : emits (H:=H) config_call (deviceMetadataChanged e).
Proof. frame. Qed.

(** Delivering response notifications changes nothing in [main]'s objects. *)
Lemma responses_keep (e : Env) : keeps (H:=H) (fun w => w) (routeResponses e).
Proof. frame. Qed.

Lemma responses_emit (e : Env) : emits (H:=H) is_response (routeResponses e).
Proof. frame. Qed.

(** The controller touches the flush timing state only. *)
Lemma flushPipeline_keeps (e : Env) :
  keeps (H:=H)
    (fun w => (suppressionEnabled w, helper w, routeResponseChannel w,
               nextChannel w, sel w, timers w, warmStartEnabled w))
    (flushPipeline e).
Proof. frame. Qed.

Lemma flushPipeline_keeps_sel (e : Env) : keeps (H:=H) sel (flushPipeline e).
Proof. frame. Qed.

Lemma flushPipeline_emits (e : Env) : emits (H:=H) pipeline_call (flushPipeline e).
Proof. frame. Qed.

(** The poll step touches the multiplexer and the timers only. *)
Lemma eoiuCheck_keeps (e : Env) :
  keeps (H:=H)
    (fun w => (gSelectTimeout w, pipeline w, suppressionEnabled w,
               routeResponseChannel w, helper w, warmStartEnabled w))
    (eoiuCheck e).
Proof. frame. Qed.

Lemma eoiuCheck_emits (e : Env) : emits (H:=H) timer_call (eoiuCheck e).
Proof. frame. Qed.

End Frames.

(** ** The reconciliation timers *)

Section Timers.

Context {H : Type} `{RestartHelper H}.

Lemma select_timer_registered (e : Env) (w : World H) (u : TimerId) :
  timer_registered u (after (select e) w) = timer_registered u w.
Proof. reflexivity. Qed.

Lemma timer_registered_remove (u t : TimerId) (w : World H) (l : list Selectable) :
  registered (p_timer u) (registry_remove (p_timer t) l)
  = negb (TimerId_eqb u t) && registered (p_timer u) l.
Proof. now rewrite registered_remove. Qed.

(** Every iteration is one of the five timer steps. *)
Lemma iteration_timer_step (e : Env) (w : World H) :
  timer_step e w (after (iteration e) w) (calls (iteration e) w).
Proof.
  rewrite iteration_after, iteration_calls.
  set (w1 := after (select e) w).
  assert (Hsel : forall u, timer_registered u w1 = timer_registered u w)
    by (intro u; apply select_timer_registered).
  destruct (dispatch_cases e w1) as [m [Hcase [-> ->]]].
  destruct Hcase as [t Et Ht | Et | Et | id Ec Et | Ec | Ec].
  - apply TS_reconcile with t; [assumption | assumption | |].
    + intros u. rewrite <- Hsel, reconciliationComplete_after, Et.
      unfold timer_registered. simpl. apply timer_registered_remove; exact w.
    + rewrite reconciliationComplete_calls, Et. reflexivity.
  - destruct (inProgress (helper w1)) eqn:Hp.
    + destruct (eoiuFlagsSet (bgpStateTable e)) eqn:Hf.
      * destruct (eoiuCheck_reached e w1 Hp Hf) as [Ha Hc].
        apply TS_hold with (eoiuHoldInterval e); [assumption | | | |].
        -- rewrite Ha. unfold timer_registered. simpl.
           now rewrite registered_remove.
        -- rewrite Ha. unfold timer_registered. simpl.
           now rewrite registered_remove, registered_add.
        -- rewrite Ha, <- Hsel. unfold timer_registered. simpl.
           now rewrite registered_remove, registered_add.
        -- rewrite Hc. reflexivity.
      * destruct (eoiuCheck_not_reached e w1 Hp Hf) as [Ha Hc].
        apply TS_poll_again; [assumption | |].
        -- intros u. rewrite Ha, <- Hsel. reflexivity.
        -- rewrite Hc. reflexivity.
    + destruct (eoiuCheck_done e w1 Hp) as [Ha Hc].
      apply TS_poll_end; [assumption | |].
      * intros u. rewrite Ha, <- Hsel. unfold timer_registered. simpl.
        apply timer_registered_remove; exact w.
      * rewrite Hc. reflexivity.
  - apply TS_other.
    + intros u. rewrite <- Hsel. apply config_keeps_timer_registered.
    + simpl. apply filter_none.
      apply (emits_weaken config_call); [| apply config_emits].
      intros [| [[| | | |]|] | [[| | | |]|] | | | | | | | | | | | | | |]; simpl; congruence.
  - apply TS_other.
    + intros u. rewrite <- Hsel.
      pose proof (responses_keep e w1) as Hk. cbv beta in Hk.
      now rewrite Hk.
    + simpl. apply filter_none.
      apply (emits_weaken is_response); [| apply responses_emit].
      intros []; simpl; congruence.
  - apply TS_other.
    + intros u. rewrite <- Hsel. unfold timer_registered.
      now rewrite (flushPipeline_keeps_sel e w1).
    + simpl. apply filter_none.
      apply (emits_weaken pipeline_call); [| apply flushPipeline_emits].
      intros []; simpl; congruence.
  - apply TS_other.
    + intros u. rewrite <- Hsel. reflexivity.
    + reflexivity.
Qed.

(** The loop, turn by turn. *)
Lemma dispatchLoop_ready_after (e : Env) (rest : list Turn) (w : World H) :
  after (dispatchLoop (Ready e :: rest)) w
  = after (dispatchLoop rest) (after (iteration e) w).
Proof. simpl. now rewrite after_bind. Qed.

Lemma dispatchLoop_ready_calls (e : Env) (rest : list Turn) (w : World H) :
  calls (dispatchLoop (Ready e :: rest)) w
  = calls (iteration e) w ++ calls (dispatchLoop rest) (after (iteration e) w).
Proof. simpl. now rewrite calls_bind. Qed.

Lemma dispatchLoop_raise (f : Fault) (rest : list Turn) (w : World H) :
  after (dispatchLoop (Raise f :: rest)) w = w
  /\ calls (dispatchLoop (Raise f :: rest)) w = [A_select (gSelectTimeout w)]
  /\ result (dispatchLoop (Raise f :: rest)) w = Some f.
Proof. destruct w. repeat split. Qed.

(** One iteration keeps the two EOIU timers exclusive. *)
Lemma iteration_exclusive (e : Env) (w : World H) :
  eoiu_exclusive w = true -> eoiu_exclusive (after (iteration e) w) = true.
Proof.
  unfold eoiu_exclusive. intros Hx.
  destruct (iteration_timer_step e w) as [t Et Ht Hr _ | iv Et Hc Hh Hw _ | Et Hr _ | Et Hr _ | Hr _].
  - rewrite !Hr. destruct Ht as [-> | ->]; simpl;
      destruct (timer_registered eoiuCheckTimer w); simpl in *; auto.
  - rewrite Hc. reflexivity.
  - now rewrite !Hr.
  - rewrite !Hr. reflexivity.
  - now rewrite !Hr.
Qed.

Lemma dispatchLoop_exclusive (turns : list Turn) (w : World H) :
  eoiu_exclusive w = true -> eoiu_exclusive (after (dispatchLoop turns) w) = true.
Proof.
  revert w. induction turns as [|[e|f] rest IH]; intros w Hx.
  - exact Hx.
  - rewrite dispatchLoop_ready_after. apply IH, iteration_exclusive, Hx.
  - now rewrite (proj1 (dispatchLoop_raise f rest w)).
Qed.

(** *** Counting calls *)

Lemma count_calls_app (q : Action -> bool) (l1 l2 : list Action) :
  count_calls q (l1 ++ l2) = (count_calls q l1 + count_calls q l2)%nat.
Proof. unfold count_calls. now rewrite filter_app, length_app. Qed.

Lemma count_calls_sub (q r : Action -> bool) (l : list Action) :
  (forall a, q a = true -> r a = true) ->
  count_calls q l = count_calls q (filter r l).
Proof.
  intros Hqr. unfold count_calls. induction l as [|a l IH]; simpl; [reflexivity |].
  destruct (q a) eqn:Hq.
  - rewrite (Hqr a Hq). simpl. rewrite Hq. simpl. now rewrite IH.
  - destruct (r a); simpl; [rewrite Hq |]; exact IH.
Qed.

Lemma hook_is_timer_call (a : Action) : is_hook a = true -> timer_call a = true.
Proof. destruct a; simpl; congruence. Qed.

Lemma removal_is_timer_call (t : TimerId) (a : Action) :
  is_removal_of t a = true -> timer_call a = true.
Proof. destruct a as [| |[[| | | |]|]| | | | | | | | | | | | | |]; simpl; congruence. Qed.

Lemma start_is_timer_call (t : TimerId) (a : Action) :
  is_start_of t a = true -> timer_call a = true.
Proof. destruct a; simpl; congruence. Qed.

Lemma add_is_timer_call (t : TimerId) (a : Action) :
  is_add_of t a = true -> timer_call a = true.
Proof. destruct a as [|[[| | | |]|]| | | | | | | | | | | | | | |]; simpl; congruence. Qed.

(** A reported timer is a registered one. *)
Lemma reported_timer (e : Env) (w : World H) (t : TimerId) :
  reported_ok e w = true -> temps e = addr t -> timer_registered t w = true.
Proof. unfold reported_ok. intros Hr Et. rewrite Et in Hr. exact Hr. Qed.

(** Reconciliation-complete actions of the loop, against the timers that
    can still trigger one: the warm-start timer while it is registered, and
    the hold timer while it or the poll timer that arms it is. *)
Lemma dispatchLoop_reconcile_bound (turns : list Turn) (w : World H) :
  valid_turns turns w = true ->
  eoiu_exclusive w = true ->
  let l := calls (dispatchLoop turns) w in
  (count_calls (is_removal_of warmStartTimer) l
     <= Nat.b2n (timer_registered warmStartTimer w))%nat
  /\ (count_calls (is_removal_of eoiuHoldTimer) l
        <= Nat.b2n (timer_registered eoiuHoldTimer w
                    || timer_registered eoiuCheckTimer w))%nat
  /\ count_calls is_hook l
     = (count_calls (is_removal_of warmStartTimer) l
        + count_calls (is_removal_of eoiuHoldTimer) l)%nat.
Proof.
  revert w. induction turns as [|[e|f] rest IH]; intros w Hv Hx l; subst l.
  - simpl. repeat split; apply Nat.le_0_l.
  - simpl in Hv. apply andb_true_iff in Hv. destruct Hv as [Hr Hv].
    specialize (IH _ Hv (iteration_exclusive e w Hx)). cbv zeta in IH.
    destruct IH as [IHw [IHh IHk]].
    rewrite dispatchLoop_ready_calls, !count_calls_app, IHk.
    rewrite (count_calls_sub is_hook timer_call (calls (iteration e) w))
      by apply hook_is_timer_call.
    rewrite (count_calls_sub (is_removal_of warmStartTimer) timer_call
               (calls (iteration e) w)) by apply removal_is_timer_call.
    rewrite (count_calls_sub (is_removal_of eoiuHoldTimer) timer_call
               (calls (iteration e) w)) by apply removal_is_timer_call.
    unfold eoiu_exclusive in Hx.
    set (w' := after (iteration e) w) in *.
    destruct (iteration_timer_step e w)
      as [t Et Ht Hreg Hl | iv Et Hc Hh Hw Hl | Et Hreg Hl | Et Hreg Hl | Hreg Hl];
      rewrite Hl; clear Hl; try fold w' in Hreg.
    + pose proof (reported_timer e w t Hr Et) as Hin.
      rewrite (Hreg warmStartTimer) in IHw;
      rewrite (Hreg eoiuHoldTimer), (Hreg eoiuCheckTimer) in IHh.
      destruct Ht as [-> | ->]; rewrite Hin in *; simpl in *;
        destruct (timer_registered eoiuCheckTimer w),
                 (timer_registered eoiuHoldTimer w),
                 (timer_registered warmStartTimer w);
        simpl in *; try discriminate; lia.
    + pose proof (reported_timer e w _ Hr Et) as Hin.
      fold w' in Hc, Hh, Hw. rewrite Hw in IHw. rewrite Hc, Hh in IHh.
      rewrite Hin, orb_true_r. simpl in *. lia.
    + rewrite (Hreg warmStartTimer) in IHw;
      rewrite (Hreg eoiuHoldTimer), (Hreg eoiuCheckTimer) in IHh. simpl. lia.
    + rewrite (Hreg warmStartTimer) in IHw;
      rewrite (Hreg eoiuHoldTimer), (Hreg eoiuCheckTimer) in IHh. simpl in *.
      destruct (timer_registered eoiuCheckTimer w),
               (timer_registered eoiuHoldTimer w),
               (timer_registered warmStartTimer w);
        simpl in *; lia.
    + rewrite (Hreg warmStartTimer) in IHw;
      rewrite (Hreg eoiuHoldTimer), (Hreg eoiuCheckTimer) in IHh. simpl. lia.
  - destruct (dispatchLoop_raise f rest w) as [_ [-> _]].
    simpl. repeat split; apply Nat.le_0_l.
Qed.

(** Once the poll timer is deregistered it is neither reported, nor
    started, nor registered again. *)
Lemma dispatchLoop_poll_gone (turns : list Turn) (w : World H) :
  timer_registered eoiuCheckTimer w = false ->
  valid_turns turns w = true ->
  let l := calls (dispatchLoop turns) w in
  count_calls (is_start_of eoiuCheckTimer) l = 0%nat
  /\ count_calls (is_add_of eoiuCheckTimer) l = 0%nat
  /\ timer_registered eoiuCheckTimer (after (dispatchLoop turns) w) = false.
Proof.
  revert w. induction turns as [|[e|f] rest IH]; intros w Hc Hv l; subst l.
  - simpl. auto.
  - simpl in Hv. apply andb_true_iff in Hv. destruct Hv as [Hr Hv].
    rewrite dispatchLoop_ready_calls, dispatchLoop_ready_after, !count_calls_app.
    rewrite (count_calls_sub (is_start_of eoiuCheckTimer) timer_call
               (calls (iteration e) w)) by apply start_is_timer_call.
    rewrite (count_calls_sub (is_add_of eoiuCheckTimer) timer_call
               (calls (iteration e) w)) by apply add_is_timer_call.
    assert (Hno : temps e <> addr eoiuCheckTimer).
    { intros Et. pose proof (reported_timer e w _ Hr Et). congruence. }
    destruct (iteration_timer_step e w)
      as [t Et Ht Hreg Hl | iv Et _ _ _ _ | Et _ _ | Et _ _ | Hreg Hl];
      try contradiction; rewrite Hl; clear Hl.
    + assert (Hc' : timer_registered eoiuCheckTimer (after (iteration e) w) = false)
        by (rewrite Hreg, Hc; apply andb_false_r).
      destruct (IH _ Hc' Hv) as [-> [-> ->]].
      destruct Ht as [-> | ->]; simpl; auto.
    + assert (Hc' : timer_registered eoiuCheckTimer (after (iteration e) w) = false)
        by (now rewrite Hreg).
      destruct (IH _ Hc' Hv) as [-> [-> ->]]. simpl. auto.
  - destruct (dispatchLoop_raise f rest w) as [-> [-> _]]. simpl. auto.
Qed.

End Timers.

(** ** Session start *)

Section SessionStart.

Context {H : Type} `{RestartHelper H}.

(** [sessionStart] ends with the fault met while setting up the link, if
    any. *)
Lemma sessionStart_result (se : SessionEnv) (w : World H) :
  result (sessionStart se) w = acceptFault se.
Proof.
  unfold acceptFault. destruct w. run.
  destruct (setup se); [reflexivity | reflexivity |].
  repeat (crack; run); reflexivity.
Qed.

(** A session reaches its loop exactly when the feed connects. *)
Lemma acceptFault_None (se : SessionEnv) :
  acceptFault se = None -> setup se = Connected.
Proof. unfold acceptFault. destruct (setup se); [discriminate | discriminate | reflexivity]. Qed.

(** C5. At session start with warm restart enabled, restoration always
    runs; the warm-start timer is armed exactly when restoration reports
    work, and the interval it is started with is the configured restart
    timer, or 120 s when none is configured; the EOIU-poll timer is armed
    with 5 s whatever restoration reports, and the hold timer is not armed.
    The timer calls of the start are exactly these, in this order: the
    warm-start timer started with that interval and registered (when
    restoration reports work), then the poll timer started with 5 s and
    registered.  With warm restart disabled the helper is put in state
    [WSDISABLED], restoration does not run, and no timer is started or
    registered. *)
Theorem session_start_timers (se : SessionEnv) (w : World H) :
  acceptFault se = None ->
  let w' := after (sessionStart se) w in
  let l := calls (sessionStart se) w in
  let h1 := snd (checkAndStart (helper w)) in
  (fst (checkAndStart (helper w)) = true ->
     In A_runRestoration l
     /\ armed warmStartTimer w' = fst (runRestoration h1)
     /\ running (timer (timers w') warmStartTimer) = fst (runRestoration h1)
     /\ timer_registered warmStartTimer w' = fst (runRestoration h1)
     /\ interval (timer (timers w') warmStartTimer)
        = mkTimespec (if getRestartTimer h1 =? 0 then 120 else getRestartTimer h1) 0
     /\ armed eoiuCheckTimer w' = true
     /\ timer (timers w') eoiuCheckTimer = mkTimer (mkTimespec 5 0) true
     /\ In (A_timerStart eoiuCheckTimer (mkTimespec 5 0)) l
     /\ timer_registered eoiuHoldTimer w' = false
     /\ running (timer (timers w') eoiuHoldTimer) = false
     /\ helper w' = snd (runRestoration h1)
     /\ warmStartEnabled w' = true
     /\ filter timer_call l
        = (if fst (runRestoration h1) then
             [A_timerStart warmStartTimer
                (mkTimespec (if getRestartTimer h1 =? 0 then 120
                             else getRestartTimer h1) 0);
              A_addSelectable (addr warmStartTimer)]
           else [])
          ++ [A_timerStart eoiuCheckTimer (mkTimespec 5 0);
              A_addSelectable (addr eoiuCheckTimer)])
  /\ (fst (checkAndStart (helper w)) = false ->
      helper w' = setState WSDISABLED h1
      /\ In (A_setState WSDISABLED) l
      /\ ~ In A_runRestoration l
      /\ existsb is_timerStart l = false
      /\ (forall t, timer_registered t w' = false
                    /\ running (timer (timers w') t) = false
                    /\ armed t w' = false)
      /\ warmStartEnabled w' = false).
Proof.
  intros Ha w' l h1. subst w' l h1. apply acceptFault_None in Ha.
  destruct w as [tmo ppl sup hlp chan nxt sl tms wse].
  split; intros Hc.
  - run. rewrite Ha. run.
    destruct sup; run; [destruct chan; run |];
      (destruct (checkAndStart hlp) as [c h1]; run; subst c; run;
       destruct (getRestartTimer h1 =? 0); run;
       destruct (runRestoration h1) as [r h2]; run;
       destruct r; run; repeat split; in_log).
  - run. rewrite Ha. run.
    destruct sup; run; [destruct chan; run |];
      (destruct (checkAndStart hlp) as [c h1]; run; subst c; run;
       (split; [reflexivity |]); (split; [in_log |]);
       (split; [cbn [In]; intuition discriminate |]); (split; [reflexivity |]);
       (split; [| reflexivity]); intros []; repeat split).
Qed.

(** What [sessionStart] leaves of the reconciliation timers. *)
Lemma sessionStart_reconcile_free (se : SessionEnv) (w : World H) :
  let l := calls (sessionStart se) w in
  count_calls is_hook l = 0%nat
  /\ count_calls (is_removal_of warmStartTimer) l = 0%nat
  /\ count_calls (is_removal_of eoiuHoldTimer) l = 0%nat
  /\ first_select l = None
  /\ (acceptFault se = None ->
      timer_registered eoiuHoldTimer (after (sessionStart se) w) = false).
Proof.
  unfold acceptFault. destruct w. run.
  destruct (setup se); [repeat split; discriminate | repeat split; discriminate |].
  repeat (crack; run); repeat split.
Qed.

(** A session that reaches its loop does so with nothing pending and the
    timeout infinite. *)
Lemma sessionStart_ready (se : SessionEnv) (w : World H) :
  acceptFault se = None ->
  pipeline (after (sessionStart se) w) = 0%N
  /\ gSelectTimeout (after (sessionStart se) w) = INFINITE.
Proof.
  intros Ha. apply acceptFault_None in Ha. destruct w. run. rewrite Ha. run.
  repeat (crack; run); split; reflexivity.
Qed.

Lemma sessionStart_exclusive (se : SessionEnv) (w : World H) :
  acceptFault se = None ->
  eoiu_exclusive (after (sessionStart se) w) = true.
Proof.
  intros Ha. unfold eoiu_exclusive.
  destruct (sessionStart_reconcile_free se w) as (_ & _ & _ & _ & Hh).
  rewrite (Hh Ha). now rewrite andb_false_r.
Qed.

(** A session is its start followed, unless the start failed, by the
    dispatch loop. *)
Lemma session_calls (se : SessionEnv) (w : World H) :
  calls (session se) w
  = calls (sessionStart se) w
    ++ match acceptFault se with
       | Some _ => []
       | None => calls (dispatchLoop (turns se)) (after (sessionStart se) w)
       end.
Proof.
  unfold session. rewrite calls_bind, sessionStart_result.
  destruct (acceptFault se); reflexivity.
Qed.

Lemma session_after (se : SessionEnv) (w : World H) :
  after (session se) w
  = match acceptFault se with
    | Some _ => after (sessionStart se) w
    | None => after (dispatchLoop (turns se)) (after (sessionStart se) w)
    end.
Proof.
  unfold session. rewrite after_bind, sessionStart_result.
  destruct (acceptFault se); reflexivity.
Qed.

Lemma session_result (se : SessionEnv) (w : World H) :
  result (session se) w
  = match acceptFault se with
    | Some f => Some f
    | None => result (dispatchLoop (turns se)) (after (sessionStart se) w)
    end.
Proof.
  unfold session. rewrite result_bind, sessionStart_result.
  destruct (acceptFault se); reflexivity.
Qed.

End SessionStart.

(** ** Reconciliation *)

Section Reconciliation.

Context {H : Type} `{RestartHelper H}.

(** Lines 216-228 register the hold timer and leave the registration of
    the other timers as it was. *)
Lemma armHoldTimer_registered (e : Env) (w : World H) (u : TimerId) :
  timer_registered u (after (armHoldTimer e) w)
  = TimerId_eqb u eoiuHoldTimer || timer_registered u w.
Proof.
  destruct w. unfold timer_registered. exec.
  destruct (eoiuHoldCfg e =? 0); exec; rewrite registered_add; destruct u; reflexivity.
Qed.

(** C8, as the code has it.  In a session that reaches its loop, at every
    wait of the dispatch loop at most one of the EOIU-poll and the
    EOIU-hold timer is registered with the multiplexer.  An iteration that
    starts the hold timer, or registers it, makes exactly three timer calls,
    in this order: the hold timer is started, the hold timer is registered,
    the poll timer is deregistered; from then on the poll timer is neither
    started nor registered again.  Inside that iteration, after the hold
    timer is registered and before the poll timer is deregistered, the hold
    timer is registered and the poll timer is still registered if it was at
    the wait. *)
Theorem eoiu_timers_exclusive (w0 : World H) (se : SessionEnv)
    (pre : list Turn) (e : Env) (post : list Turn) :
  acceptFault se = None ->
  let w := after (dispatchLoop pre) (after (sessionStart se) w0) in
  let w' := after (iteration e) w in
  eoiu_exclusive w = true
  /\ ((count_calls (is_start_of eoiuHoldTimer) (calls (iteration e) w) > 0)%nat
      \/ (timer_registered eoiuHoldTimer w = false
          /\ timer_registered eoiuHoldTimer w' = true) ->
      In (A_removeSelectable (addr eoiuCheckTimer)) (calls (iteration e) w)
      /\ timer_registered eoiuCheckTimer w' = false
      /\ timer_registered eoiuHoldTimer w' = true
      /\ (valid_turns post w' = true ->
          count_calls (is_start_of eoiuCheckTimer) (calls (dispatchLoop post) w') = 0%nat
          /\ count_calls (is_add_of eoiuCheckTimer) (calls (dispatchLoop post) w') = 0%nat
          /\ timer_registered eoiuCheckTimer (after (dispatchLoop post) w') = false)
      /\ (exists iv,
            filter timer_call (calls (iteration e) w)
            = [A_timerStart eoiuHoldTimer iv;
               A_addSelectable (addr eoiuHoldTimer);
               A_removeSelectable (addr eoiuCheckTimer)])
      /\ (let wm := after (armHoldTimer e) (after (select e) w) in
          w' = after (removeSelectable (addr eoiuCheckTimer)) wm
          /\ timer_registered eoiuHoldTimer wm = true
          /\ timer_registered eoiuCheckTimer wm = timer_registered eoiuCheckTimer w)).
Proof.
  intros Hacc w w'. subst w'. split.
  - apply dispatchLoop_exclusive, sessionStart_exclusive, Hacc.
  - intros Harm.
    rewrite (count_calls_sub (is_start_of eoiuHoldTimer) timer_call
               (calls (iteration e) w)) in Harm by apply start_is_timer_call.
    destruct (iteration_timer_step e w)
      as [t Et Ht Hreg Hl | iv Et Hc Hh Hw Hl | Et Hreg Hl | Et Hreg Hl | Hreg Hl].
    + exfalso. rewrite Hl in Harm. destruct Harm as [Hs | [Hb Ha]].
      * destruct Ht as [-> | ->]; unfold count_calls in Hs; simpl in Hs; lia.
      * rewrite Hreg, Hb, andb_false_r in Ha. discriminate.
    + split; [| split; [exact Hc | split; [exact Hh | split; [| split]]]].
      * assert (Hin : In (A_removeSelectable (addr eoiuCheckTimer))
                         (filter timer_call (calls (iteration e) w)))
          by (rewrite Hl; in_log).
        apply filter_In in Hin. apply Hin.
      * intros Hv. now apply dispatchLoop_poll_gone.
      * exists iv. exact Hl.
      * cbv zeta. rewrite !armHoldTimer_registered, !select_timer_registered.
        split; [| split; reflexivity].
        rewrite iteration_after.
        assert (Hd : after (dispatch e) (after (select e) w)
                     = after (eoiuCheck e) (after (select e) w)).
        { unfold dispatch, after. rewrite Et. reflexivity. }
        rewrite Hd. clear Hd.
        assert (Hstart : existsb (is_start_of eoiuHoldTimer)
                           (calls (eoiuCheck e) (after (select e) w)) = true).
        { assert (Hin : In (A_timerStart eoiuHoldTimer iv)
                           (filter timer_call (calls (iteration e) w)))
            by (rewrite Hl; in_log).
          apply filter_In in Hin. destruct Hin as [Hin _].
          rewrite iteration_calls in Hin. destruct Hin as [Hin | Hin]; [discriminate |].
          assert (Hd : calls (dispatch e) (after (select e) w)
                       = calls (eoiuCheck e) (after (select e) w)).
          { unfold dispatch, calls. rewrite Et. reflexivity. }
          rewrite Hd in Hin. apply existsb_exists.
          exists (A_timerStart eoiuHoldTimer iv). split; [exact Hin | reflexivity]. }
        destruct (inProgress (helper (after (select e) w))) eqn:Hp.
        -- destruct (eoiuFlagsSet (bgpStateTable e)) eqn:Hf.
           ++ unfold eoiuCheck. rewrite !after_bind.
              unfold gets at 1 2. unfold after at 3 6, result at 1. cbn [fst snd].
              rewrite Hp, Hf. rewrite after_bind. reflexivity.
           ++ destruct (eoiuCheck_not_reached e _ Hp Hf) as [_ Hc'].
              rewrite Hc' in Hstart. discriminate.
        -- destruct (eoiuCheck_done e _ Hp) as [_ Hc'].
           rewrite Hc' in Hstart. discriminate.
    + exfalso. rewrite Hl in Harm. destruct Harm as [Hs | [Hb Ha]].
      * unfold count_calls in Hs; simpl in Hs. lia.
      * rewrite Hreg in Ha. congruence.
    + exfalso. rewrite Hl in Harm. destruct Harm as [Hs | [Hb Ha]].
      * unfold count_calls in Hs; simpl in Hs. lia.
      * rewrite Hreg, Hb, andb_false_r in Ha. discriminate.
    + exfalso. rewrite Hl in Harm. destruct Harm as [Hs | [Hb Ha]].
      * unfold count_calls in Hs; simpl in Hs. lia.
      * rewrite Hreg in Ha. congruence.
Qed.

(** C2, as the code has it.  In a session whose loop is only ever handed
    registered objects, the reconciliation-complete action (hook,
    deregistration of the timer that fired, forced flush) runs at most once
    for the warm-start timer and at most once for the EOIU hold timer, so
    at most twice; and at most once when the warm-start timer was not
    registered at session start. *)
Theorem reconciliation_once_per_timer (w0 : World H) (se : SessionEnv) :
  valid_turns (turns se) (after (sessionStart se) w0) = true ->
  let l := calls (session se) w0 in
  (count_calls (is_removal_of warmStartTimer) l <= 1)%nat
  /\ (count_calls (is_removal_of eoiuHoldTimer) l <= 1)%nat
  /\ count_calls is_hook l
     = (count_calls (is_removal_of warmStartTimer) l
        + count_calls (is_removal_of eoiuHoldTimer) l)%nat
  /\ (count_calls is_hook l <= 2)%nat
  /\ (timer_registered warmStartTimer (after (sessionStart se) w0) = false ->
      (count_calls is_hook l <= 1)%nat).
Proof.
  intros Hv l. subst l. rewrite session_calls, !count_calls_app.
  destruct (sessionStart_reconcile_free se w0) as (-> & -> & -> & _ & _).
  destruct (acceptFault se) eqn:Ea.
  - unfold count_calls. simpl. repeat split; lia.
  - destruct (dispatchLoop_reconcile_bound _ _ Hv (sessionStart_exclusive se w0 Ea))
      as (Hw & Hh & Hk).
    simpl. rewrite Hk.
    destruct (timer_registered warmStartTimer (after (sessionStart se) w0));
      destruct (timer_registered eoiuHoldTimer (after (sessionStart se) w0)
                || timer_registered eoiuCheckTimer (after (sessionStart se) w0));
      simpl in *; repeat split; try lia; try discriminate.
Qed.

End Reconciliation.

(** C2 fails as stated: in [sessionBothTimers] the hold timer expires and
    then the warm-start timer does; every object reported is registered,
    and the hook is invoked, a timer deregistered and the pipeline flushed
    twice. *)
Lemma reconciliation_runs_twice :
  valid_turns (turns sessionBothTimers)
    (after (sessionStart sessionBothTimers) (initialWorld helperWarm)) = true
  /\ filter timer_call (calls (session sessionBothTimers) (initialWorld helperWarm))
     = [A_timerStart warmStartTimer (mkTimespec 120 0);
        A_addSelectable (addr warmStartTimer);
        A_timerStart eoiuCheckTimer (mkTimespec 5 0);
        A_addSelectable (addr eoiuCheckTimer);
        A_timerStart eoiuHoldTimer (mkTimespec 3 0);
        A_addSelectable (addr eoiuHoldTimer);
        A_removeSelectable (addr eoiuCheckTimer);
        A_onWarmStartEnd;
        A_removeSelectable (addr eoiuHoldTimer);
        A_onWarmStartEnd;
        A_removeSelectable (addr warmStartTimer)]
  /\ count_calls is_hook (calls (session sessionBothTimers) (initialWorld helperWarm))
     = 2%nat
  /\ count_calls is_flush
       (calls (dispatchLoop (turns sessionBothTimers))
          (after (sessionStart sessionBothTimers) (initialWorld helperWarm)))
     = 2%nat
  /\ ~ (count_calls is_hook
         (calls (session sessionBothTimers) (initialWorld helperWarm)) <= 1)%nat.
Proof.
  assert (Hk : count_calls is_hook
                 (calls (session sessionBothTimers) (initialWorld helperWarm)) = 2%nat)
    by (vm_compute; reflexivity).
  split; [vm_compute; reflexivity |].
  split; [vm_compute; reflexivity |].
  split; [exact Hk |].
  split; [vm_compute; reflexivity |].
  rewrite Hk. lia.
Qed.

(** C2, as the code has it, on the session above. *)
Lemma reconciliation_once_per_timer_witness :
  (count_calls is_hook (calls (session sessionBothTimers) (initialWorld helperWarm))
   <= 2)%nat.
Proof.
  apply (reconciliation_once_per_timer (initialWorld helperWarm) sessionBothTimers).
  reflexivity.
Defined.

(** C8 on the session above, at the poll tick that arms the hold timer. *)
Lemma eoiu_timers_exclusive_witness :
  let w := after (dispatchLoop []) (after (sessionStart sessionBothTimers)
                                      (initialWorld helperWarm)) in
  let w' := after (iteration tickReached) w in
  eoiu_exclusive w = true
  /\ timer_registered eoiuCheckTimer
       (after (dispatchLoop [Ready holdExpires; Ready burst]) w') = false.
Proof.
  intros w w'.
  destruct (eoiu_timers_exclusive (initialWorld helperWarm) sessionBothTimers
              [] tickReached [Ready holdExpires; Ready burst] eq_refl) as [Hx Harm].
  split; [exact Hx |].
  assert (Hstart : (count_calls (is_start_of eoiuHoldTimer)
                      (calls (iteration tickReached) w) > 0)%nat)
    by (vm_compute; lia).
  destruct (Harm (or_introl Hstart)) as (_ & _ & _ & Hpost & _).
  assert (Hv : valid_turns [Ready holdExpires; Ready burst] w' = true)
    by (vm_compute; reflexivity).
  exact (proj2 (proj2 (Hpost Hv))).
Defined.

(** C8 fails as stated: on the first poll tick of the session above, after
    line 228 has registered the hold timer and before line 230 deregisters
    the poll timer, both timers are registered with the multiplexer. *)
Lemma eoiu_timers_both_registered :
  let w := after (select tickReached)
             (after (sessionStart sessionBothTimers) (initialWorld helperWarm)) in
  let wm := after (armHoldTimer tickReached) w in
  inProgress (helper w) = true
  /\ eoiuFlagsSet (bgpStateTable tickReached) = true
  /\ after (iteration tickReached)
       (after (sessionStart sessionBothTimers) (initialWorld helperWarm))
     = after (removeSelectable (addr eoiuCheckTimer)) wm
  /\ timer_registered eoiuCheckTimer wm = true
  /\ timer_registered eoiuHoldTimer wm = true
  /\ eoiu_exclusive wm = false.
Proof. vm_compute. repeat split. Qed.

(** The first poll tick of the session above: both flags read "reached",
    no hold duration is configured. *)
Lemma eoiu_poll_tick_example :
  let w := after (sessionStart sessionBothTimers) (initialWorld helperWarm) in
  armed eoiuHoldTimer (after (dispatch tickReached) w) = true
  /\ interval (timer (timers (after (dispatch tickReached) w)) eoiuHoldTimer)
     = mkTimespec 3 0.
Proof.
  intros w.
  destruct (eoiu_poll_tick tickReached w eq_refl) as (_ & Hreached & _).
  assert (Hp : inProgress (helper w) = true) by (vm_compute; reflexivity).
  destruct (Hreached Hp eq_refl eq_refl) as (_ & Harmed & Hdefault & _).
  split; [exact Harmed | exact (Hdefault eq_refl)].
Defined.

(** C4 at its failing input: a poll tick at the start of the session above
    that finds the IPv4 flag reached and no IPv6 flag. *)
Lemma eoiu_poll_tick_ipv6_absent_witness :
  let w := after (sessionStart sessionBothTimers) (initialWorld helperWarm) in
  let w' := after (dispatch tickIPv6Absent) w in
  eoiuFlagsSet (bgpStateTable tickIPv6Absent) = true
  /\ armed eoiuHoldTimer w' = true
  /\ timer_registered eoiuCheckTimer w' = false.
Proof.
  intros w w'.
  assert (Hp : inProgress (helper w) = true) by (vm_compute; reflexivity).
  destruct (eoiu_poll_tick_ipv6_absent tickIPv6Absent w eq_refl Hp eq_refl
              (fun old => eq_refl)) as (Hf & Ha & Hc & _).
  split; [exact Hf | split; [exact Ha | exact Hc]].
Defined.

(** C5 at the start of the session above. *)
Lemma session_start_timers_witness :
  let w' := after (sessionStart sessionBothTimers) (initialWorld helperWarm) in
  armed warmStartTimer w' = true
  /\ interval (timer (timers w') warmStartTimer) = mkTimespec 120 0
  /\ armed eoiuCheckTimer w' = true
  /\ filter timer_call (calls (sessionStart sessionBothTimers) (initialWorld helperWarm))
     = [A_timerStart warmStartTimer (mkTimespec 120 0);
        A_addSelectable (addr warmStartTimer);
        A_timerStart eoiuCheckTimer (mkTimespec 5 0);
        A_addSelectable (addr eoiuCheckTimer)].
Proof.
  intros w'.
  destruct (session_start_timers sessionBothTimers (initialWorld helperWarm) eq_refl)
    as [Hon _].
  destruct (Hon eq_refl) as (_ & Hw & _ & _ & Hi & Hc & _ & _ & _ & _ & _ & _ & Hl).
  split; [exact Hw | split; [exact Hi | split; [exact Hc | exact Hl]]].
Defined.

(** ** Flushes and the select timeout *)

Section FlushTimeout.

Context {H : Type} `{RestartHelper H}.

Lemma first_select_app (l1 l2 : list Action) :
  first_select l1 = None -> first_select (l1 ++ l2) = first_select l2.
Proof.
  induction l1 as [|a l1 IH]; simpl; [reflexivity |].
  destruct a; try exact IH. discriminate.
Qed.

(** After a controller step the timeout is infinite exactly when nothing
    is pending, and a step that flushed left nothing pending. *)
Lemma flushPipeline_timeout (e : Env) (w : World H) :
  let w' := after (flushPipeline e) w in
  (gSelectTimeout w' = INFINITE <-> pipeline w' = 0%N)
  /\ (flushed (calls (flushPipeline e) w) = true ->
      pipeline w' = 0%N /\ gSelectTimeout w' = INFINITE).
Proof.
  intros w'. subst w'.
  destruct (N.eq_dec (pipeline w) 0) as [Hz | Hnz].
  - destruct (flushPipeline_empty e w Hz) as [-> ->]. simpl.
    repeat split; auto; discriminate.
  - destruct ((Z.of_N (pipeline w) <? SMALL_TRAFFIC)
              || (idleTime e >=? gFlushTimeout) || (idleTime e <=? 0)) eqn:E.
    + destruct (flushPipeline_flush e w Hnz E) as [-> ->]. simpl.
      repeat split; auto.
    + destruct (flushPipeline_defer e w Hnz E) as [-> ->].
      cbn [gSelectTimeout pipeline flushed existsb is_flush orb].
      apply flushPipeline_defer_in_range in E. unfold INFINITE.
      repeat split; intros; try lia; easy.
Qed.

(** An iteration that starts with nothing pending and an infinite timeout,
    and during which nothing is enqueued, ends the same way. *)
Lemma iteration_stays_infinite (e : Env) (w : World H) :
  pipeline w = 0%N -> gSelectTimeout w = INFINITE -> enq e = 0%N ->
  pipeline (after (iteration e) w) = 0%N
  /\ gSelectTimeout (after (iteration e) w) = INFINITE.
Proof.
  intros Hp Ht Hq. rewrite iteration_after.
  set (w1 := after (select e) w).
  assert (Hp1 : pipeline w1 = 0%N) by (subst w1; rewrite select_after; simpl; lia).
  assert (Ht1 : gSelectTimeout w1 = INFINITE) by (subst w1; now rewrite select_after).
  destruct (dispatch_cases e w1) as [m [Hcase [-> _]]].
  destruct Hcase as [t Et Hor | Et | Et | id Ec Et | Ec | Ec].
  - rewrite reconciliationComplete_after. simpl. auto.
  - pose proof (eoiuCheck_keeps e w1) as Hk. cbv beta in Hk.
    injection Hk as -> -> _ _ _ _. auto.
  - pose proof (config_keeps e w1) as Hk. cbv beta in Hk.
    injection Hk as -> -> _ _ _. auto.
  - pose proof (responses_keep e w1) as Hk. cbv beta in Hk.
    rewrite Hk. auto.
  - destruct (flushPipeline_empty e w1 Hp1) as [-> _]. simpl. auto.
  - auto.
Qed.

(** C10. When a session reaches its dispatch loop the select timeout has
    been set to infinite, whatever it was before, and the first wait of the
    session uses it. *)
Theorem session_first_wait_infinite (se : SessionEnv) (w0 : World H) :
  acceptFault se = None ->
  gSelectTimeout (after (sessionStart se) w0) = INFINITE
  /\ (turns se <> [] -> first_select (calls (session se) w0) = Some INFINITE).
Proof.
  intros Ha.
  destruct (sessionStart_ready se w0 Ha) as [_ Ht].
  split; [exact Ht |].
  intros Hne. rewrite session_calls, Ha.
  destruct (sessionStart_reconcile_free se w0) as (_ & _ & _ & Hs & _).
  rewrite (first_select_app _ _ Hs).
  destruct (turns se) as [|[e|f] rest]; [contradiction | |].
  - rewrite dispatchLoop_ready_calls, iteration_calls. simpl. now rewrite Ht.
  - destruct (dispatchLoop_raise f rest (after (sessionStart se) w0)) as (_ & -> & _).
    simpl. now rewrite Ht.
Qed.

(** C9. When [select] returns with nothing ready, the controller step runs
    if and only if warm restart is disabled for the session or the helper
    reports reconciled; otherwise the iteration does nothing. *)
Theorem idle_wake_controller (e : Env) (w : World H) :
  temps e = None ->
  let go := negb (warmStartEnabled w) || isReconciled (helper w) in
  existsb is_pipelineSize (calls (dispatch e) w) = go
  /\ (go = true ->
      after (dispatch e) w = after (flushPipeline e) w
      /\ calls (dispatch e) w = calls (flushPipeline e) w)
  /\ (go = false -> after (dispatch e) w = w /\ calls (dispatch e) w = []).
Proof.
  intros Et go. subst go.
  assert (Hsize : existsb is_pipelineSize (calls (flushPipeline e) w) = true).
  { unfold flushPipeline, pipeline_size. rewrite !calls_bind. reflexivity. }
  unfold dispatch. rewrite Et. simpl ptr_is. simpl orb. cbv iota.
  rewrite !after_bind_gets, !calls_bind_gets.
  assert (Hc : is_routeResponseChannel None (routeResponseChannel w) = false)
    by (unfold is_routeResponseChannel; destruct (routeResponseChannel w); reflexivity).
  rewrite Hc. rewrite !after_bind_gets, !calls_bind_gets.
  destruct (negb (warmStartEnabled w) || isReconciled (helper w)).
  - repeat split; [exact Hsize | discriminate | discriminate].
  - repeat split; discriminate.
Qed.

End FlushTimeout.

(** ** The supervisor *)

Section Supervisor.

Context {H : Type} `{RestartHelper H}.

(** A session whose feed link is constructed begins by flushing whatever
    is pending and only then waits for the feed to connect; one whose link
    constructor raises does neither. *)
Lemma session_flush_first (se : SessionEnv) (w : World H) :
  match setup se with
  | LinkFails _ => calls (session se) w = [] /\ after (session se) w = w
  | _ => exists l, calls (session se) w = A_pipelineFlush (pipeline w) :: A_accept :: l
  end.
Proof.
  rewrite session_calls, session_after. unfold acceptFault.
  assert (Hs : match setup se with
               | LinkFails _ => calls (sessionStart se) w = []
                                /\ after (sessionStart se) w = w
               | _ => exists l, calls (sessionStart se) w
                                = A_pipelineFlush (pipeline w) :: A_accept :: l
               end).
  { destruct w. run. destruct (setup se);
      [split; reflexivity | eexists; reflexivity |].
    repeat (crack; run); eexists; reflexivity. }
  destruct (setup se).
  - destruct Hs as [-> ->]. split; reflexivity.
  - destruct Hs as [l ->]. eexists. reflexivity.
  - destruct Hs as [l ->]. eexists. reflexivity.
Qed.

(** The loop ends with the first fault raised during its turns. *)
Lemma dispatchLoop_result (turns : list Turn) (w : World H) :
  result (dispatchLoop turns) w = raised_in_loop turns.
Proof.
  revert w. induction turns as [|[e|f] rest IH]; intros w.
  - reflexivity.
  - simpl. rewrite result_bind. apply IH.
  - now destruct (dispatchLoop_raise f rest w) as (_ & _ & ->).
Qed.

(** A session ends with the first fault raised in it. *)
Lemma session_raised (se : SessionEnv) (w : World H) :
  result (session se) w = raised se.
Proof.
  rewrite session_result. unfold raised.
  destruct (acceptFault se); [reflexivity | apply dispatchLoop_result].
Qed.

Lemma supervisor_cons (se : SessionEnv) (rest : list SessionEnv) (w : World H) :
  let k := fun r : option Fault =>
             match r with
             | Some FpmConnectionClosedException => supervisor rest
             | Some f => ret (Terminated f)
             | None => ret Running
             end in
  result (supervisor (se :: rest)) w
    = result (k (result (session se) w)) (after (session se) w)
  /\ calls (supervisor (se :: rest)) w
     = calls (session se) w ++ calls (k (result (session se) w)) (after (session se) w)
  /\ after (supervisor (se :: rest)) w
     = after (k (result (session se) w)) (after (session se) w).
Proof.
  intros k. subst k. simpl supervisor.
  rewrite result_bind, calls_bind, after_bind. repeat split.
Qed.

(** The fault that ends the process is never the feed's connection-closed
    condition. *)
Lemma supervisor_terminated (sessions : list SessionEnv) (w : World H) (f : Fault) :
  result (supervisor sessions) w = Terminated f -> f <> FpmConnectionClosedException.
Proof.
  revert w. induction sessions as [|se rest IH]; intros w.
  - discriminate.
  - destruct (supervisor_cons se rest w) as (-> & _ & _).
    destruct (result (session se) w) as [[|what]|].
    + apply IH.
    + intros [= <-]. discriminate.
    + discriminate.
Qed.

(** C7. An iteration of the supervisor that gets to wait for a connection
    has first flushed everything pending; only an iteration whose link
    constructor raises neither flushes nor waits.  A fault raised in the
    session, while it is set up or in its loop, reaches the supervisor as
    itself.  When it is the feed's connection-closed condition the
    supervisor goes on to the next iteration; when it is any other fault the
    process terminates with that fault and nothing more runs. *)
Theorem supervisor_recovers_feed_closed_only
    (se : SessionEnv) (rest : list SessionEnv) (w : World H) :
  match setup se with
  | LinkFails _ => calls (session se) w = [] /\ after (session se) w = w
  | _ => exists l, calls (session se) w = A_pipelineFlush (pipeline w) :: A_accept :: l
  end
  /\ result (session se) w = raised se
  /\ (raised se = Some FpmConnectionClosedException ->
      result (supervisor (se :: rest)) w
        = result (supervisor rest) (after (session se) w)
      /\ calls (supervisor (se :: rest)) w
         = calls (session se) w ++ calls (supervisor rest) (after (session se) w)
      /\ after (supervisor (se :: rest)) w
         = after (supervisor rest) (after (session se) w))
  /\ (forall what, raised se = Some (OtherException what) ->
      result (supervisor (se :: rest)) w = Terminated (OtherException what)
      /\ calls (supervisor (se :: rest)) w = calls (session se) w
      /\ after (supervisor (se :: rest)) w = after (session se) w)
  /\ (raised se = None ->
      result (supervisor (se :: rest)) w = Running
      /\ calls (supervisor (se :: rest)) w = calls (session se) w
      /\ after (supervisor (se :: rest)) w = after (session se) w)
  /\ (forall sessions f,
      result (supervisor sessions) w = Terminated f ->
      f <> FpmConnectionClosedException).
Proof.
  destruct (supervisor_cons se rest w) as (Hr & Hc & Ha). cbv zeta in Hr, Hc, Ha.
  rewrite session_raised in Hr, Hc, Ha.
  split; [apply session_flush_first |].
  split; [apply session_raised |].
  split; [| split; [| split]].
  - intros Hs. rewrite Hs in Hr, Hc, Ha. auto.
  - intros what Hs. rewrite Hs in Hr, Hc, Ha.
    rewrite Hr, Hc, Ha. repeat split. apply app_nil_r.
  - intros Hs. rewrite Hs in Hr, Hc, Ha.
    rewrite Hr, Hc, Ha. repeat split. apply app_nil_r.
  - intros sessions f. apply supervisor_terminated.
Qed.

End Supervisor.

(** C7 when the feed closes with three writes pending: the next iteration
    flushes the three writes, then accepts.  When the feed instead delivers
    a message that cannot be decoded, the process terminates with that
    fault and there is no second iteration; and when the link cannot be set
    up, the process terminates without a flush and without a wait. *)
Lemma supervisor_recovers_feed_closed_only_witness :
  let w0 := initialWorld helperWarm in
  let w1 := after (session sessionClosed) w0 in
  pipeline w1 = 3%N
  /\ calls (supervisor [sessionClosed; sessionIdle]) w0
     = calls (session sessionClosed) w0 ++ calls (supervisor [sessionIdle]) w1
  /\ (exists l, calls (session sessionIdle) w1 = A_pipelineFlush 3 :: A_accept :: l)
  /\ result (supervisor [sessionBroken; sessionIdle]) w0
     = Terminated (OtherException "bad message")
  /\ calls (supervisor [sessionBroken; sessionIdle]) w0 = calls (session sessionBroken) w0
  /\ result (supervisor [sessionNoLink; sessionIdle]) w1
     = Terminated (OtherException "bind")
  /\ calls (supervisor [sessionNoLink; sessionIdle]) w1 = [].
Proof.
  intros w0 w1.
  destruct (supervisor_recovers_feed_closed_only sessionClosed [sessionIdle] w0)
    as (_ & _ & Hclosed & _).
  destruct (Hclosed eq_refl) as (_ & Hcalls & _).
  destruct (supervisor_recovers_feed_closed_only sessionIdle [] w1) as (Hflush & _).
  destruct (supervisor_recovers_feed_closed_only sessionBroken [sessionIdle] w0)
    as (_ & _ & _ & Hother & _).
  destruct (Hother "bad message" eq_refl) as (Hres & Hl & _).
  destruct (supervisor_recovers_feed_closed_only sessionNoLink [sessionIdle] w1)
    as ((Hnone & _) & _ & _ & Hlink & _).
  destruct (Hlink "bind" eq_refl) as (Hres' & Hl' & _).
  split; [vm_compute; reflexivity | split; [exact Hcalls |]].
  split; [exact Hflush |].
  split; [exact Hres | split; [exact Hl |]].
  split; [exact Hres' |]. rewrite Hl'. exact Hnone.
Defined.

(** C3 fails as stated: in [sessionUpToBurst] the controller has deferred
    a burst (timeout 400 ms) when the warm-start timer expires; the forced
    flush empties the pipeline and the timeout is still 400 ms. *)
Lemma forced_flush_leaves_timeout :
  let w := after (session sessionUpToBurst) (initialWorld helperWarm) in
  let w' := after (iteration warmStartExpires) w in
  reported_ok warmStartExpires w = true
  /\ pipeline w = 600%N
  /\ gSelectTimeout w = 400
  /\ flushed (calls (iteration warmStartExpires) w) = true
  /\ pipeline w' = 0%N
  /\ gSelectTimeout w' = 400
  /\ gSelectTimeout w' <> INFINITE.
Proof. vm_compute. repeat split. discriminate. Qed.

(** C9 on an idle wake while reconciliation is in progress, and on one
    after it. *)
Lemma idle_wake_controller_witness :
  let w := after (sessionStart sessionBothTimers) (initialWorld helperWarm) in
  let w2 := after (dispatchLoop [Ready tickReached; Ready holdExpires]) w in
  existsb is_pipelineSize (calls (dispatch quiet) w) = false
  /\ existsb is_pipelineSize (calls (dispatch quiet) w2) = true.
Proof.
  intros w w2.
  destruct (idle_wake_controller quiet w eq_refl) as (H1 & _).
  destruct (idle_wake_controller quiet w2 eq_refl) as (H2 & _).
  split; [rewrite H1 | rewrite H2]; vm_compute; reflexivity.
Defined.

(** C10 after a session that ended with a deferred flush: the timeout is
    400 ms when the feed closes, and the next session first waits without
    bound. *)
Lemma session_first_wait_infinite_witness :
  let w1 := after (session sessionDeferredThenClosed) (initialWorld helperWarm) in
  gSelectTimeout w1 = 400
  /\ first_select (calls (session sessionIdle) w1) = Some INFINITE.
Proof.
  intros w1. split; [vm_compute; reflexivity |].
  destruct (session_first_wait_infinite sessionIdle w1 eq_refl) as (_ & Hfirst).
  apply Hfirst. discriminate.
Defined.

(** ** Suppression *)

Section Suppression.

Context {H : Type} `{RestartHelper H}.

Lemma forEach_preserves {A} (P : World H -> Prop) (body : A -> M H unit) (l : list A) :
  (forall x w, P w -> P (after (body x) w)) ->
  forall w, P w -> P (after (forEach l body) w).
Proof.
  intros Hb. induction l as [|x l IH]; intros w Hw.
  - exact Hw.
  - simpl. rewrite after_bind. apply IH, Hb, Hw.
Qed.

(** The handler keeps the channel held exactly when suppression is marked
    enabled. *)
Lemma handleField_attached (fv : FieldValueTuple) (w : World H) :
  attached_inv w -> attached_inv (after (handleField fv) w).
Proof.
  unfold attached_inv. destruct w as [tmo ppl sup hlp chan nxt sl tms wse].
  destruct fv as [field value].
  intros Hinv. run. subst sup.
  destruct (field =? "suppress-fib-pending")%string; run; [| exact eq_refl].
  destruct (value =? "enabled")%string; run;
    destruct chan; run; reflexivity.
Qed.

Lemma config_attached (e : Env) (w : World H) :
  attached_inv w -> attached_inv (after (deviceMetadataChanged e) w).
Proof.
  unfold deviceMetadataChanged. apply forEach_preserves.
  intros keyOpFvs w1 Hw1. unfold handleKeyOpFvs.
  destruct (negb (kfvOp keyOpFvs =? SET_COMMAND)%string); [exact Hw1 |].
  destruct (negb (kfvKey keyOpFvs =? "localhost")%string); [exact Hw1 |].
  revert w1 Hw1. apply forEach_preserves. intros fv w2. apply handleField_attached.
Qed.

Lemma attached_inv_same (w w' : World H) :
  (suppressionEnabled w', routeResponseChannel w')
  = (suppressionEnabled w, routeResponseChannel w) ->
  attached_inv w -> attached_inv w'.
Proof. unfold attached_inv. intros [= -> ->]. auto. Qed.

Lemma iteration_attached (e : Env) (w : World H) :
  attached_inv w -> attached_inv (after (iteration e) w).
Proof.
  intros Hw. rewrite iteration_after.
  set (w1 := after (select e) w).
  assert (Hw1 : attached_inv w1) by exact Hw.
  destruct (dispatch_cases e w1) as [m [Hcase [-> _]]].
  destruct Hcase as [t Et Hor | Et | Et | id Ec Et | Ec | Ec].
  - rewrite reconciliationComplete_after. exact Hw1.
  - apply (attached_inv_same w1); [| exact Hw1].
    pose proof (eoiuCheck_keeps e w1) as Hk. cbv beta in Hk.
    now injection Hk as _ _ -> -> _ _.
  - now apply config_attached.
  - pose proof (responses_keep e w1) as Hk. cbv beta in Hk. now rewrite Hk.
  - apply (attached_inv_same w1); [| exact Hw1].
    pose proof (flushPipeline_keeps e w1) as Hk. cbv beta in Hk.
    now injection Hk as -> _ -> _ _ _ _.
  - exact Hw1.
Qed.

Lemma dispatchLoop_attached (turns : list Turn) (w : World H) :
  attached_inv w -> attached_inv (after (dispatchLoop turns) w).
Proof.
  revert w. induction turns as [|[e|f] rest IH]; intros w Hw.
  - exact Hw.
  - rewrite dispatchLoop_ready_after. apply IH, iteration_attached, Hw.
  - now rewrite (proj1 (dispatchLoop_raise f rest w)).
Qed.

Lemma sessionStart_keeps_suppression (se : SessionEnv) :
  keeps (H:=H) (fun w => (suppressionEnabled w, routeResponseChannel w))
    (sessionStart se).
Proof. unfold sessionStart. frame. Qed.

Lemma session_attached (se : SessionEnv) (w : World H) :
  attached_inv w -> attached_inv (after (session se) w).
Proof.
  intros Hw. rewrite session_after.
  assert (H1 : attached_inv (after (sessionStart se) w))
    by (apply (attached_inv_same w); [apply sessionStart_keeps_suppression | exact Hw]).
  destruct (acceptFault se); [exact H1 | now apply dispatchLoop_attached].
Qed.

Lemma supervisor_attached (sessions : list SessionEnv) (w : World H) :
  attached_inv w -> attached_inv (after (supervisor sessions) w).
Proof.
  revert w. induction sessions as [|se rest IH]; intros w Hw.
  - exact Hw.
  - destruct (supervisor_cons se rest w) as (_ & _ & ->).
    pose proof (session_attached se w Hw) as H1.
    destruct (result (session se) w) as [[|what]|]; [now apply IH | exact H1 | exact H1].
Qed.

(** Throughout [main] the channel is held exactly when suppression is
    marked enabled; in particular [main] never hands a null pointer to the
    multiplexer. *)
Lemma main_attached (cfg : string) (sessions : list SessionEnv) (h : H) :
  attached_inv (after (main cfg sessions) (initialWorld h)).
Proof.
  unfold main. rewrite after_bind. apply supervisor_attached.
  unfold startup, attached_inv.
  destruct (cfg =? "enabled")%string; reflexivity.
Qed.

(** A response notification is delivered only in an iteration in which
    [select] reported the channel currently held. *)
Lemma delivery_needs_channel (e : Env) (w : World H) (a : Action) :
  is_response a = true ->
  In a (calls (iteration e) w) ->
  exists id, routeResponseChannel w = Some id
             /\ temps e = Some (p_routeResponseChannel id).
Proof.
  intros Ha Hin. rewrite iteration_calls in Hin.
  destruct Hin as [<- | Hin]; [discriminate |].
  set (w1 := after (select e) w) in *.
  assert (Hno : forall (q : Action -> bool) (m : M H unit),
             emits q m -> (forall b, q b = true -> is_response b = false) ->
             In a (calls m w1) -> False).
  { intros q m Hm Hq Hi. specialize (Hm w1). rewrite forallb_forall in Hm.
    specialize (Hq a (Hm a Hi)). congruence. }
  destruct (dispatch_cases e w1) as [m [Hcase [_ Hc]]]. rewrite Hc in Hin.
  destruct Hcase as [t Et Hor | Et | Et | id Ec Et | Ec | Ec].
  - rewrite reconciliationComplete_calls in Hin. cbn [In] in Hin.
    destruct Hin as [<- | [<- | [<- | []]]]; discriminate.
  - exfalso. apply (Hno timer_call (eoiuCheck e)); [apply eoiuCheck_emits | | exact Hin].
    intros []; simpl; congruence.
  - exfalso.
    apply (Hno config_call (deviceMetadataChanged e)); [apply config_emits | | exact Hin].
    intros []; simpl; congruence.
  - exists id. split; assumption.
  - exfalso.
    apply (Hno pipeline_call (flushPipeline e)); [apply flushPipeline_emits | | exact Hin].
    intros []; simpl; congruence.
  - destruct Hin.
Qed.

(** C6. A toggle from enabled to disabled first marks the routes
    offloaded, then marks suppression disabled, deregisters the feed and
    releases it.  A toggle from disabled to enabled attaches a feed, marks
    suppression enabled and registers the feed, delivering nothing; and a
    response notification is only ever delivered in an iteration that
    starts with a feed attached, registered, and suppression marked
    enabled.  A toggle that asks for the current state does nothing. *)
Theorem suppression_toggle (value : string) (w : World H)
    (e : Env) (key : string) (fvs : list FieldValueTuple) :
  let fv := ("suppress-fib-pending", value) in
  let w' := after (handleField fv) w in
  let l := calls (handleField fv) w in
  let c := routeResponseChannel w in
  (suppressionEnabled w = true -> value <> "enabled" ->
     l = [A_markRoutesOffloaded; A_setSuppressionEnabled false;
          A_removeSelectable (option_map p_routeResponseChannel c);
          A_releaseChannel c]
     /\ suppressionEnabled w' = false
     /\ routeResponseChannel w' = None
     /\ (forall id, c = Some id ->
         registered (p_routeResponseChannel id) (sel w') = false))
  /\ (suppressionEnabled w = false -> value = "enabled" ->
      l = A_newChannel (nextChannel w)
          :: match c with Some _ => [A_releaseChannel c] | None => [] end
          ++ [A_setSuppressionEnabled true;
              A_addSelectable (Some (p_routeResponseChannel (nextChannel w)))]
      /\ suppressionEnabled w' = true
      /\ routeResponseChannel w' = Some (nextChannel w)
      /\ registered (p_routeResponseChannel (nextChannel w)) (sel w') = true
      /\ (attached_inv w -> c = None))
  /\ (suppressionEnabled w = (value =? "enabled")%string -> l = [] /\ w' = w)
  /\ (attached_inv w -> attached_inv w')
  /\ (In (A_onRouteResponse key fvs) (calls (iteration e) w) ->
      exists id, routeResponseChannel w = Some id
        /\ temps e = Some (p_routeResponseChannel id)
        /\ (reported_ok e w = true ->
            registered (p_routeResponseChannel id) (sel w) = true)
        /\ (attached_inv w -> suppressionEnabled w = true)).
Proof.
  intros fv w' l c. subst w' l c.
  split; [| split; [| split; [| split]]].
  - intros Hen Hv. subst fv.
    destruct w as [tmo ppl sup hlp chan nxt sl tms wse]. exec. subst sup.
    rewrite String.eqb_refl. cbn [negb]. exec.
    destruct (String.eqb_spec value "enabled") as [-> | _]; [contradiction |].
    cbn [negb andb]. exec.
    destruct chan as [id0|]; exec; (split; [reflexivity |]);
      (split; [reflexivity |]); (split; [reflexivity |]); intros id [=]. subst id0.
    rewrite registered_remove, Selectable_eqb_refl. reflexivity.
  - intros Hdis ->. subst fv.
    destruct w as [tmo ppl sup hlp chan nxt sl tms wse]. exec. subst sup.
    rewrite String.eqb_refl. cbn [negb]. exec.
    rewrite String.eqb_refl. cbn [negb andb]. exec.
    unfold attached_inv.
    destruct chan as [id0|]; exec; (split; [reflexivity |]);
      (split; [reflexivity |]); (split; [reflexivity |]);
      (split; [now rewrite registered_add, Selectable_eqb_refl |]);
      cbn; congruence.
  - intros Hsame. subst fv.
    destruct w as [tmo ppl sup hlp chan nxt sl tms wse]. run. subst sup.
    rewrite String.eqb_refl. run.
    destruct (value =? "enabled")%string; run; split; reflexivity.
  - apply handleField_attached.
  - intros Hin.
    destruct (delivery_needs_channel e w (A_onRouteResponse key fvs) eq_refl Hin)
      as [id [Hc Ht]].
    exists id. split; [exact Hc | split; [exact Ht | split]].
    + unfold reported_ok. now rewrite Ht.
    + unfold attached_inv. now rewrite Hc.
Qed.

End Suppression.

(** C6 on a daemon started with suppression enabled that is told to
    disable it. *)
Lemma suppression_toggle_witness :
  let w := after (startup "enabled") (initialWorld helperWarm) in
  calls (handleField ("suppress-fib-pending", "disabled")) w
  = [A_markRoutesOffloaded; A_setSuppressionEnabled false;
     A_removeSelectable (Some (p_routeResponseChannel 0));
     A_releaseChannel (Some 0%nat)].
Proof.
  intros w.
  destruct (suppression_toggle "disabled" w quiet "" []) as (Hdisable & _).
  destruct (Hdisable eq_refl) as (Hcalls & _); [discriminate |].
  exact Hcalls.
Defined.

(** ** The scenarios of the specification, run *)

(** Warm restart disabled: the helper is marked disabled, no timer is
    started, and route events go straight to the controller, which flushes
    light traffic at once. *)
Example scenario_disabled :
  calls (session (mkSessionEnv Connected [Ready threeWritesIdle])) (initialWorld helperCold)
  = [A_pipelineFlush 0; A_accept;
     A_addSelectable (Some p_fpm); A_addSelectable (Some p_netlink);
     A_addSelectable (Some p_deviceMetadataTableSubscriber);
     A_checkAndStart; A_setState WSDISABLED;
     A_select INFINITE;
     A_pipelineSize; A_pipelineGetIdleTime; A_pipelineFlush 3].
Proof. reflexivity. Qed.

(** Warm restart enabled and nothing to replay: only the poll timer is
    armed, with 5 s. *)
Example scenario_nothing_to_replay :
  filter timer_call
    (calls (sessionStart sessionIdle) (initialWorld (mkSpecHelper true 0 false WSDISABLED)))
  = [A_timerStart eoiuCheckTimer (mkTimespec 5 0);
     A_addSelectable (addr eoiuCheckTimer)].
Proof. reflexivity. Qed.

(** A flood is deferred, and flushed when the idle time reaches 500 ms. *)
Example scenario_flood :
  calls (dispatchLoop [Ready flood; Ready wake500])
    (after (sessionStart sessionIdle) (initialWorld helperCold))
  = [A_select INFINITE; A_pipelineSize; A_pipelineGetIdleTime;
     A_select 450; A_pipelineSize; A_pipelineGetIdleTime; A_pipelineFlush 10000].
Proof. reflexivity. Qed.

(** ** The configuration change feed *)

Section ConfigFeed.

Context {H : Type} `{RestartHelper H}.



(** A field other than the suppression field is skipped. *)
Lemma handleField_ignored (fv : FieldValueTuple) (w : World H) :
  field_request fv = None -> handleField fv w = (tt, w, []).
Proof.
  destruct w, fv as [field value]. unfold field_request, fvField, fvValue.
  cbn [fst snd]. intros Hr. exec.
  destruct (field =? "suppress-fib-pending")%string; [discriminate | reflexivity].
Qed.

(** Asking for the state suppression is in does nothing. *)
Lemma handleField_same (fv : FieldValueTuple) (w : World H) :
  field_request fv = Some (suppressionEnabled w) -> handleField fv w = (tt, w, []).
Proof.
  destruct w as [tmo ppl sup hlp chan nxt sl tms wse], fv as [field value].
  unfold field_request, fvField, fvValue. cbn [fst snd suppressionEnabled].
  intros Hr. exec.
  destruct (field =? "suppress-fib-pending")%string; [| discriminate].
  injection Hr as Hr. rewrite Hr. cbn [negb].
  destruct sup; reflexivity.
Qed.


Lemma forEach_noop {A} (body : A -> M H unit) (l : list A) (w : World H) :
  (forall x, In x l -> body x w = (tt, w, [])) ->
  forEach l body w = (tt, w, []).
Proof.
  induction l as [|x l IH]; intros Hb; [reflexivity |].
  simpl forEach. unfold bind.
  rewrite (Hb x (or_introl eq_refl)).
  rewrite IH by (intros y Hy; apply Hb; now right). reflexivity.
Qed.

Lemma fields_noop (fvs : list FieldValueTuple) (w : World H) :
  forallb (Bool.eqb (suppressionEnabled w)) (field_requests fvs) = true ->
  forEach fvs handleField w = (tt, w, []).
Proof.
  intros Hall. apply forEach_noop. intros fv Hin.
  destruct (field_request fv) as [b|] eqn:Hr; [| now apply handleField_ignored].
  apply handleField_same. rewrite Hr. f_equal.
  rewrite forallb_forall in Hall.
  assert (Hb : In b (field_requests fvs)).
  { unfold field_requests. apply in_flat_map. exists fv. rewrite Hr. simpl. auto. }
  specialize (Hall b Hb). symmetry. now apply Bool.eqb_prop.
Qed.


Lemma record_requests_fields (r : KeyOpFieldsValuesTuple) :
  record_requests r
  = if (kfvOp r =? SET_COMMAND)%string && (kfvKey r =? "localhost")%string
    then field_requests (kfvFieldsValues r) else [].
Proof. reflexivity. Qed.

Lemma record_noop (r : KeyOpFieldsValuesTuple) (w : World H) :
  forallb (Bool.eqb (suppressionEnabled w)) (record_requests r) = true ->
  handleKeyOpFvs r w = (tt, w, []).
Proof.
  rewrite record_requests_fields. unfold handleKeyOpFvs.
  destruct (kfvOp r =? SET_COMMAND)%string; [| reflexivity].
  destruct (kfvKey r =? "localhost")%string; [| reflexivity].
  apply fields_noop.
Qed.


Lemma dispatch_config (e : Env) (w : World H) :
  temps e = Some p_deviceMetadataTableSubscriber ->
  after (dispatch e) w = after (deviceMetadataChanged e) w
  /\ calls (dispatch e) w = calls (deviceMetadataChanged e) w.
Proof. intros Et. unfold dispatch. rewrite Et. split; reflexivity. Qed.

(** X1.  A drained batch in which no record asks for anything but the state
    suppression is already in (records that are not set operations, keys
    other than "localhost" and other fields ask for nothing) is processed
    without a single call and leaves every object as it was. *)
Theorem config_batch_without_effect (e : Env) (w : World H) :
  temps e = Some p_deviceMetadataTableSubscriber ->
  forallb (Bool.eqb (suppressionEnabled w)) (batch_requests (keyOpFvsQueue e)) = true ->
  after (dispatch e) w = w /\ calls (dispatch e) w = [].
Proof.
  intros Et Hall. destruct (dispatch_config e w Et) as [-> ->].
  assert (Hn : deviceMetadataChanged e w = (tt, w, [])).
  { unfold deviceMetadataChanged. apply forEach_noop. intros r Hin.
    apply record_noop. rewrite forallb_forall in *. intros b Hb.
    apply Hall. unfold batch_requests. apply in_flat_map. now exists r. }
  unfold after, calls. rewrite Hn. split; reflexivity.
Qed.


End ConfigFeed.

(** X1 on a concrete run. *)
Lemma config_batch_without_effect_witness :
  calls (dispatch foreignBatch) (initialWorld helperWarm) = [].
Proof.
  exact (proj2 (config_batch_without_effect foreignBatch (initialWorld helperWarm)
                  eq_refl eq_refl)).
Defined.


(** ** Response notifications, EOIU flags, feed events *)

Section Events.

Context {H : Type} `{RestartHelper H}.

Lemma routeResponses_calls (e : Env) (w : World H) :
  calls (routeResponses e) w = deliveries (notifications e).
Proof.
  unfold routeResponses, deliveries. revert w.
  induction (notifications e) as [|n q IH]; intros w; [reflexivity |].
  simpl forEach. rewrite calls_bind.
  change (after (sync_onRouteResponse (kfvKey n) (kfvFieldsValues n)) w) with w.
  rewrite IH. reflexivity.
Qed.

(** X3.  When [select] reports the response channel currently held, every
    pending notification is handed to the translator, once and in arrival
    order, and nothing else is called or changed. *)
Theorem responses_forwarded_in_order (e : Env) (w : World H) (id : nat) :
  routeResponseChannel w = Some id ->
  temps e = Some (p_routeResponseChannel id) ->
  calls (dispatch e) w = deliveries (notifications e)
  /\ after (dispatch e) w = w.
Proof.
  intros Ec Et.
  assert (Hd : after (dispatch e) w = after (routeResponses e) w
               /\ calls (dispatch e) w = calls (routeResponses e) w).
  { unfold dispatch. rewrite Et. cbn [ptr_is Selectable_eqb orb].
    rewrite after_bind_gets, calls_bind_gets, Ec.
    cbn [is_routeResponseChannel ptr_is Selectable_eqb].
    rewrite Nat.eqb_refl. split; reflexivity. }
  destruct Hd as [-> ->]. split; [apply routeResponses_calls |].
  exact (responses_keep e w).
Qed.

(** X4.  The two reads of [eoiuFlagsSet] share one variable.  When the IPv4
    read does not yield "reached" the answer is no, whatever the IPv6 flag;
    and when the IPv6 read leaves the variable as it finds it, the answer
    is that of the IPv4 read alone. *)
Theorem eoiuFlagsSet_reads (tbl : Table) :
  (hget tbl "IPv4|eoiu" "state" "" <> "reached" -> eoiuFlagsSet tbl = false)
  /\ ((forall old, hget tbl "IPv6|eoiu" "state" old = old) ->
      eoiuFlagsSet tbl = (hget tbl "IPv4|eoiu" "state" "" =? "reached")%string).
Proof.
  unfold eoiuFlagsSet. split.
  - intros Hn. destruct (String.eqb_spec (hget tbl "IPv4|eoiu" "state" "") "reached");
      [contradiction | reflexivity].
  - intros Hid. rewrite Hid.
    destruct (hget tbl "IPv4|eoiu" "state" "" =? "reached")%string; reflexivity.
Qed.

Lemma select_controller_enabled (e : Env) (w : World H) :
  controller_enabled (after (select e) w) = controller_enabled w.
Proof. reflexivity. Qed.

Lemma dispatch_feed (e : Env) (w : World H) :
  temps e = Some p_fpm \/ temps e = Some p_netlink ->
  (controller_enabled w = true ->
     after (dispatch e) w = after (flushPipeline e) w
     /\ calls (dispatch e) w = calls (flushPipeline e) w)
  /\ (controller_enabled w = false ->
      after (dispatch e) w = w /\ calls (dispatch e) w = []).
Proof.
  intros Et. unfold controller_enabled, dispatch.
  assert (Hc : is_routeResponseChannel (temps e) (routeResponseChannel w) = false).
  { unfold is_routeResponseChannel.
    destruct Et as [Et | Et]; rewrite Et;
      destruct (routeResponseChannel w); reflexivity. }
  assert (Hp : ptr_is (temps e) (p_timer warmStartTimer)
               || ptr_is (temps e) (p_timer eoiuHoldTimer) = false
               /\ ptr_is (temps e) (p_timer eoiuCheckTimer) = false
               /\ ptr_is (temps e) p_deviceMetadataTableSubscriber = false)
    by (destruct Et as [Et | Et]; rewrite Et; repeat split).
  destruct Hp as (-> & -> & ->).
  rewrite !after_bind_gets, !calls_bind_gets, Hc.
  rewrite !after_bind_gets, !calls_bind_gets.
  destruct (negb (warmStartEnabled w) || isReconciled (helper w)).
  - split; [intros _; split; reflexivity | discriminate].
  - split; [discriminate | intros _; split; reflexivity].
Qed.

(** With nothing ready, or a feed event, and the controller enabled, the
    iteration's dispatch is the controller step. *)
Lemma idle_or_feed_controller (e : Env) (w : World H) :
  (temps e = Some p_fpm \/ temps e = Some p_netlink) \/ temps e = None ->
  controller_enabled w = true ->
  after (dispatch e) w = after (flushPipeline e) w
  /\ calls (dispatch e) w = calls (flushPipeline e) w.
Proof.
  intros [Et | Et] Hc; [now apply dispatch_feed |].
  unfold controller_enabled in Hc. unfold dispatch. rewrite Et.
  cbn [ptr_is orb].
  assert (Hn : is_routeResponseChannel None (routeResponseChannel w) = false)
    by (unfold is_routeResponseChannel; destruct (routeResponseChannel w); reflexivity).
  rewrite !after_bind_gets, !calls_bind_gets, Hn.
  rewrite !after_bind_gets, !calls_bind_gets, Hc. split; reflexivity.
Qed.

(** X5.  A route or link event from the feed or from netlink leads to the same
    last branch as an idle wake: the controller step runs when warm restart
    is disabled or reconciled; while reconciliation is in progress the
    iteration only waits, nothing is flushed and the writes the translator
    enqueued stay pending. *)
Theorem feed_event (e : Env) (w : World H) :
  temps e = Some p_fpm \/ temps e = Some p_netlink ->
  let w1 := after (select e) w in
  (controller_enabled w = true ->
     after (iteration e) w = after (flushPipeline e) w1
     /\ calls (iteration e) w
        = A_select (gSelectTimeout w) :: calls (flushPipeline e) w1)
  /\ (controller_enabled w = false ->
      calls (iteration e) w = [A_select (gSelectTimeout w)]
      /\ pipeline (after (iteration e) w) = (pipeline w + enq e)%N
      /\ gSelectTimeout (after (iteration e) w) = gSelectTimeout w).
Proof.
  intros Et w1. subst w1.
  rewrite iteration_after, iteration_calls.
  destruct (dispatch_feed e (after (select e) w) Et) as [Hon Hoff].
  rewrite select_controller_enabled in Hon, Hoff.
  split.
  - intros Hc. destruct (Hon Hc) as [-> ->]. split; reflexivity.
  - intros Hc. destruct (Hoff Hc) as [-> ->]. repeat split.
Qed.

(** X6.  Every deferred write is flushed: when the controller has deferred and
    the loop then wakes because the timeout it was given has run out, the
    idle time has reached 500 ms and the controller flushes everything
    pending, the writes enqueued in between included. *)
Theorem deferred_flush_completes (e1 e2 : Env) (w : World H) :
  controller_enabled w = true ->
  Z.of_N (pipeline w) >= 500 ->
  0 < idleTime e1 < 500 ->
  temps e2 = None ->
  let w1 := after (flushPipeline e1) w in
  idleTime e2 = idleTime e1 + gSelectTimeout w1 ->
  gSelectTimeout w1 = 500 - idleTime e1
  /\ calls (iteration e2) w1
     = [A_select (500 - idleTime e1); A_pipelineSize; A_pipelineGetIdleTime;
        A_pipelineFlush (pipeline w + enq e2)]
  /\ pipeline (after (iteration e2) w1) = 0%N
  /\ gSelectTimeout (after (iteration e2) w1) = INFINITE.
Proof.
  intros Hc Hp Hd Et w1 Hi. subst w1.
  assert (Hnz : pipeline w <> 0%N) by lia.
  assert (E : (Z.of_N (pipeline w) <? SMALL_TRAFFIC)
              || (idleTime e1 >=? gFlushTimeout) || (idleTime e1 <=? 0) = false).
  { unfold SMALL_TRAFFIC, gFlushTimeout, FLUSH_TIMEOUT.
    rewrite !orb_false_iff, Z.ltb_ge, Z.geb_leb, !Z.leb_gt. lia. }
  destruct (flushPipeline_defer e1 w Hnz E) as [Hw1 _].
  rewrite Hw1 in *. cbn [gSelectTimeout] in Hi.
  set (w1 := mkWorld (gFlushTimeout - idleTime e1) (pipeline w) (suppressionEnabled w)
               (helper w) (routeResponseChannel w) (nextChannel w) (sel w)
               (timers w) (warmStartEnabled w)) in *.
  split; [reflexivity |].
  rewrite iteration_after, iteration_calls.
  destruct (idle_or_feed_controller e2 (after (select e2) w1)) as [Ha Hl];
    [now right | exact Hc |].
  rewrite Ha, Hl.
  assert (Hnz2 : pipeline (after (select e2) w1) <> 0%N)
    by (rewrite select_after; cbn [pipeline]; subst w1; cbn [pipeline]; lia).
  assert (E2 : (Z.of_N (pipeline (after (select e2) w1)) <? SMALL_TRAFFIC)
               || (idleTime e2 >=? gFlushTimeout) || (idleTime e2 <=? 0) = true).
  { apply flush_condition. right. left. rewrite Hi.
    unfold gFlushTimeout, FLUSH_TIMEOUT. lia. }
  destruct (flushPipeline_flush e2 _ Hnz2 E2) as [-> ->].
  repeat split.
Qed.

End Events.

(** ** The forced flush and the select timeout *)

Section ForcedFlush.

Context {H : Type} `{RestartHelper H}.

(** C3, as the code has it.  A flush by the controller leaves nothing
    pending and the timeout infinite, and after every controller step the
    timeout is infinite exactly when nothing is pending; that state lasts
    until a write is enqueued.  The supervisor's flush at session start is
    followed, before the first wait, by the reset of the timeout.  The
    forced flush of the reconciliation-complete action leaves nothing
    pending but does not touch the timeout, which is therefore the bound
    of the next wait.  When the iteration after that wait is an idle wake
    or a feed event and the controller is enabled, its controller step sets
    the timeout anew, on what is pending then: infinite exactly when
    nothing is pending after the step, and so infinite when nothing was
    enqueued during the wait. *)
Theorem flush_and_timeout (e : Env) (se : SessionEnv) (w : World H) :
  (let w' := after (flushPipeline e) w in
   (gSelectTimeout w' = INFINITE <-> pipeline w' = 0%N)
   /\ (flushed (calls (flushPipeline e) w) = true ->
       pipeline w' = 0%N /\ gSelectTimeout w' = INFINITE))
  /\ (pipeline w = 0%N -> gSelectTimeout w = INFINITE -> enq e = 0%N ->
      pipeline (after (iteration e) w) = 0%N
      /\ gSelectTimeout (after (iteration e) w) = INFINITE)
  /\ (acceptFault se = None ->
      pipeline (after (sessionStart se) w) = 0%N
      /\ gSelectTimeout (after (sessionStart se) w) = INFINITE)
  /\ (let w' := after (reconciliationComplete e) w in
      flushed (calls (reconciliationComplete e) w) = true
      /\ pipeline w' = 0%N
      /\ gSelectTimeout w' = gSelectTimeout w
      /\ forall e',
           (temps e' = Some p_fpm \/ temps e' = Some p_netlink) \/ temps e' = None ->
           controller_enabled w' = true ->
           let w'' := after (iteration e') w' in
           calls (iteration e') w'
           = A_select (gSelectTimeout w)
               :: calls (flushPipeline e') (after (select e') w')
           /\ pipeline (after (select e') w') = enq e'
           /\ (gSelectTimeout w'' = INFINITE <-> pipeline w'' = 0%N)
           /\ (enq e' = 0%N -> pipeline w'' = 0%N /\ gSelectTimeout w'' = INFINITE)).
Proof.
  split; [apply flushPipeline_timeout | split; [apply iteration_stays_infinite |]].
  split; [apply sessionStart_ready |].
  cbv zeta.
  rewrite reconciliationComplete_calls, reconciliationComplete_after.
  split; [reflexivity | split; [reflexivity | split; [reflexivity |]]].
  intros e' Et Hc.
  match goal with |- context [after (iteration e') ?w1] => set (w' := w1) in * end.
  rewrite iteration_after, iteration_calls.
  destruct (idle_or_feed_controller e' (after (select e') w') Et) as [Ha Hl];
    [rewrite select_controller_enabled; exact Hc |].
  rewrite Ha, Hl.
  assert (Hp : pipeline (after (select e') w') = enq e')
    by (rewrite select_after; subst w'; cbn [pipeline]; lia).
  split; [reflexivity | split; [exact Hp | split]].
  - apply flushPipeline_timeout.
  - intros Hq. rewrite Hq in Hp.
    destruct (flushPipeline_empty e' _ Hp) as [-> _].
    cbn [pipeline gSelectTimeout]. split; [exact Hp | reflexivity].
Qed.

End ForcedFlush.

(** C3, as the code has it, after the forced flush of [sessionUpToBurst]
    followed by the expiry of the warm-start timer: the timeout of 400 ms
    outlives the flush; an idle wake with nothing enqueued then makes it
    infinite, and a feed event that brings 700 writes 250 ms after the
    flush makes it 250 ms. *)
Lemma flush_and_timeout_witness :
  let w := after (session sessionUpToBurst) (initialWorld helperWarm) in
  let w' := after (reconciliationComplete warmStartExpires) w in
  pipeline w = 600%N
  /\ flushed (calls (reconciliationComplete warmStartExpires) w) = true
  /\ pipeline w' = 0%N
  /\ gSelectTimeout w' = 400
  /\ gSelectTimeout (after (iteration quiet) w') = INFINITE
  /\ gSelectTimeout (after (iteration lateBurst) w') = 250
  /\ (gSelectTimeout (after (iteration lateBurst) w') = INFINITE
      <-> pipeline (after (iteration lateBurst) w') = 0%N).
Proof.
  intros w w'.
  pose proof (flush_and_timeout warmStartExpires sessionIdle w) as Hthm.
  cbv zeta in Hthm. destruct Hthm as (_ & _ & _ & Hf & Hp & Ht & Hnext).
  assert (Hc : controller_enabled w' = true) by (vm_compute; reflexivity).
  destruct (Hnext quiet (or_intror eq_refl) Hc) as (_ & _ & _ & Hz).
  destruct (Hnext lateBurst (or_introl (or_introl eq_refl)) Hc) as (_ & _ & Hiff & _).
  split; [vm_compute; reflexivity |].
  split; [exact Hf |].
  split; [exact Hp |].
  split; [vm_compute; reflexivity |].
  split; [exact (proj2 (Hz eq_refl)) |].
  split; [vm_compute; reflexivity | exact Hiff].
Defined.

(** ** Invariants of the whole run *)

Section WholeRun.

Context {H : Type} `{RestartHelper H}.

(** An invariant of the iterations, with a property of every call they
    make, carries over to the loop. *)
Lemma dispatchLoop_inv (I : World H -> Prop) (q : Action -> bool) :
  (forall e w, I w ->
     I (after (iteration e) w) /\ forallb q (calls (iteration e) w) = true) ->
  (forall w, I w -> q (A_select (gSelectTimeout w)) = true) ->
  forall turns w, I w ->
    I (after (dispatchLoop turns) w)
    /\ forallb q (calls (dispatchLoop turns) w) = true.
Proof.
  intros Hstep Hwait turns. induction turns as [|[e|f] rest IH]; intros w Hw.
  - split; [exact Hw | reflexivity].
  - destruct (Hstep e w Hw) as [H1 Hq1]. destruct (IH _ H1) as [H2 Hq2].
    rewrite dispatchLoop_ready_after, dispatchLoop_ready_calls, forallb_app, Hq1, Hq2.
    split; [exact H2 | reflexivity].
  - destruct (dispatchLoop_raise f rest w) as (-> & -> & _).
    split; [exact Hw |]. simpl. now rewrite (Hwait w Hw).
Qed.

(** The same for the supervisor: [J] holds between sessions, [I] inside
    the loop. *)
Lemma supervisor_inv (I J : World H -> Prop) (q : Action -> bool) :
  (forall e w, I w ->
     I (after (iteration e) w) /\ forallb q (calls (iteration e) w) = true) ->
  (forall w, I w -> q (A_select (gSelectTimeout w)) = true) ->
  (forall w, I w -> J w) ->
  (forall se w, J w ->
     J (after (sessionStart se) w)
     /\ (acceptFault se = None -> I (after (sessionStart se) w))
     /\ forallb q (calls (sessionStart se) w) = true) ->
  forall sessions w, J w ->
    J (after (supervisor sessions) w)
    /\ forallb q (calls (supervisor sessions) w) = true.
Proof.
  intros Hstep Hwait HIJ Hstart sessions.
  induction sessions as [|se rest IH]; intros w Hw.
  - split; [exact Hw | reflexivity].
  - destruct (Hstart se w Hw) as (HJ1 & HI1 & Hq1).
    assert (Hs : J (after (session se) w)
                 /\ forallb q (calls (session se) w) = true).
    { rewrite session_after, session_calls, forallb_app, Hq1.
      destruct (acceptFault se) as [f|]; [split; [exact HJ1 | reflexivity] |].
      destruct (dispatchLoop_inv I q Hstep Hwait (turns se) _ (HI1 eq_refl))
        as [HI2 Hq2].
      split; [apply HIJ, HI2 | now rewrite Hq2]. }
    destruct Hs as [HJs Hqs].
    destruct (supervisor_cons se rest w) as (_ & -> & ->).
    rewrite forallb_app, Hqs.
    destruct (result (session se) w) as [[|what]|].
    + destruct (IH _ HJs) as [HJ2 Hq2]. split; [exact HJ2 | now rewrite Hq2].
    + split; [exact HJs | reflexivity].
    + split; [exact HJs | reflexivity].
Qed.

Lemma emits_at {A} (q q' : Action -> bool) (m : M H A) (w : World H) :
  emits q m -> (forall a, q a = true -> q' a = true) ->
  forallb q' (calls m w) = true.
Proof. intros Hm Hq. exact (emits_weaken q q' m Hq Hm w). Qed.

(** *** Waits *)

Lemma flushPipeline_timeout_ok (e : Env) (w : World H) :
  timeout_ok (after (flushPipeline e) w) = true.
Proof.
  unfold timeout_ok.
  destruct (N.eq_dec (pipeline w) 0) as [Hz | Hnz].
  - destruct (flushPipeline_empty e w Hz) as [-> _]. reflexivity.
  - destruct ((Z.of_N (pipeline w) <? SMALL_TRAFFIC)
              || (idleTime e >=? gFlushTimeout) || (idleTime e <=? 0)) eqn:E.
    + destruct (flushPipeline_flush e w Hnz E) as [-> _]. reflexivity.
    + destruct (flushPipeline_defer e w Hnz E) as [-> _].
      cbn [gSelectTimeout]. apply flushPipeline_defer_in_range in E.
      apply orb_true_iff. right. apply andb_true_iff.
      unfold FLUSH_TIMEOUT. rewrite !Z.ltb_lt. lia.
Qed.

Lemma iteration_timeout_ok (e : Env) (w : World H) :
  timeout_ok w = true ->
  timeout_ok (after (iteration e) w) = true
  /\ forallb wait_ok (calls (iteration e) w) = true.
Proof.
  intros Hw. rewrite iteration_after, iteration_calls.
  set (w1 := after (select e) w).
  assert (Hw1 : timeout_ok w1 = true) by exact Hw.
  cbn [forallb]. change (wait_ok (A_select (gSelectTimeout w))) with (timeout_ok w).
  rewrite Hw. cbn [andb].
  destruct (dispatch_cases e w1) as [m [Hcase [-> ->]]].
  destruct Hcase as [t Et Hor | Et | Et | id Ec Et | Ec | Ec].
  - rewrite reconciliationComplete_after, reconciliationComplete_calls.
    split; [exact Hw1 | reflexivity].
  - split.
    + pose proof (eoiuCheck_keeps e w1) as Hk. cbv beta in Hk.
      unfold timeout_ok. injection Hk as -> _ _ _ _ _. exact Hw1.
    + apply (emits_at timer_call); [apply eoiuCheck_emits |].
      intros []; simpl; congruence.
  - split.
    + pose proof (config_keeps e w1) as Hk. cbv beta in Hk.
      unfold timeout_ok. injection Hk as -> _ _ _ _. exact Hw1.
    + apply (emits_at config_call); [apply config_emits |].
      intros []; simpl; congruence.
  - split.
    + pose proof (responses_keep e w1) as Hk. cbv beta in Hk. now rewrite Hk.
    + apply (emits_at is_response); [apply responses_emit |].
      intros []; simpl; congruence.
  - split; [apply flushPipeline_timeout_ok |].
    apply (emits_at pipeline_call); [apply flushPipeline_emits |].
    intros []; simpl; congruence.
  - split; [exact Hw1 | reflexivity].
Qed.

Lemma sessionStart_waits (se : SessionEnv) (w : World H) :
  forallb wait_ok (calls (sessionStart se) w) = true.
Proof.
  destruct w. run. destruct (setup se); [reflexivity | reflexivity |].
  repeat (crack; run); reflexivity.
Qed.

(** X7.  Whatever the sessions bring, every wait of [main] is either without
    bound or for more than 0 and less than 500 ms: the loop never spins on
    a zero timeout and never sleeps on a finite one beyond the flush
    bound. *)
Theorem every_wait_bounded (cfg : string) (sessions : list SessionEnv) (h : H) :
  forallb wait_ok (calls (main cfg sessions) (initialWorld h)) = true.
Proof.
  unfold main. rewrite calls_bind, forallb_app.
  assert (Hs : forallb wait_ok (calls (startup cfg) (initialWorld h)) = true).
  { unfold startup. destruct (cfg =? "enabled")%string; reflexivity. }
  rewrite Hs. cbn [andb].
  apply (supervisor_inv (fun w => timeout_ok w = true) (fun _ => True) wait_ok).
  - apply iteration_timeout_ok.
  - intros w Hw. exact Hw.
  - trivial.
  - intros se w _. split; [trivial | split; [| apply sessionStart_waits]].
    intros Ha. unfold timeout_ok.
    destruct (sessionStart_ready se w Ha) as [_ ->]. reflexivity.
  - trivial.
Qed.

End WholeRun.

(** ** The response channel and the multiplexer *)

Section ChannelRegistry.

Context {H : Type} `{RestartHelper H}.

Lemma forEach_inv {A} (I : World H -> Prop) (q : Action -> bool)
    (body : A -> M H unit) (l : list A) :
  (forall x w, I w ->
     I (after (body x) w) /\ forallb q (calls (body x) w) = true) ->
  forall w, I w ->
    I (after (forEach l body) w) /\ forallb q (calls (forEach l body) w) = true.
Proof.
  intros Hb. induction l as [|x l IH]; intros w Hw.
  - split; [exact Hw | reflexivity].
  - simpl forEach. rewrite after_bind, calls_bind, forallb_app.
    destruct (Hb x w Hw) as [H1 ->]. destruct (IH _ H1) as [H2 ->].
    split; [exact H2 | reflexivity].
Qed.

Lemma forallb_always (l : list Action) : forallb (fun _ => true) l = true.
Proof. induction l; simpl; auto. Qed.

Lemma handleField_channel (fv : FieldValueTuple) (w : World H) :
  channel_inv w ->
  channel_inv (after (handleField fv) w)
  /\ forallb not_null (calls (handleField fv) w) = true.
Proof.
  intros [Ha Hr]. split; [split; [now apply handleField_attached |] |].
  - revert Ha Hr. unfold attached_inv, channel_registered_inv.
    destruct w as [tmo ppl sup hlp chan nxt sl tms wse], fv as [field value].
    cbn [suppressionEnabled routeResponseChannel sel]. intros -> Hr. exec.
    destruct (field =? "suppress-fib-pending")%string; cbn [negb]; exec;
      [| exact Hr].
    destruct chan as [id0|], (value =? "enabled")%string; cbn [negb andb]; exec;
      try exact Hr; intros id'.
    + rewrite registered_remove. cbn [Selectable_eqb]. split; [| discriminate].
      intros Hh. apply andb_true_iff in Hh. destruct Hh as [Hne Hreg].
      apply Hr in Hreg. injection Hreg as ->. rewrite Nat.eqb_refl in Hne.
      discriminate.
    + rewrite registered_add. cbn [Selectable_eqb]. split.
      * intros Hh. apply orb_true_iff in Hh. destruct Hh as [He | Hreg].
        -- apply Nat.eqb_eq in He. now subst.
        -- apply Hr in Hreg. discriminate.
      * intros [= ->]. now rewrite Nat.eqb_refl.
  - revert Ha. unfold attached_inv.
    destruct w as [tmo ppl sup hlp chan nxt sl tms wse], fv as [field value].
    cbn [suppressionEnabled routeResponseChannel]. intros ->. exec.
    destruct (field =? "suppress-fib-pending")%string; cbn [negb]; exec;
      [| reflexivity].
    destruct chan as [id0|], (value =? "enabled")%string; cbn [negb andb]; exec;
      reflexivity.
Qed.

Lemma config_channel (e : Env) (w : World H) :
  channel_inv w ->
  channel_inv (after (deviceMetadataChanged e) w)
  /\ forallb not_null (calls (deviceMetadataChanged e) w) = true.
Proof.
  unfold deviceMetadataChanged. apply forEach_inv.
  intros r w1 Hw1. unfold handleKeyOpFvs.
  destruct (negb (kfvOp r =? SET_COMMAND)%string); [split; [exact Hw1 | reflexivity] |].
  destruct (negb (kfvKey r =? "localhost")%string); [split; [exact Hw1 | reflexivity] |].
  revert w1 Hw1. apply forEach_inv. apply handleField_channel.
Qed.

Lemma channel_registered_same (w w' : World H) :
  (forall id, registered (p_routeResponseChannel id) (sel w')
              = registered (p_routeResponseChannel id) (sel w)) ->
  routeResponseChannel w' = routeResponseChannel w ->
  channel_registered_inv w -> channel_registered_inv w'.
Proof.
  unfold channel_registered_inv. intros Hs Hc Hr id. now rewrite Hs, Hc.
Qed.

Lemma iteration_channel (e : Env) (w : World H) :
  channel_inv w ->
  channel_inv (after (iteration e) w)
  /\ forallb not_null (calls (iteration e) w) = true.
Proof.
  intros Hw. pose proof Hw as [Ha Hr].
  assert (Hatt : attached_inv (after (iteration e) w))
    by now apply iteration_attached.
  rewrite iteration_after, iteration_calls in *.
  set (w1 := after (select e) w) in *.
  assert (Hw1 : channel_inv w1) by exact Hw.
  cbn [forallb not_null is_null_registration negb andb].
  destruct (dispatch_cases e w1) as [m [Hcase [Hafter Hcalls]]].
  rewrite Hafter in *. rewrite Hcalls. clear Hafter Hcalls.
  destruct Hcase as [t Et Hor | Et | Et | id Ec Et | Ec | Ec].
  - split; [split; [exact Hatt |] |].
    + rewrite reconciliationComplete_after, Et.
      apply (channel_registered_same w1); [| reflexivity | exact Hr].
      intros id. cbn [sel addr]. now rewrite registered_remove.
    + rewrite reconciliationComplete_calls, Et. reflexivity.
  - split; [split; [exact Hatt |] |].
    + destruct (inProgress (helper w1)) eqn:Hp;
        [destruct (eoiuFlagsSet (bgpStateTable e)) eqn:Hf |].
      * destruct (eoiuCheck_reached e w1 Hp Hf) as [-> _].
        apply (channel_registered_same w1); [| reflexivity | exact Hr].
        intros id. cbn [sel]. now rewrite registered_remove, registered_add.
      * destruct (eoiuCheck_not_reached e w1 Hp Hf) as [-> _]. exact Hr.
      * destruct (eoiuCheck_done e w1 Hp) as [-> _].
        apply (channel_registered_same w1); [| reflexivity | exact Hr].
        intros id. cbn [sel]. now rewrite registered_remove.
    + apply (emits_at timer_call); [apply eoiuCheck_emits |].
      intros [| [[| | | |]|] | [[| | | |]|] | | | | | | | | | | | | | |];
        unfold not_null; simpl; congruence.
  - now apply config_channel.
  - pose proof (responses_keep e w1) as Hk. cbv beta in Hk. rewrite Hk.
    split; [exact Hw1 |].
    apply (emits_at is_response); [apply responses_emit |].
    intros []; unfold not_null; simpl; congruence.
  - split; [split; [exact Hatt |] |].
    + pose proof (flushPipeline_keeps e w1) as Hk. cbv beta in Hk.
      injection Hk as _ _ Hc _ Hs _ _.
      apply (channel_registered_same w1); [| exact Hc | exact Hr].
      intros id. now rewrite Hs.
    + apply (emits_at pipeline_call); [apply flushPipeline_emits |].
      intros []; unfold not_null; simpl; congruence.
  - split; [exact Hw1 | reflexivity].
Qed.

Lemma sessionStart_channel (se : SessionEnv) (w : World H) :
  attached_inv w ->
  forallb not_null (calls (sessionStart se) w) = true
  /\ (acceptFault se = None -> channel_inv (after (sessionStart se) w)).
Proof.
  intros Ha.
  assert (Hatt : attached_inv (after (sessionStart se) w))
    by (apply (attached_inv_same w); [apply sessionStart_keeps_suppression | exact Ha]).
  split.
  - revert Ha. unfold attached_inv.
    destruct w as [tmo ppl sup hlp chan nxt sl tms wse].
    cbn [suppressionEnabled routeResponseChannel].
    destruct chan; intros ->; run;
      (destruct (setup se); [reflexivity | reflexivity |]);
      repeat (crack; run); reflexivity.
  - intros Hacc. apply acceptFault_None in Hacc. split; [exact Hatt |]. clear Hatt.
    revert Ha. unfold attached_inv, channel_registered_inv.
    destruct w as [tmo ppl sup hlp chan nxt sl tms wse].
    cbn [suppressionEnabled routeResponseChannel].
    destruct chan as [n|]; intros ->; run; rewrite Hacc; run;
      repeat (crack; run); intros id'; split; try discriminate;
      try (intros [= ->]; now rewrite Nat.eqb_refl);
      destruct (Nat.eqb_spec id' n); congruence.
Qed.

(** X8.  At every wait of a session the response channel is held exactly when
    suppression is marked enabled, and a response channel is registered
    with the multiplexer exactly when it is the one held: the feed is
    registered again in every new session, and no released channel stays
    registered. *)
Theorem channel_registered_iff_held (w0 : World H) (se : SessionEnv) (pre : list Turn) :
  attached_inv w0 ->
  acceptFault se = None ->
  let w := after (dispatchLoop pre) (after (sessionStart se) w0) in
  attached_inv w
  /\ forall id, registered (p_routeResponseChannel id) (sel w) = true
                <-> routeResponseChannel w = Some id.
Proof.
  intros Ha Hacc w. subst w.
  destruct (sessionStart_channel se w0 Ha) as [_ Hstart].
  destruct (dispatchLoop_inv channel_inv (fun _ => true)
              (fun e w Hw => conj (proj1 (iteration_channel e w Hw))
                                  (forallb_always _))
              (fun _ _ => eq_refl) pre _ (Hstart Hacc)) as [[H1 H2] _].
  split; [exact H1 | exact H2].
Qed.

(** X9.  [main] never hands a null pointer to the multiplexer, neither to
    register nor to deregister. *)
Theorem main_never_registers_null (cfg : string) (sessions : list SessionEnv) (h : H) :
  forallb not_null (calls (main cfg sessions) (initialWorld h)) = true.
Proof.
  unfold main. rewrite calls_bind, forallb_app.
  assert (Hs : forallb not_null (calls (startup cfg) (initialWorld h)) = true
               /\ attached_inv (after (startup cfg) (initialWorld h))).
  { unfold startup, attached_inv.
    destruct (cfg =? "enabled")%string; split; reflexivity. }
  destruct Hs as [-> Hatt]. cbn [andb].
  apply (supervisor_inv channel_inv attached_inv not_null).
  - apply iteration_channel.
  - reflexivity.
  - intros w [Hw _]. exact Hw.
  - intros se w Hw. destruct (sessionStart_channel se w Hw) as [Hq Hc].
    split; [| split; [exact Hc | exact Hq]].
    apply (attached_inv_same w); [apply sessionStart_keeps_suppression | exact Hw].
  - exact Hatt.
Qed.

End ChannelRegistry.

(** ** Fresh session objects *)

Section FreshObjects.

Context {H : Type} `{RestartHelper H}.

(** X11.  The objects of a session are built afresh: a session that gets past
    [accept] starts its loop in a state, and after calls, that depend on
    the objects that outlive sessions only, not on the timeout, the
    registrations, the timers or the warm-restart flag the previous session
    left. *)
Theorem session_start_fresh (se : SessionEnv) (w1 w2 : World H) :
  acceptFault se = None ->
  same_process_state w1 w2 ->
  sessionStart se w1 = sessionStart se w2.
Proof.
  intros Ha.
  destruct w1 as [tmo1 ppl1 sup1 hlp1 chan1 nxt1 sl1 tms1 wse1],
           w2 as [tmo2 ppl2 sup2 hlp2 chan2 nxt2 sl2 tms2 wse2].
  unfold same_process_state. cbn [pipeline suppressionEnabled helper
    routeResponseChannel nextChannel].
  intros (-> & -> & -> & -> & ->). run. rewrite (acceptFault_None se Ha). run.
  repeat (crack; run); reflexivity.
Qed.

End FreshObjects.

(** ** Timers over a session *)

Section SessionTimers.

Context {H : Type} `{RestartHelper H}.

Ltac count_in_step l Hl :=
  rewrite (count_calls_sub (is_start_of eoiuHoldTimer) timer_call l)
    by apply start_is_timer_call;
  rewrite (count_calls_sub (is_start_of warmStartTimer) timer_call l)
    by apply start_is_timer_call;
  rewrite (count_calls_sub (is_add_of eoiuHoldTimer) timer_call l)
    by apply add_is_timer_call;
  rewrite (count_calls_sub (is_add_of warmStartTimer) timer_call l)
    by apply add_is_timer_call;
  rewrite Hl.

(** Inside the loop the hold timer is started and registered only by a
    poll tick, which takes the poll timer out; the warm-start timer is
    neither started nor registered. *)
Lemma dispatchLoop_starts (turns : list Turn) (w : World H) :
  valid_turns turns w = true ->
  let l := calls (dispatchLoop turns) w in
  (count_calls (is_start_of eoiuHoldTimer) l
     <= Nat.b2n (timer_registered eoiuCheckTimer w))%nat
  /\ (count_calls (is_add_of eoiuHoldTimer) l
        <= Nat.b2n (timer_registered eoiuCheckTimer w))%nat
  /\ count_calls (is_start_of warmStartTimer) l = 0%nat
  /\ count_calls (is_add_of warmStartTimer) l = 0%nat.
Proof.
  revert w. induction turns as [|[e|f] rest IH]; intros w Hv l; subst l.
  - cbn. repeat split; apply Nat.le_0_l.
  - simpl in Hv. apply andb_true_iff in Hv. destruct Hv as [Hr Hv].
    specialize (IH _ Hv). cbv zeta in IH. destruct IH as (IH1 & IH2 & IH3 & IH4).
    rewrite dispatchLoop_ready_calls, !count_calls_app, IH3, IH4.
    set (w' := after (iteration e) w) in *.
    destruct (iteration_timer_step e w)
      as [t Et Ht Hreg Hl | iv Et Hc Hh Hw Hl | Et Hreg Hl | Et Hreg Hl | Hreg Hl];
      fold w' in Hl; count_in_step (calls (iteration e) w) Hl; clear Hl.
    + fold w' in Hreg. rewrite (Hreg eoiuCheckTimer) in IH1, IH2.
      destruct Ht as [-> | ->]; cbn in *; repeat split; lia.
    + fold w' in Hc. rewrite Hc in IH1, IH2.
      rewrite (reported_timer e w _ Hr Et). cbn in *. repeat split; lia.
    + fold w' in Hreg. rewrite (Hreg eoiuCheckTimer) in IH1, IH2.
      cbn in *. repeat split; lia.
    + fold w' in Hreg. rewrite (Hreg eoiuCheckTimer) in IH1, IH2.
      cbn in *. repeat split; lia.
    + fold w' in Hreg. rewrite (Hreg eoiuCheckTimer) in IH1, IH2.
      cbn in *. repeat split; lia.
  - destruct (dispatchLoop_raise f rest w) as (_ & -> & _).
    cbn. repeat split; apply Nat.le_0_l.
Qed.

Lemma sessionStart_starts (se : SessionEnv) (w : World H) :
  let l := calls (sessionStart se) w in
  count_calls (is_start_of eoiuHoldTimer) l = 0%nat
  /\ count_calls (is_add_of eoiuHoldTimer) l = 0%nat
  /\ (count_calls (is_start_of warmStartTimer) l <= 1)%nat
  /\ (count_calls (is_add_of warmStartTimer) l <= 1)%nat.
Proof.
  destruct w. run. destruct (setup se); [repeat split; lia | repeat split; lia |].
  repeat (crack; run); repeat split; lia.
Qed.

(** X12.  In a session whose loop is only handed registered objects, the hold
    timer is started and registered at most once, and so is the warm-start
    timer: no timer that has fired is ever armed again. *)
Theorem timers_armed_at_most_once (w0 : World H) (se : SessionEnv) :
  valid_turns (turns se) (after (sessionStart se) w0) = true ->
  let l := calls (session se) w0 in
  (count_calls (is_start_of eoiuHoldTimer) l <= 1)%nat
  /\ (count_calls (is_add_of eoiuHoldTimer) l <= 1)%nat
  /\ (count_calls (is_start_of warmStartTimer) l <= 1)%nat
  /\ (count_calls (is_add_of warmStartTimer) l <= 1)%nat.
Proof.
  intros Hv l. subst l. rewrite session_calls, !count_calls_app.
  destruct (sessionStart_starts se w0) as (-> & -> & Hsw & Haw).
  destruct (acceptFault se).
  - unfold count_calls at 1 2 4 6. cbn [filter List.length]. repeat split; lia.
  - destruct (dispatchLoop_starts _ _ Hv) as (H1 & H2 & -> & ->).
    destruct (timer_registered eoiuCheckTimer (after (sessionStart se) w0));
      cbn in H1, H2; repeat split; lia.
Qed.

Lemma iteration_keeps_warmStartEnabled (e : Env) (w : World H) :
  warmStartEnabled (after (iteration e) w) = warmStartEnabled w.
Proof.
  rewrite iteration_after.
  change (warmStartEnabled w) with (warmStartEnabled (after (select e) w)).
  generalize (after (select e) w) as w1. intros w1.
  destruct (dispatch_cases e w1) as [m [Hcase [-> _]]].
  destruct Hcase as [t Et Hor | Et | Et | id Ec Et | Ec | Ec].
  - now rewrite reconciliationComplete_after.
  - pose proof (eoiuCheck_keeps e w1) as Hk. cbv beta in Hk.
    now injection Hk as _ _ _ _ _ ->.
  - pose proof (config_keeps e w1) as Hk. cbv beta in Hk.
    now injection Hk as _ _ _ _ ->.
  - pose proof (responses_keep e w1) as Hk. cbv beta in Hk. now rewrite Hk.
  - pose proof (flushPipeline_keeps e w1) as Hk. cbv beta in Hk.
    now injection Hk as _ _ _ _ _ _ ->.
  - reflexivity.
Qed.

(** With no timer registered, a loop that is only handed registered
    objects makes no timer call and registers no timer. *)
Lemma dispatchLoop_without_timers (turns : list Turn) (w : World H) :
  no_timer_registered w = true ->
  valid_turns turns w = true ->
  filter timer_call (calls (dispatchLoop turns) w) = []
  /\ no_timer_registered (after (dispatchLoop turns) w) = true
  /\ warmStartEnabled (after (dispatchLoop turns) w) = warmStartEnabled w.
Proof.
  revert w. induction turns as [|[e|f] rest IH]; intros w Hn Hv.
  - repeat split. exact Hn.
  - simpl in Hv. apply andb_true_iff in Hv. destruct Hv as [Hr Hv].
    assert (Hnot : forall t, temps e <> addr t).
    { intros t Et. pose proof (reported_timer e w t Hr Et) as Hin.
      unfold no_timer_registered in Hn.
      destruct t; rewrite Hin in Hn; cbn in Hn;
        rewrite ?andb_false_r in Hn; discriminate. }
    rewrite dispatchLoop_ready_calls, dispatchLoop_ready_after, filter_app.
    destruct (iteration_timer_step e w)
      as [t Et _ _ _ | iv Et _ _ _ _ | Et _ _ | Et _ _ | Hreg Hl];
      try (exfalso; eapply Hnot; eassumption).
    assert (Hn' : no_timer_registered (after (iteration e) w) = true)
      by (unfold no_timer_registered; now rewrite !Hreg).
    destruct (IH _ Hn' Hv) as (-> & -> & ->).
    rewrite Hl, iteration_keeps_warmStartEnabled. repeat split.
  - destruct (dispatchLoop_raise f rest w) as (-> & -> & _). repeat split. exact Hn.
Qed.

Lemma sessionStart_disabled (se : SessionEnv) (w : World H) :
  fst (checkAndStart (helper w)) = false ->
  filter timer_call (calls (sessionStart se) w) = []
  /\ match setup se with
     | LinkFails _ => after (sessionStart se) w = w
     | _ => no_timer_registered (after (sessionStart se) w) = true
     end
  /\ (acceptFault se = None -> warmStartEnabled (after (sessionStart se) w) = false).
Proof.
  unfold acceptFault.
  destruct w as [tmo ppl sup hlp chan nxt sl tms wse].
  cbn [helper]. intros Hc. run.
  destruct (setup se);
    [repeat split; discriminate | repeat split; discriminate |].
  destruct sup; run; [destruct chan; run |];
    (destruct (checkAndStart hlp) as [c h1]; run; subst c; run; repeat split).
Qed.

(** X13.  When warm restart is disabled, a session whose loop is only handed
    registered objects makes no timer call at all: no timer is started,
    registered or deregistered and the reconciliation hook is never
    invoked; no timer is registered at its end (a session whose link
    constructor raises has built no timer and has changed nothing); and the
    controller is never gated. *)
Theorem disabled_session_has_no_timers (w0 : World H) (se : SessionEnv) :
  fst (checkAndStart (helper w0)) = false ->
  valid_turns (turns se) (after (sessionStart se) w0) = true ->
  filter timer_call (calls (session se) w0) = []
  /\ match setup se with
     | LinkFails _ => after (session se) w0 = w0
     | _ => no_timer_registered (after (session se) w0) = true
     end
  /\ (acceptFault se = None -> controller_enabled (after (session se) w0) = true).
Proof.
  intros Hc Hv. rewrite session_calls, session_after, filter_app.
  destruct (sessionStart_disabled se w0 Hc) as (-> & Hn & Hw).
  unfold acceptFault in *. destruct (setup se).
  - repeat split; [exact Hn | discriminate].
  - repeat split; [exact Hn | discriminate].
  - destruct (dispatchLoop_without_timers _ _ Hn Hv) as (-> & -> & Hk).
    repeat split. intros _. unfold controller_enabled.
    now rewrite Hk, (Hw eq_refl).
Qed.

End SessionTimers.

(** ** The further properties on concrete runs *)

(** X3 on a concrete run. *)
Lemma responses_forwarded_in_order_witness :
  calls (dispatch twoResponses) startedSuppressed
  = [A_onRouteResponse "10.0.0.0/24" [("err_str", "SWSS_RC_SUCCESS")];
     A_onRouteResponse "10.0.1.0/24" [("err_str", "SWSS_RC_SUCCESS")]].
Proof.
  exact (proj1 (responses_forwarded_in_order twoResponses startedSuppressed 0
                  eq_refl eq_refl)).
Defined.

(** X4 on a concrete run. *)
Lemma eoiuFlagsSet_reads_witness :
  eoiuFlagsSet (eoiuTable None (Some "reached")) = false
  /\ eoiuFlagsSet (eoiuTable (Some "reached") None) = true.
Proof.
  split.
  - apply (proj1 (eoiuFlagsSet_reads (eoiuTable None (Some "reached")))).
    vm_compute. intros Hx. discriminate Hx.
  - rewrite (proj2 (eoiuFlagsSet_reads (eoiuTable (Some "reached") None)));
      [reflexivity |].
    intros old. reflexivity.
Defined.

(** X5 on a concrete run. *)
Lemma feed_event_witness :
  let w := after (sessionStart sessionBothTimers) (initialWorld helperWarm) in
  calls (iteration threeWrites) w = [A_select INFINITE]
  /\ pipeline (after (iteration threeWrites) w) = 3%N.
Proof.
  intros w.
  destruct (feed_event threeWrites w (or_introl eq_refl)) as [_ Hgated].
  assert (Hc : controller_enabled w = false) by (vm_compute; reflexivity).
  destruct (Hgated Hc) as (Hl & Hp & _).
  split; [exact Hl | exact Hp].
Defined.

(** X6 on a concrete run. *)
Lemma deferred_flush_completes_witness :
  pipeline (after (iteration wake500) (after (flushPipeline flood) floodedWorld)) = 0%N.
Proof.
  assert (Hc : controller_enabled floodedWorld = true) by (vm_compute; reflexivity).
  assert (Hp : Z.of_N (pipeline floodedWorld) >= 500) by (vm_compute; discriminate).
  assert (Hd : 0 < idleTime flood < 500) by (vm_compute; split; reflexivity).
  assert (Hi : idleTime wake500
               = idleTime flood + gSelectTimeout (after (flushPipeline flood) floodedWorld))
    by (vm_compute; reflexivity).
  exact (proj1 (proj2 (proj2
           (deferred_flush_completes flood wake500 floodedWorld Hc Hp Hd eq_refl Hi)))).
Defined.

(** X8 on a concrete run. *)
Lemma channel_registered_iff_held_witness :
  let w := after (dispatchLoop [Ready disableBatch])
             (after (sessionStart sessionIdle) startedSuppressed) in
  registered (p_routeResponseChannel 0) (sel w) = true
  <-> routeResponseChannel w = Some 0%nat.
Proof.
  intros w.
  assert (Ha : attached_inv startedSuppressed) by (vm_compute; reflexivity).
  exact (proj2 (channel_registered_iff_held startedSuppressed sessionIdle
                  [Ready disableBatch] Ha eq_refl) 0%nat).
Defined.

(** X11 on a concrete run. *)
Lemma session_start_fresh_witness :
  sessionStart sessionIdle leftover = sessionStart sessionIdle (initialWorld helperCold).
Proof.
  apply (session_start_fresh sessionIdle leftover (initialWorld helperCold));
    [reflexivity | vm_compute; repeat split].
Defined.

(** X12 on a concrete run. *)
Lemma timers_armed_at_most_once_witness :
  (count_calls (is_start_of eoiuHoldTimer)
     (calls (session sessionBothTimers) (initialWorld helperWarm)) <= 1)%nat.
Proof.
  assert (Hv : valid_turns (turns sessionBothTimers)
                 (after (sessionStart sessionBothTimers) (initialWorld helperWarm))
               = true) by (vm_compute; reflexivity).
  exact (proj1 (timers_armed_at_most_once (initialWorld helperWarm)
                  sessionBothTimers Hv)).
Defined.

(** X13 on a concrete run. *)
Lemma disabled_session_has_no_timers_witness :
  filter timer_call (calls (session sessionCold) (initialWorld helperCold)) = [].
Proof.
  assert (Hc : fst (checkAndStart (helper (initialWorld helperCold))) = false)
    by reflexivity.
  assert (Hv : valid_turns (turns sessionCold)
                 (after (sessionStart sessionCold) (initialWorld helperCold)) = true)
    by (vm_compute; reflexivity).
  exact (proj1 (disabled_session_has_no_timers (initialWorld helperCold)
                  sessionCold Hc Hv)).
Defined.
